(** * LinkedIn analytics dashboard: the table pipeline of [main.py]

    The script reads two CSV exports with pandas, normalises them, merges a
    saved "boosted" annotation, filters by date and hashtag, and shows
    benchmark means with per-row flags.  This development embeds those steps
    and states what the specification says about them.

    Conventions of the embedding.
    - A pandas column is the list of its cells; a frame is the list of its
      labelled columns, in column order.  Row labels are not modelled: every
      assignment of the script puts back a column computed from the same
      frame, so pandas' alignment by row label is alignment by position.
    - A float64 is [FNaN], an infinity, or the rational it denotes; rounding
      of float64 arithmetic is not modelled.
    - A string is a [string] of one-byte characters; case folding is the
      ASCII one.
    - The text parsers behind [pd.to_numeric] and [pd.to_datetime], and
      Python's [str] of a number or of a timestamp, are parameters. *)

From Stdlib Require Import List String Ascii Bool Arith ZArith QArith Qround Qabs Lia.
From Stdlib Require Import DecimalString Permutation Sorted.
Import ListNotations.
Local Open Scope string_scope.
Local Open Scope list_scope.

(* ================================================================= *)
(** ** Python values *)

(** float64: not-a-number, the two infinities, or a finite number. *)
Inductive float : Type :=
| FNaN
| FInf (negative : bool)
| FNum (q : Q).

Definition is_nan (x : float) : bool :=
  match x with FNaN => true | _ => false end.

(** [a <= b] on floats; every comparison with NaN is false. *)
Definition fle (a b : float) : bool :=
  match a, b with
  | FNaN, _ | _, FNaN => false
  | FInf true, _ => true
  | _, FInf false => true
  | FInf false, _ => false
  | _, FInf true => false
  | FNum p, FNum q => Qle_bool p q
  end.

(** [a >= b]. *)
Definition fge (a b : float) : bool := fle b a.

Definition Qneg_bool (q : Q) : bool := negb (Qle_bool 0 q).

Definition fmul (a b : float) : float :=
  match a, b with
  | FNaN, _ | _, FNaN => FNaN
  | FNum p, FNum q => FNum (p * q)
  | FInf s, FInf t => FInf (xorb s t)
  | FInf s, FNum q | FNum q, FInf s =>
      if Qeq_bool q 0 then FNaN else FInf (xorb s (Qneg_bool q))
  end.

Definition fadd (a b : float) : float :=
  match a, b with
  | FNaN, _ | _, FNaN => FNaN
  | FNum p, FNum q => FNum (p + q)
  | FInf s, FNum _ | FNum _, FInf s => FInf s
  | FInf s, FInf t => if Bool.eqb s t then FInf s else FNaN
  end.

(** Division by a row count [n >= 1]. *)
Definition fdiv_count (a : float) (n : nat) : float :=
  match a with
  | FNum p => FNum (p / inject_Z (Z.of_nat n))
  | other => other
  end.

(** [bool(x)] of a float: everything but zero is true, NaN included. *)
Definition truthy (x : float) : bool :=
  match x with
  | FNum q => negb (Qeq_bool q 0)
  | _ => true
  end.

(** A percentage: a finite number between 0 and 100. *)
Definition percent (x : float) : Prop :=
  exists q : Q, x = FNum q /\ (0 <= q)%Q /\ (q <= 100)%Q.

(** A cell of a column, or a scalar handed to a function. *)
Inductive value : Type :=
| VNone
| VNaT
| VBool (b : bool)
| VFloat (x : float)
| VStr (s : string)
| VTime (t : Z).

(** [pd.isna]. *)
Definition isna (v : value) : bool :=
  match v with
  | VNone | VNaT | VFloat FNaN => true
  | _ => false
  end.

Inductive exn : Type :=
| KeyError (key : string)
| TypeError (msg : string)
| ValueError (msg : string).

(** What a call does: it returns or it raises. *)
Inductive outcome (A : Type) : Type :=
| Returned (a : A)
| Raised (e : exn).
Arguments Returned {A} a.
Arguments Raised {A} e.

Definition obind {A B} (c : outcome A) (k : A -> outcome B) : outcome B :=
  match c with
  | Returned a => k a
  | Raised e => Raised e
  end.

Declare Scope outcome_scope.
Delimit Scope outcome_scope with outcome.
Notation "x <- c ;; k" := (obind c (fun x => k))
  (at level 61, c at next level, right associativity) : outcome_scope.

(** A loop [for x in xs: s = body(s, x)] that stops at the first raise. *)
Fixpoint for_each {A S} (xs : list A) (body : S -> A -> outcome S) (s : S)
  : outcome S :=
  match xs with
  | [] => Returned s
  | x :: rest =>
      match body s x with
      | Returned s' => for_each rest body s'
      | Raised e => Raised e
      end
  end.

(** [mapM]: a cell-wise operation that raises as soon as one cell does. *)
Fixpoint traverse {A B} (f : A -> outcome B) (xs : list A) : outcome (list B) :=
  match xs with
  | [] => Returned []
  | x :: rest =>
      match f x with
      | Returned y =>
          match traverse f rest with
          | Returned ys => Returned (y :: ys)
          | Raised e => Raised e
          end
      | Raised e => Raised e
      end
  end.

(* ================================================================= *)
(** ** pandas frames *)

Definition Series := list value.
Definition DataFrame := list (string * Series).

(** [df.columns]. *)
Definition labels (df : DataFrame) : list string := map fst df.

(** [len(df)] for a frame with at least one column. *)
Definition nrows (df : DataFrame) : nat :=
  match df with
  | [] => 0
  | (_, s) :: _ => List.length s
  end.

(** [c in df.columns]. *)
Definition has_column (df : DataFrame) (c : string) : bool :=
  existsb (String.eqb c) (labels df).

(** [df[c]] yields a Series when one column carries the label and a
    sub-frame when several do. *)
Inductive selection : Type :=
| ASeries (s : Series)
| AFrame (sub : DataFrame).

Definition labelled (c : string) (df : DataFrame) : DataFrame :=
  filter (fun col => String.eqb (fst col) c) df.

(** [df.get(c)]: [None] when no column carries the label. *)
Definition get (df : DataFrame) (c : string) : option selection :=
  match labelled c df with
  | [] => None
  | [(_, s)] => Some (ASeries s)
  | sub => Some (AFrame sub)
  end.

(** [df[c]]. *)
Definition getitem (df : DataFrame) (c : string) : outcome selection :=
  match get df c with
  | Some sel => Returned sel
  | None => Raised (KeyError c)
  end.

(** [df[c]] where the script goes on with Series methods.  With a sub-frame
    pandas fails sooner or later, in a way that depends on the method; the
    stages below are stated for frames with distinct labels and stop here
    otherwise. *)
Definition series (df : DataFrame) (c : string) : outcome Series :=
  match getitem df c with
  | Returned (ASeries s) => Returned s
  | Returned (AFrame _) => Raised (ValueError ("label is not unique: " ++ c)%string)
  | Raised e => Raised e
  end.

(** [df[c] = s]: every column labelled [c] is replaced; a new label is
    appended as the last column. *)
Definition setitem (df : DataFrame) (c : string) (s : Series) : DataFrame :=
  if has_column df c
  then map (fun col => if String.eqb (fst col) c then (c, s) else col) df
  else df ++ [(c, s)].

(** [df[c] = v] with a scalar: the scalar fills the column. *)
Definition setitem_scalar (df : DataFrame) (c : string) (v : value) : DataFrame :=
  setitem df c (repeat v (nrows df)).

(** [df[[c1, c2, ...]]]. *)
Fixpoint select_columns (df : DataFrame) (cs : list string) : outcome DataFrame :=
  match cs with
  | [] => Returned []
  | c :: rest =>
      match labelled c df with
      | [] => Raised (KeyError c)
      | cols =>
          match select_columns df rest with
          | Returned more => Returned (cols ++ more)
          | Raised e => Raised e
          end
      end
  end.

(** [df.drop(columns=[c])]. *)
Definition drop_column (df : DataFrame) (c : string) : outcome DataFrame :=
  if has_column df c
  then Returned (filter (fun col => negb (String.eqb (fst col) c)) df)
  else Raised (KeyError c).

(** [df.rename(columns=renames)]: labels that are keys of the dict are
    replaced, the others pass through. *)
Definition rename_label (renames : list (string * string)) (c : string) : string :=
  match find (fun kv => String.eqb (fst kv) c) renames with
  | Some (_, c') => c'
  | None => c
  end.

Definition rename (df : DataFrame) (renames : list (string * string)) : DataFrame :=
  map (fun col => (rename_label renames (fst col), snd col)) df.

(** The frame with [f] applied to the cells of the columns labelled [c]:
    what [df[c] = f(df[c])] comes to. *)
Definition on_column (c : string) (f : Series -> Series) (df : DataFrame) : DataFrame :=
  map (fun col => if String.eqb (fst col) c then (c, f (snd col)) else col) df.

(** Cells kept by a boolean mask: [s[mask]]. *)
Fixpoint mask_select {A} (mask : list bool) (s : list A) : list A :=
  match mask, s with
  | m :: mask', x :: s' =>
      if m then x :: mask_select mask' s' else mask_select mask' s'
  | _, _ => []
  end.

(** [df[mask]]: the rows where the mask is true. *)
Definition filter_rows (df : DataFrame) (mask : list bool) : DataFrame :=
  map (fun col => (fst col, mask_select mask (snd col))) df.

(** The numbers of a numeric column.  Booleans count as 0 and 1 and [None]
    as a missing number; text and timestamps are not numbers. *)
Definition number_of (v : value) : outcome float :=
  match v with
  | VFloat x => Returned x
  | VBool b => Returned (FNum (if b then 1 else 0))
  | VNone => Returned FNaN
  | VNaT | VTime _ | VStr _ => Raised (TypeError "not a number")
  end.

Definition numbers (s : Series) : outcome (list float) :=
  traverse number_of s.

Definition valid (xs : list float) : list float :=
  filter (fun x => negb (is_nan x)) xs.

Definition fmax2 (a b : float) : float := if fle a b then b else a.

(** [Series.max()] and [Series.mean()] skip missing values and are NaN
    when nothing is left. *)
Definition fmax (xs : list float) : float :=
  match valid xs with
  | [] => FNaN
  | x :: rest => fold_left fmax2 rest x
  end.

(** [Series.mean()]: the mean of the numbers that are there, NaN when
    there is none.  The number is the exact one; float64 arithmetic gives
    it up to rounding, so a statement may use that a mean is NaN or is a
    number, and what it is on numbers whose sum and quotient are exact, but
    not on which side of it a cell next to it falls. *)
Definition fmean (xs : list float) : float :=
  match valid xs with
  | [] => FNaN
  | ys => fdiv_count (fold_left fadd ys (FNum 0)) (List.length ys)
  end.

Definition series_max (s : Series) : outcome float :=
  (xs <- numbers s ;; Returned (fmax xs))%outcome.

Definition series_mean (s : Series) : outcome float :=
  (xs <- numbers s ;; Returned (fmean xs))%outcome.

(** [s * k]. *)
Definition series_mul (s : Series) (k : float) : outcome Series :=
  (xs <- numbers s ;; Returned (map (fun x => VFloat (fmul x k)) xs))%outcome.

(* ================================================================= *)
(** ** What the page shows *)

(** The streamlit calls of the script that the statements below talk
    about.  The data of a download button is the frame whose
    [to_csv(index=False)] text the button serves. *)
Inductive ui_event : Type :=
| st_warning (body : string)
| st_error (body : string)
| st_metric (label : string) (text : string)
| st_download_button (label : string) (data : DataFrame) (file_name : string).

(** A piece of the script: what it put on the page, and how it ended. *)
Definition py (A : Type) : Type := (list ui_event * outcome A)%type.

Definition ret {A} (a : A) : py A := ([], Returned a).

Definition lift {A} (c : outcome A) : py A := ([], c).

Definition emit (e : ui_event) : py unit := ([e], Returned tt).

Definition bind {A B} (c : py A) (k : A -> py B) : py B :=
  match c with
  | (shown, Returned a) => let (more, r) := k a in (shown ++ more, r)
  | (shown, Raised e) => (shown, Raised e)
  end.

Declare Scope py_scope.
Delimit Scope py_scope with py.
Notation "x <- c ;; k" := (bind c (fun x => k))
  (at level 61, c at next level, right associativity) : py_scope.
Notation "c ;;; k" := (bind c (fun _ => k))
  (at level 61, right associativity) : py_scope.

(* ================================================================= *)
(** ** Loading the two exports *)

Definition POSTS_RENAMES : list (string * string) :=
  [ ("Post title", "Post Title");
    ("Post link", "Post Link");
    ("Post type", "Post Type");
    ("Created date", "Created Date");
    ("Impressions", "Impressions");
    ("Clicks", "Clicks");
    ("Click through rate (CTR)", "CTR");
    ("Likes", "Likes");
    ("Comments", "Comments");
    ("Reposts", "Reposts");
    ("Follows", "Follows");
    ("Engagement rate", "Engagement Rate") ].

(** The columns [read_posts_csv] makes numeric, in the order of its loop. *)
Definition NUMERIC_COLUMNS : list string :=
  [ "Impressions"; "Clicks"; "CTR"; "Likes"; "Comments"; "Reposts"; "Follows";
    "Engagement Rate" ].

Section Readers.

(** pandas' reading of a text cell as a number, [None] when it is none. *)
Variable parse_number : string -> option float.

(** [pd.to_datetime(s, errors="coerce")] on a Series. *)
Variable to_datetime : Series -> outcome Series.

Definition to_numeric_cell (v : value) : float :=
  match v with
  | VFloat x => x
  | VBool b => FNum (if b then 1 else 0)
  | VStr s => match parse_number s with Some x => x | None => FNaN end
  | VTime t => FNum (inject_Z t)
  | VNone | VNaT => FNaN
  end.

(** [pd.to_numeric(s, errors="coerce")] on a Series: a float column, with
    NaN where a cell is no number. *)
Definition to_numeric (s : Series) : Series :=
  map (fun v => VFloat (to_numeric_cell v)) s.

(** The frame after [to_numeric] went over the columns [cs], one after
    the other. *)
Definition coerced (cs : list string) (df : DataFrame) : DataFrame :=
  fold_left (fun d c => on_column c to_numeric d) cs df.

(** [df[c] = pd.to_numeric(df[c], errors="coerce")]. *)
Definition coerce_numeric (df : DataFrame) (c : string) : outcome DataFrame :=
  match getitem df c with
  | Returned (ASeries s) => Returned (setitem df c (to_numeric s))
  | Returned (AFrame _) =>
      Raised (TypeError "arg must be a list, tuple, 1-d array, or Series")
  | Raised e => Raised e
  end.

(** [df["Created Date"] = pd.to_datetime(df.get("Created Date"),
    errors="coerce")]: [to_datetime(None)] is [None], and assigning
    [None] fills the column with it. *)
Definition set_created_date (df : DataFrame) : outcome DataFrame :=
  match get df "Created Date" with
  | None => Returned (setitem_scalar df "Created Date" VNone)
  | Some (ASeries s) =>
      (s' <- to_datetime s ;; Returned (setitem df "Created Date" s'))%outcome
  | Some (AFrame _) =>
      Raised (ValueError "to assemble mappings requires at least that [year, month, day] be specified")
  end.

(** [if "CTR" in df.columns and df["CTR"].max() <= 1:
       df["CTR"] = df["CTR"] * 100]. *)
Definition fix_ctr (df : DataFrame) : outcome DataFrame :=
  if has_column df "CTR" then
    (ctr <- series df "CTR" ;;
     top <- series_max ctr ;;
     if fle top (FNum 1)
     then (scaled <- series_mul ctr (FNum 100) ;;
           Returned (setitem df "CTR" scaled))
     else Returned df)%outcome
  else Returned df.

(** [read_posts_csv(file)], from the frame [pd.read_csv(file, skiprows=1)]
    parsed. *)
Definition read_posts_csv (file : DataFrame) : py DataFrame :=
  let df := rename file POSTS_RENAMES in
  lift (df <- set_created_date df ;;
        df <- for_each NUMERIC_COLUMNS
                (fun df c => if has_column df c then coerce_numeric df c
                             else Returned df) df ;;
        fix_ctr df)%outcome.

(** [read_metrics_csv(file)], from the frame [pd.read_csv(file,
    skiprows=1)] parsed. *)
Definition read_metrics_csv (file : DataFrame) : py DataFrame :=
  let df := file in
  ((if negb (has_column df "Date")
    then emit (st_warning "Could not find 'Date' column in Metrics file.")
    else ret tt) ;;;
   lift (date <- getitem df "Date" ;;
         date <- match date with
                 | ASeries s => to_datetime s
                 | AFrame _ =>
                     Raised (ValueError "to assemble mappings requires at least that [year, month, day] be specified")
                 end ;;
         let df := setitem df "Date" date in
         for_each (labels df)
           (fun df c => if negb (String.eqb c "Date") then coerce_numeric df c
                        else Returned df) df)%outcome)%py.

End Readers.

(* ================================================================= *)
(** ** Benchmarks and flags *)

Definition ABOVE_AVG : string := "✅ Above Avg".
Definition BELOW_AVG : string := "❌ Below Avg".

Definition as_real (v : value) : option float :=
  match v with
  | VFloat x => Some x
  | VBool b => Some (FNum (if b then 1 else 0))
  | _ => None
  end.

(** Python's [a >= b]: numbers with numbers, text with text, timestamps
    with timestamps; [None] and mixed operands raise [TypeError]. *)
Definition py_ge (a b : value) : outcome bool :=
  match as_real a, as_real b with
  | Some x, Some y => Returned (fge x y)
  | _, _ =>
      match a, b with
      | VStr s, VStr t => Returned (String.leb t s)
      | VTime s, VTime t => Returned (Z.leb t s)
      | VNaT, VTime _ | VTime _, VNaT | VNaT, VNaT => Returned false
      | _, _ => Raised (TypeError "'>=' not supported between these operands")
      end
  end.

(** [flag(value, avg)]: the [try] returns one of the two marks, the
    [except] the empty string. *)
Definition flag (value avg : value) : string :=
  match py_ge value avg with
  | Returned true => ABOVE_AVG
  | Returned false => BELOW_AVG
  | Raised _ => ""
  end.


(** [filtered[c].mean()]. *)
Definition column_mean (df : DataFrame) (c : string) : outcome float :=
  (s <- series df c ;; series_mean s)%outcome.

(** The dict [metrics], in insertion order. *)
Definition metrics (filtered : DataFrame) : outcome (list (string * float)) :=
  (er <- column_mean filtered "Engagement Rate" ;;
   ctr <- column_mean filtered "CTR" ;;
   impressions <- column_mean filtered "Impressions" ;;
   clicks <- column_mean filtered "Clicks" ;;
   likes <- column_mean filtered "Likes" ;;
   Returned [ ("Avg Engagement Rate", er);
              ("Avg CTR", ctr);
              ("Avg Impressions", impressions);
              ("Avg Clicks", clicks);
              ("Avg Likes", likes) ])%outcome.

(** [d[k]] on a dict. *)
Definition dict_get {A} (d : list (string * A)) (k : string) : outcome A :=
  match find (fun kv => String.eqb (fst kv) k) d with
  | Some (_, v) => Returned v
  | None => Raised (KeyError k)
  end.

(** [needle in hay] on strings. *)
Fixpoint contains (needle hay : string) : bool :=
  prefix needle hay ||
  match hay with
  | EmptyString => false
  | String _ rest => contains needle rest
  end.

(** [v or 0]. *)
Definition or_zero (v : float) : float :=
  if truthy v then v else FNum 0.

Definition round_half_even (q : Q) : Z :=
  let f := Qfloor q in
  match Qcompare (q - inject_Z f) (1 # 2) with
  | Lt => f
  | Gt => (f + 1)%Z
  | Eq => if Z.even f then f else (f + 1)%Z
  end.

Definition decimal (n : Z) : string :=
  NilZero.string_of_uint (N.to_uint (Z.to_N n)).

Fixpoint zeros (n : nat) : string :=
  match n with
  | O => ""
  | S n' => String "0" (zeros n')
  end.

Definition pad_zeros (width : nat) (s : string) : string :=
  (zeros (width - String.length s) ++ s)%string.

(** Commas between groups of three digits, on the reversed digits. *)
Fixpoint group3 (rev_digits : list ascii) (k : nat) : list ascii :=
  match rev_digits with
  | [] => []
  | d :: rest =>
      match k with
      | 3%nat => ","%char :: d :: group3 rest 1
      | _ => d :: group3 rest (S k)
      end
  end.

Definition thousands (s : string) : string :=
  string_of_list_ascii (rev (group3 (rev (list_ascii_of_string s)) 0)).

(** [f"{x:.<digits>f}"], and [f"{x:,.<digits>f}"] when [grouping]. *)
Definition format_fixed (digits : nat) (grouping : bool) (x : float) : string :=
  match x with
  | FNaN => "nan"
  | FInf false => "inf"
  | FInf true => "-inf"
  | FNum q =>
      let scale := (10 ^ Z.of_nat digits)%Z in
      let n := round_half_even (Qabs q * inject_Z scale) in
      let whole := decimal (n / scale) in
      let whole := if grouping then thousands whole else whole in
      ((if Qneg_bool q then "-" else "") ++ whole ++
       match digits with
       | O => ""
       | _ => "." ++ pad_zeros digits (decimal (n mod scale))
       end)%string
  end.

(** The loop over [zip(cols, metrics.items())]: one [col.metric] each. *)
Definition metric_text (k : string) (v : float) : string :=
  if contains "Rate" k || contains "CTR" k
  then (format_fixed 2 false (or_zero v) ++ "%")%string
  else format_fixed 0 true (or_zero v).

Fixpoint show_metrics (metrics : list (string * float)) : py unit :=
  match metrics with
  | [] => ret tt
  | (k, v) :: rest => (emit (st_metric k (metric_text k v)) ;;; show_metrics rest)%py
  end.

(** [df[flag_label] = df[column].apply(lambda x: flag(x, metrics[key]))]. *)
Definition with_flag (metrics : list (string * float)) (df : DataFrame)
    (flag_label column key : string) : outcome DataFrame :=
  (s <- series df column ;;
   avg <- dict_get metrics key ;;
   Returned (setitem df flag_label (map (fun x => VStr (flag x (VFloat avg))) s)))%outcome.

Definition filtered_display (filtered : DataFrame) (metrics : list (string * float))
  : outcome DataFrame :=
  (df <- with_flag metrics filtered "ER Flag" "Engagement Rate" "Avg Engagement Rate" ;;
   df <- with_flag metrics df "CTR Flag" "CTR" "Avg CTR" ;;
   df <- with_flag metrics df "Impressions Flag" "Impressions" "Avg Impressions" ;;
   df <- with_flag metrics df "Clicks Flag" "Clicks" "Avg Clicks" ;;
   with_flag metrics df "Likes Flag" "Likes" "Avg Likes")%outcome.

(* ================================================================= *)
(** ** The boosted configuration *)

Definition float_eqb (x y : float) : bool :=
  match x, y with
  | FNum p, FNum q => Qeq_bool p q
  | FInf s, FInf t => Bool.eqb s t
  | _, _ => false
  end.

(** Equality of join keys: equal cells match, and so do two missing
    keys.  Where a bool meets a float the keys are compared as Python
    objects, for which [True == 1.0] and [False == 0.0]. *)
Definition key_eqb (a b : value) : bool :=
  if isna a then isna b
  else match a, b with
       | VStr s, VStr t => String.eqb s t
       | VBool x, VBool y => Bool.eqb x y
       | VFloat x, VFloat y => float_eqb x y
       | VBool x, VFloat y | VFloat y, VBool x =>
           float_eqb (FNum (if x then 1 else 0)) y
       | VTime s, VTime t => Z.eqb s t
       | _, _ => false
       end.

(** The dtype pandas gives a column with these cells: [float64] for
    numbers and NaN only, [bool] for booleans only, [datetime64[ns]] for
    timestamps and NaT only, [object] for everything else, text with or
    without missing cells included. *)
Inductive dtype : Type := object_ | float64 | bool_ | datetime64.

Definition dtype_of (s : Series) : dtype :=
  if forallb (fun v => match v with VFloat _ => true | _ => false end) s
  then float64
  else if forallb (fun v => match v with VBool _ => true | _ => false end) s
  then bool_
  else if forallb (fun v => match v with VTime _ | VNaT => true | _ => false end) s
  then datetime64
  else object_.

(** Whether [merge] joins on two key columns or refuses them.  It does
    not look at the dtypes when one side has no row; two sides without a
    row come from the same export here and have one dtype.  Otherwise text
    does not go with numbers, and timestamps go with timestamps only. *)
Definition mergeable (left_keys right_keys : Series) : bool :=
  match left_keys, right_keys with
  | [], _ | _, [] => true
  | _, _ =>
      match dtype_of left_keys, dtype_of right_keys with
      | object_, float64 | float64, object_ => false
      | datetime64, datetime64 => true
      | datetime64, _ | _, datetime64 => false
      | _, _ => true
      end
  end.

(** The cells of the right column [r] on the rows whose key matches [k],
    in row order. *)
Definition hits (k : value) (right_keys r : Series) : Series :=
  map snd (filter (fun kv => key_eqb k (fst kv)) (combine right_keys r)).

(** A left join keeps the left rows in order; a row with [n] partners is
    repeated [n] times, a row with none is kept once. *)
Definition spread_left (left_keys right_keys s : Series) : Series :=
  flat_map
    (fun kv => repeat (snd kv)
                 (Nat.max 1 (List.length (hits (fst kv) right_keys right_keys))))
    (combine left_keys s).

(** The right cells that come along: the partners' cells in right row
    order, NaN for a left row without partner. *)
Definition spread_right (left_keys right_keys r : Series) : Series :=
  flat_map
    (fun k => match hits k right_keys r with
              | [] => [VFloat FNaN]
              | cells => cells
              end)
    left_keys.

(** [left.merge(right, on=on, how="left", suffixes=(lsuffix, rsuffix))]:
    the left columns, then the right columns but the key; a label that both
    sides carry outside the key gets the side's suffix.  Key columns that
    do not go together are refused with a [ValueError]. *)
Definition merge_left (left right : DataFrame) (on lsuffix rsuffix : string)
  : outcome DataFrame :=
  (left_keys <- series left on ;;
   right_keys <- series right on ;;
   let shared c :=
     has_column left c && has_column right c && negb (String.eqb c on) in
   if negb (mergeable left_keys right_keys)
   then Raised (ValueError "You are trying to merge on columns of different dtypes")
   else
   Returned
     (map (fun col =>
             ((if shared (fst col) then fst col ++ lsuffix else fst col)%string,
              spread_left left_keys right_keys (snd col))) left
      ++ map (fun col =>
                ((if shared (fst col) then fst col ++ rsuffix else fst col)%string,
                 spread_right left_keys right_keys (snd col)))
           (filter (fun col => negb (String.eqb (fst col) on)) right)))%outcome.

(** [a.combine_first(b)] on two columns of one frame: [a] where it is not
    missing, [b] elsewhere. *)
Definition combine_first (a b : Series) : Series :=
  map (fun xy => if isna (fst xy) then snd xy else fst xy) (combine a b).

(** The rows the specification gives one post, from the saved titles
    [saved_titles] and flags [saved_flags]: without a saved row of that
    title the post is there once, with [false]; otherwise once per saved
    row, with the saved flag, or [false] where the saved flag is missing. *)
Definition merged_rows_spec (saved_titles saved_flags : Series)
    (post : value * value) : list (value * value * value) :=
  match hits (snd post) saved_titles saved_flags with
  | [] => [(fst post, snd post, VBool false)]
  | cells =>
      map (fun saved =>
             (fst post, snd post, if isna saved then VBool false else saved))
        cells
  end.

(** A column that pandas reads as text: text cells and missing cells, not
    all of them missing.  [merge] refuses to join a text key with a
    numeric one, so the join is stated for title columns of this kind. *)
Definition text_cell (v : value) : Prop :=
  v = VFloat FNaN \/ exists s, v = VStr s.

Definition text_column (s : Series) : Prop :=
  Forall text_cell s /\ (s = [] \/ exists t, In (VStr t) s).

(** Lines 111-118: the uploaded configuration, from the frame
    [pd.read_csv(boosted_config_file)] parsed. *)
Definition df_boosted_config (boosted_config_file : option DataFrame)
  : py (option DataFrame) :=
  match boosted_config_file with
  | None => ret None
  | Some df =>
      if negb (has_column df "Post Title") || negb (has_column df "Boosted")
      then (emit (st_error "⚠️ boosted_config.csv must have 'Post Title' and 'Boosted' columns.") ;;;
            ret None)%py
      else ret (Some df)
  end.

(** Lines 125-137: the table handed to the editor. *)
Definition boosted_df (df_posts : DataFrame) (df_boosted_config : option DataFrame)
  : outcome DataFrame :=
  (boosted_df <- select_columns df_posts ["Created Date"; "Post Title"] ;;
   let boosted_df := setitem_scalar boosted_df "Boosted" (VBool false) in
   match df_boosted_config with
   | None => Returned boosted_df
   | Some config =>
       saved <- select_columns config ["Post Title"; "Boosted"] ;;
       boosted_df <- merge_left boosted_df saved "Post Title" "" "_saved" ;;
       from_file <- series boosted_df "Boosted_saved" ;;
       default <- series boosted_df "Boosted" ;;
       let boosted_df := setitem boosted_df "Boosted" (combine_first from_file default) in
       drop_column boosted_df "Boosted_saved"
   end)%outcome.

(** [download_csv_button(df, filename, label)]. *)
Definition download_csv_button (df : DataFrame) (filename label : string) : py unit :=
  emit (st_download_button label df filename).

(* ================================================================= *)
(** ** Regular expressions, as far as the hashtag filter uses them *)

Definition tab : ascii := "009"%char.
Definition newline : ascii := "010"%char.
Definition vtab : ascii := "011"%char.
Definition formfeed : ascii := "012"%char.
Definition creturn : ascii := "013"%char.
Definition backslash : ascii := "\"%char.

(** The characters [re.escape] puts a backslash before. *)
Definition SPECIAL_CHARS : list ascii :=
  list_ascii_of_string "()[]{}?*+-|^$\.&~# " ++ [tab; newline; creturn; vtab; formfeed].

Definition special (c : ascii) : bool := existsb (Ascii.eqb c) SPECIAL_CHARS.

(** [re.escape(s)]. *)
Fixpoint re_escape (s : string) : string :=
  match s with
  | EmptyString => EmptyString
  | String c rest =>
      if special c then String backslash (String c (re_escape rest))
      else String c (re_escape rest)
  end.

(** A compiled pattern: alternatives, each a sequence of atoms. *)
Inductive atom : Type :=
| Lit (c : ascii)
| AnyChar.

Definition regex := list (list atom).

Definition in_range (lo hi : nat) (c : ascii) : bool :=
  (lo <=? nat_of_ascii c)%nat && (nat_of_ascii c <=? hi)%nat.

Definition alnum (c : ascii) : bool :=
  in_range 48 57 c || in_range 65 90 c || in_range 97 122 c.

(** Characters with a meaning of their own that the fragment leaves out:
    groups, classes, repetition and anchors. *)
Definition unsupported (c : ascii) : bool :=
  existsb (Ascii.eqb c) (list_ascii_of_string "()[]{}?*+^$").

(** One more atom at the front of the first alternative. *)
Definition push (a : atom) (branches : regex) : regex :=
  match branches with
  | [] => []
  | b :: more => (a :: b) :: more
  end.

(** [re.compile(p)] on the fragment made of literal characters, [.], [|]
    and a backslash before a character that is no letter or digit;
    [None] for every other pattern, valid or not. *)
Fixpoint re_compile (p : string) : option regex :=
  match p with
  | EmptyString => Some [[]]
  | String c rest =>
      if Ascii.eqb c "|" then option_map (cons []) (re_compile rest)
      else if Ascii.eqb c backslash then
        match rest with
        | EmptyString => None
        | String d rest' =>
            if alnum d then None else option_map (push (Lit d)) (re_compile rest')
        end
      else if Ascii.eqb c "." then option_map (push AnyChar) (re_compile rest)
      else if unsupported c then None
      else option_map (push (Lit c)) (re_compile rest)
  end.

(** Text made of ASCII characters: on it [\w], [str.lower], matching up
    to case and the order of strings are what the definitions below say. *)
Definition is_ascii (s : string) : bool :=
  forallb (fun c => (nat_of_ascii c <? 128)%nat) (list_ascii_of_string s).

(** Lower case on ASCII text, where the letters that differ by case are
    [A-Z] and [a-z]; the statements about matching up to case are made for
    text that [is_ascii] holds of. *)
Definition lower (c : ascii) : ascii :=
  if in_range 65 90 c then ascii_of_nat (nat_of_ascii c + 32) else c.

Fixpoint lower_string (s : string) : string :=
  match s with
  | EmptyString => EmptyString
  | String c rest => String (lower c) (lower_string rest)
  end.

(** One atom against one character, under [re.IGNORECASE], on ASCII
    text. *)
Definition atom_matches (a : atom) (c : ascii) : bool :=
  match a with
  | Lit l => Ascii.eqb (lower l) (lower c)
  | AnyChar => negb (Ascii.eqb c newline)
  end.

Fixpoint match_here (atoms : list atom) (s : string) : bool :=
  match atoms with
  | [] => true
  | a :: more =>
      match s with
      | EmptyString => false
      | String c rest => atom_matches a c && match_here more rest
      end
  end.

Fixpoint search_branch (atoms : list atom) (s : string) : bool :=
  match_here atoms s ||
  match s with
  | EmptyString => false
  | String _ rest => search_branch atoms rest
  end.

(** [regex.search(s) is not None]. *)
Definition re_search (r : regex) (s : string) : bool :=
  existsb (fun branch => search_branch branch s) r.

(** [lower(t) in lower(s)]: [t] is a substring of [s] up to case. *)
Definition ci_contains (t s : string) : bool :=
  contains (lower_string t) (lower_string s).

(* ================================================================= *)
(** ** The filters *)

(** [cell >= Timestamp] and [cell <= Timestamp] inside a column
    comparison: a missing cell compares false. *)
Definition ge_timestamp (t : Z) (v : value) : outcome bool :=
  match v with
  | VTime s => Returned (Z.leb t s)
  | VNone | VNaT | VFloat FNaN => Returned false
  | _ => Raised (TypeError "Invalid comparison with Timestamp")
  end.

Definition le_timestamp (t : Z) (v : value) : outcome bool :=
  match v with
  | VTime s => Returned (Z.leb s t)
  | VNone | VNaT | VFloat FNaN => Returned false
  | _ => Raised (TypeError "Invalid comparison with Timestamp")
  end.

(** [a & b] on two masks of one frame. *)
Definition mask_and (a b : list bool) : list bool :=
  map (fun xy => fst xy && snd xy) (combine a b).

(** What a cell of the creation-date column is after loading: a
    timestamp, NaT, or the [None] of a file without that column. *)
Definition date_cell (v : value) : Prop :=
  match v with
  | VTime _ | VNaT | VNone => True
  | _ => False
  end.

(** The specification's date test: a timestamp in [[start, end_]]. *)
Definition within (start end_ : Z) (v : value) : bool :=
  match v with
  | VTime t => Z.leb start t && Z.leb t end_
  | _ => false
  end.

(** The date test for what the date picker holds: it applies when two
    dates are picked. *)
Definition date_ok (date_range : list Z) (v : value) : bool :=
  match date_range with
  | [start; end_] => within start end_ v
  | _ => true
  end.

(** A tag read as a sequence of literal characters. *)
Definition literal (s : string) : list atom :=
  map Lit (list_ascii_of_string s).

Definition prepend (atoms : list atom) (r : regex) : regex :=
  match r with
  | [] => []
  | b :: more => (atoms ++ b) :: more
  end.

Section Filters.

(** Python's [str] of a float that is no NaN, and of a timestamp. *)
Variable repr_float : float -> string.
Variable repr_timestamp : Z -> string.

(** A cell under [astype(str)]. *)
Definition astype_str (v : value) : string :=
  match v with
  | VStr s => s
  | VNone => "None"
  | VNaT => "NaT"
  | VBool true => "True"
  | VBool false => "False"
  | VFloat FNaN => "nan"
  | VFloat x => repr_float x
  | VTime t => repr_timestamp t
  end.

(** [s.astype(str).str.contains(pattern, case=False, regex=True)]. *)
Definition str_contains (s : Series) (pattern : string) : outcome (list bool) :=
  match re_compile pattern with
  | Some r => Returned (map (fun v => re_search r (astype_str v)) s)
  | None => Raised (ValueError "pattern outside the modelled fragment")
  end.

(** The specification's hashtag test on a title: some selected tag is a
    substring of the title's text, up to case. *)
Definition has_tag (selected_tags : list string) (title : value) : bool :=
  existsb (fun tag => ci_contains tag (astype_str title)) selected_tags.

(** The hashtag test of the script: none when no tag is selected. *)
Definition tag_ok (selected_tags : list string) (title : value) : bool :=
  match selected_tags with
  | [] => true
  | _ => has_tag selected_tags title
  end.

(** Lines 172-185.  [date_range] holds the dates picked so far, each as
    the timestamp [pd.to_datetime] makes of it; the date filter applies
    when there are two. *)
Definition filtered (df_posts : DataFrame) (date_range : list Z)
    (selected_tags : list string) : outcome DataFrame :=
  (let filtered := df_posts in
   filtered <-
     match date_range with
     | [start; end_] =>
         created <- series filtered "Created Date" ;;
         from_start <- traverse (ge_timestamp start) created ;;
         to_end <- traverse (le_timestamp end_) created ;;
         Returned (filter_rows filtered (mask_and from_start to_end))
     | _ => Returned filtered
     end ;;
   match selected_tags with
   | [] => Returned filtered
   | _ =>
       let pattern := String.concat "|" (map re_escape selected_tags) in
       titles <- series filtered "Post Title" ;;
       mask <- str_contains titles pattern ;;
       Returned (filter_rows filtered mask)
   end)%outcome.

End Filters.

(* ================================================================= *)
(** ** The script, section by section *)

(** Lines 111-137: check the uploaded configuration, then build the
    table. *)
Definition boosted_configuration (df_posts : DataFrame)
    (boosted_config_file : option DataFrame) : py DataFrame :=
  (config <- df_boosted_config boosted_config_file ;;
   lift (boosted_df df_posts config))%py.

(** Lines 190-201: the benchmark row. *)
Definition benchmarks (filtered : DataFrame) : py (list (string * float)) :=
  (m <- lift (metrics filtered) ;; show_metrics m ;;; ret m)%py.

(** Lines 190-227: benchmarks, then the table with its five flags. *)
Definition posts_with_flags (filtered : DataFrame) : py DataFrame :=
  (m <- benchmarks filtered ;; lift (filtered_display filtered m))%py.

(* ================================================================= *)
(** ** Which upload is which *)

Section Uploads.

Variable parse_number : string -> option float.
Variable to_datetime : Series -> outcome Series.

(** One round of the loop of lines 104-109, on the pair [(df_posts,
    df_metrics)].  An uploaded file is its name and the frame
    [pd.read_csv(f, skiprows=1)] parses from it; only a reader that is
    called parses it. *)
Definition load_file (state : option DataFrame * option DataFrame)
    (f : string * DataFrame) : py (option DataFrame * option DataFrame) :=
  let name := lower_string (fst f) in
  if contains "all posts" name then
    (df <- read_posts_csv parse_number to_datetime (snd f) ;;
     ret (Some df, snd state))%py
  else if contains "metrics" name then
    (df <- read_metrics_csv parse_number to_datetime (snd f) ;;
     ret (fst state, Some df))%py
  else ret state.

Fixpoint load_files (uploaded : list (string * DataFrame))
    (state : option DataFrame * option DataFrame)
  : py (option DataFrame * option DataFrame) :=
  match uploaded with
  | [] => ret state
  | f :: rest => (state' <- load_file state f ;; load_files rest state')%py
  end.

(** Lines 102-109: [(df_posts, df_metrics)] after the uploads. *)
Definition load_uploads (uploaded : list (string * DataFrame))
  : py (option DataFrame * option DataFrame) :=
  load_files uploaded (None, None).

End Uploads.

(** What the name of an upload makes of it. *)
Inductive role : Type := PostsFile | MetricsFile | OtherFile.

Definition role_of (name : string) : role :=
  if contains "all posts" (lower_string name) then PostsFile
  else if contains "metrics" (lower_string name) then MetricsFile
  else OtherFile.

(* ================================================================= *)
(** ** Hashtags *)

(** [\w] on ASCII text. *)
Definition word_char (c : ascii) : bool := alnum c || Ascii.eqb c "_".

(** The longest run of word characters at the start of [s]. *)
Fixpoint word_run (s : string) : string :=
  match s with
  | EmptyString => EmptyString
  | String c rest => if word_char c then String c (word_run rest) else EmptyString
  end.

(** [re.findall(r"#\w+", text)]: the matches from left to right, each as
    long as it can be, the search going on behind a match.  [skip] counts
    the characters of the last match still to pass. *)
Fixpoint findall_hashtags (text : string) (skip : nat) : list string :=
  match text with
  | EmptyString => []
  | String c rest =>
      match skip with
      | S k => findall_hashtags rest k
      | O =>
          if Ascii.eqb c "#" then
            match word_run rest with
            | EmptyString => findall_hashtags rest 0
            | w => String "#" w :: findall_hashtags rest (String.length w)
            end
          else findall_hashtags rest 0
      end
  end.

(** [sorted(l, key=key)]: stable, by [<=] on the keys. *)
Fixpoint insert_sorted (key : string -> string) (x : string) (l : list string)
  : list string :=
  match l with
  | [] => [x]
  | y :: rest =>
      if String.leb (key x) (key y) then x :: y :: rest
      else y :: insert_sorted key x rest
  end.

Fixpoint sorted_by (key : string -> string) (l : list string) : list string :=
  match l with
  | [] => []
  | x :: rest => insert_sorted key x (sorted_by key rest)
  end.

(** A whole match of [#\w+]: a [#] and at least one word character after
    it. *)
Definition is_hashtag (tag : string) : bool :=
  match tag with
  | EmptyString => false
  | String c w =>
      Ascii.eqb c "#" && negb (String.eqb w "")
      && forallb word_char (list_ascii_of_string w)
  end.

(** The order [sorted(..., key=str.lower)] sorts by. *)
Definition by_lower (a b : string) : Prop :=
  String.leb (lower_string a) (lower_string b) = true.

Section Hashtags.

Variable repr_float : float -> string.
Variable repr_timestamp : Z -> string.

(** The order in which Python iterates over a set of strings with the
    given elements. *)
Variable iteration_order : list string -> list string.

(** The texts the loop of [extract_hashtags] goes over:
    [series.dropna().astype(str)], which for a sub-frame iterates over its
    column labels. *)
Definition hashtag_texts (sel : selection) : list string :=
  match sel with
  | ASeries s =>
      map (astype_str repr_float repr_timestamp)
        (filter (fun v => negb (isna v)) s)
  | AFrame sub => labels sub
  end.

(** [extract_hashtags(series)]. *)
Definition extract_hashtags (series : option selection) : list string :=
  match series with
  | None => []
  | Some sel =>
      let tags :=
        nodup string_dec
          (flat_map (fun text => findall_hashtags text 0) (hashtag_texts sel)) in
      sorted_by lower_string (iteration_order tags)
  end.

(** Line 165: [all_tags]. *)
Definition all_tags (df_posts : DataFrame) : list string :=
  extract_hashtags (get df_posts "Post Title").

End Hashtags.

(* ================================================================= *)
(** ** The default date range *)

(** A cell of a date column as a timestamp, [None] for a missing one. *)
Definition time_of (v : value) : outcome (option Z) :=
  match v with
  | VTime t => Returned (Some t)
  | VNone | VNaT | VFloat FNaN => Returned None
  | _ => Raised (TypeError "not a timestamp")
  end.

Definition present {A} (cells : list (option A)) : list A :=
  flat_map (fun c => match c with Some a => [a] | None => [] end) cells.

(** [Series.min()] and [Series.max()] of a date column: missing cells are
    skipped, and the result is missing when nothing is left. *)
Definition time_min (ts : list Z) : option Z :=
  match ts with
  | [] => None
  | t :: rest => Some (fold_left Z.min rest t)
  end.

Definition time_max (ts : list Z) : option Z :=
  match ts with
  | [] => None
  | t :: rest => Some (fold_left Z.max rest t)
  end.

(** Lines 153-156: [(min_date, max_date)], with [jan_1_2000] for
    [datetime(2000, 1, 1)] and [today] for [datetime.today()]. *)
Definition date_bounds (jan_1_2000 today : Z) (df_posts : DataFrame)
  : outcome (Z * Z) :=
  (created <- series df_posts "Created Date" ;;
   cells <- traverse time_of created ;;
   match time_min (present cells), time_max (present cells) with
   | Some min_date, Some max_date => Returned (min_date, max_date)
   | _, _ => Returned (jan_1_2000, today)
   end)%outcome.

(* ================================================================= *)
(** ** The tables behind the charts *)

Definition SHOW_COLS : list string :=
  [ "Created Date"; "Post Title"; "Impressions"; "Impressions Flag"; "Clicks";
    "Clicks Flag"; "CTR"; "CTR Flag"; "Engagement Rate"; "ER Flag"; "Likes";
    "Likes Flag"; "Comments"; "Reposts"; "Follows"; "Post Type"; "Post Link" ].

(** Lines 229-252: [filtered_display[show_cols]] after the list was cut
    down to the columns that are there. *)
Definition shown_table (filtered_display : DataFrame) : outcome DataFrame :=
  select_columns filtered_display (filter (has_column filtered_display) SHOW_COLS).

(** [s.fillna(fill)]. *)
Definition fillna (fill : value) (s : Series) : Series :=
  map (fun v => if isna v then fill else v) s.

(** Lines 256-259: the table of the scatter chart. *)
Definition scatter_table (filtered boosted_edited : DataFrame) : outcome DataFrame :=
  (flags <- select_columns boosted_edited ["Post Title"; "Boosted"] ;;
   merged <- merge_left filtered flags "Post Title" "_x" "_y" ;;
   boosted <- series merged "Boosted" ;;
   Returned (setitem merged "Boosted" (fillna (VBool false) boosted)))%outcome.

(** The flag the scatter chart shows for a title, from the titles and
    flags of the edited table: the flag of the first row of that title
    if it is not missing, [false] otherwise. *)
Definition flag_of_title (edited_titles edited_flags : Series) (title : value)
  : value :=
  match hits title edited_titles edited_flags with
  | [] => VBool false
  | saved :: _ => if isna saved then VBool false else saved
  end.

(** The rows a left join has: one per pair of a left row and a right row
    of the same key, and one for a left row without partner. *)
Definition joined_rows (left_keys right_keys : Series) : nat :=
  list_sum
    (map (fun k => Nat.max 1 (List.length (hits k right_keys right_keys)))
       left_keys).

Definition PREFERRED_METRICS : list string :=
  [ "Impressions (total)"; "Clicks (total)"; "Reactions (total)";
    "Comments (total)"; "Reposts (total)"; "Engagement rate (total)" ].

(** [pd.api.types.is_numeric_dtype] on a column of the metrics table: the
    columns [pd.to_numeric] made hold numbers, a date column holds
    timestamps. *)
Definition is_numeric_dtype (s : Series) : bool :=
  forallb (fun v => match v with VFloat _ | VBool _ => true | _ => false end) s.

(** Lines 306-310: the comprehension over [df_metrics.columns]; a label
    that two columns carry selects a sub-frame, which has no numeric
    dtype. *)
Definition numeric_column (df_metrics : DataFrame) (c : string) : bool :=
  match get df_metrics c with
  | Some (ASeries s) => is_numeric_dtype s
  | _ => false
  end.

Definition metric_cols (df_metrics : DataFrame) : list string :=
  filter (fun c => negb (String.eqb c "Date") && numeric_column df_metrics c)
    (labels df_metrics).

Definition mem (c : string) (l : list string) : bool := existsb (String.eqb c) l.

(** Lines 319-321. *)
Definition ordered_metrics (metric_cols : list string) : list string :=
  filter (fun c => mem c metric_cols) PREFERRED_METRICS
  ++ filter (fun c => negb (mem c PREFERRED_METRICS)) metric_cols.

(** The default of the multiselect: [ordered_metrics[:3]]. *)
Definition default_metrics (metric_cols : list string) : list string :=
  firstn 3 (ordered_metrics metric_cols).

(** [df.melt(id, var_name=var_name, value_name=value_name)] with one
    identifier column: the other columns one below the other, each row with
    its identifier and the label of the column it came from. *)
Definition melt (df : DataFrame) (id var_name value_name : string)
  : outcome DataFrame :=
  (if has_column df value_name
   then Raised (ValueError "value_name cannot match an element in the DataFrame columns.")
   else
   ids <- series df id ;;
   let others := filter (fun col => negb (String.eqb (fst col) id)) df in
   Returned
     [ (id, flat_map (fun _ => ids) others);
       (var_name,
        flat_map (fun col => repeat (VStr (fst col)) (List.length ids)) others);
       (value_name, flat_map snd others) ])%outcome.

(** The rows without a missing cell. *)
Definition complete_rows (df : DataFrame) : list bool :=
  fold_left (fun mask col => mask_and mask (map (fun v => negb (isna v)) (snd col)))
    df (repeat true (nrows df)).

(** [df.dropna()]. *)
Definition dropna (df : DataFrame) : DataFrame := filter_rows df (complete_rows df).

(** Lines 326-329: [dfm], the metrics table cut down to the range picked
    when two dates are picked. *)
Definition dfm (df_metrics : DataFrame) (date_range : list Z) : outcome DataFrame :=
  (let dfm := df_metrics in
   match date_range with
   | [start; end_] =>
       date <- series dfm "Date" ;;
       from_start <- traverse (ge_timestamp start) date ;;
       to_end <- traverse (le_timestamp end_) date ;;
       Returned (filter_rows dfm (mask_and from_start to_end))
   | _ => Returned dfm
   end)%outcome.

(** Lines 331-336: [long_df], for a selection that is not empty. *)
Definition long_df (df_metrics : DataFrame) (date_range : list Z)
    (selected_metrics : list string) : outcome DataFrame :=
  (dfm <- dfm df_metrics date_range ;;
   picked <- select_columns dfm ("Date" :: selected_metrics) ;;
   long <- melt picked "Date" "Metric" "Value" ;;
   Returned (dropna long))%outcome.

(** The rows the long table has for one metric: the days of the range
    picked that have a date and a value, in the order of the table, each
    with the label of the metric. *)
Definition metric_rows (date_range : list Z) (dates : Series)
    (metric : string * Series) : list (value * value * value) :=
  map (fun dv => (fst dv, VStr (fst metric), snd dv))
    (filter (fun dv => date_ok date_range (fst dv)
                       && negb (isna (fst dv)) && negb (isna (snd dv)))
       (combine dates (snd metric))).


(** The five columns the benchmarks read, in the order of [metrics]. *)
Definition BENCHMARK_COLUMNS : list string :=
  [ "Engagement Rate"; "CTR"; "Impressions"; "Clicks"; "Likes" ].

(** One mask after another, as one mask: [s[m1][m2] = s[mask_then m1 m2]]. *)
Fixpoint mask_then (m1 m2 : list bool) : list bool :=
  match m1 with
  | [] => []
  | false :: rest => false :: mask_then rest m2
  | true :: rest =>
      match m2 with
      | [] => []
      | b :: m2' => b :: mask_then rest m2'
      end
  end.

(* ================================================================= *)
(** ** Stand-ins for the parsers, for closed examples *)

(** Whole numbers in decimal; everything else is no number. *)
Definition sample_parse_number (s : string) : option float :=
  match NilZero.uint_of_string s with
  | Some u => Some (FNum (inject_Z (Z.of_N (N.of_uint u))))
  | None => None
  end.

(** Cells that are timestamps already stay, every other cell is NaT. *)
Definition sample_to_datetime (s : Series) : outcome Series :=
  Returned (map (fun v => match v with VTime t => VTime t | _ => VNaT end) s).

Definition sample_repr_float (x : float) : string := format_fixed 1 false x.

Definition sample_repr_timestamp (t : Z) : string := decimal t.

(** A filtered table for closed examples: the second post has no
    engagement rate, and no post has a click-through rate. *)
Definition posts_with_gaps : DataFrame :=
  [ ("Engagement Rate", [VFloat (FNum 1); VFloat FNaN; VFloat (FNum 5)]);
    ("CTR", [VFloat FNaN; VFloat FNaN; VFloat FNaN]);
    ("Impressions", [VFloat (FNum 1000); VFloat (FNum 2000); VFloat (FNum 3000)]);
    ("Clicks", [VFloat (FNum 10); VFloat (FNum 20); VFloat (FNum 30)]);
    ("Likes", [VFloat (FNum 0); VFloat (FNum 0); VFloat (FNum 1)]) ].

(** Closes [Forall text_cell] over a literal column of text cells. *)
Ltac text_cells :=
  repeat (apply Forall_cons; [right; eexists; reflexivity |]); apply Forall_nil.

(* ================================================================= *)
(** * Facts about frames *)

Lemma has_column_In (df : DataFrame) (c : string) :
  has_column df c = true <-> In c (labels df).
Proof.
  unfold has_column. rewrite existsb_exists. split.
  - intros [x [Hin Heq]]. apply String.eqb_eq in Heq. now subst.
  - intros Hin. exists c. split; [assumption | apply String.eqb_refl].
Qed.

Lemma has_column_false (df : DataFrame) (c : string) :
  has_column df c = false <-> ~ In c (labels df).
Proof.
  rewrite <- has_column_In. destruct (has_column df c); split; congruence.
Qed.

Lemma labelled_absent (df : DataFrame) (c : string) :
  ~ In c (labels df) -> labelled c df = [].
Proof.
  unfold labelled, labels. induction df as [| [l s] df IH]; simpl; intros Hn.
  - reflexivity.
  - destruct (String.eqb_spec l c) as [-> | Hne].
    + exfalso. apply Hn. now left.
    + apply IH. intros Hin. apply Hn. now right.
Qed.

Lemma labelled_unique (df : DataFrame) (c : string) (s : Series) :
  NoDup (labels df) -> In (c, s) df -> labelled c df = [(c, s)].
Proof.
  unfold labels. induction df as [| [l t] df IH]; simpl; intros Hnd Hin.
  - contradiction.
  - inversion Hnd as [| ? ? Hnotin Hnd']; subst.
    destruct Hin as [Heq | Hin].
    + inversion Heq; subst. rewrite String.eqb_refl.
      fold (labelled c df). now rewrite labelled_absent.
    + destruct (String.eqb_spec l c) as [-> | Hne].
      * exfalso. apply Hnotin. now apply (in_map fst) in Hin.
      * now apply IH.
Qed.

Lemma labelled_In (df : DataFrame) (c : string) (col : string * Series) :
  In col (labelled c df) <-> In col df /\ fst col = c.
Proof.
  unfold labelled. rewrite filter_In. now rewrite String.eqb_eq.
Qed.

(** [series df c] succeeds exactly on the one column labelled [c]. *)
Lemma series_unique (df : DataFrame) (c : string) (s : Series) :
  NoDup (labels df) -> In (c, s) df -> series df c = Returned s.
Proof.
  intros Hnd Hin. unfold series, getitem, get.
  now rewrite (labelled_unique df c s Hnd Hin).
Qed.

Lemma series_labelled (df : DataFrame) (c : string) (s : Series) :
  series df c = Returned s -> exists l, labelled c df = [(l, s)].
Proof.
  unfold series, getitem, get. intros H.
  destruct (labelled c df) as [| [l t] [| col more]]; simpl in H;
    try discriminate.
  inversion H; subst. now exists l.
Qed.

Lemma series_In (df : DataFrame) (c : string) (s : Series) :
  series df c = Returned s -> In (c, s) df.
Proof.
  intros H. destruct (series_labelled _ _ _ H) as [l Hl].
  assert (Hin : In (l, s) (labelled c df)) by (rewrite Hl; now left).
  apply labelled_In in Hin. destruct Hin as [Hin Heq]. simpl in Heq.
  now subst.
Qed.

Lemma series_has_column (df : DataFrame) (c : string) (s : Series) :
  series df c = Returned s -> has_column df c = true.
Proof.
  intros H. apply has_column_In. apply series_In in H.
  now apply (in_map fst) in H.
Qed.

Lemma getitem_unique (df : DataFrame) (c : string) (s : Series) :
  NoDup (labels df) -> In (c, s) df -> getitem df c = Returned (ASeries s).
Proof.
  intros Hnd Hin. unfold getitem, get.
  now rewrite (labelled_unique df c s Hnd Hin).
Qed.

Lemma get_absent (df : DataFrame) (c : string) :
  ~ In c (labels df) -> get df c = None.
Proof. intros H. unfold get. now rewrite labelled_absent. Qed.

Lemma In_labels (df : DataFrame) (c : string) :
  In c (labels df) -> exists s, In (c, s) df.
Proof.
  unfold labels. rewrite in_map_iff. intros [[l s] [Heq Hin]].
  simpl in Heq. subst. now exists s.
Qed.

Lemma nodup_labels_functional (df : DataFrame) (c : string) (s t : Series) :
  NoDup (labels df) -> In (c, s) df -> In (c, t) df -> s = t.
Proof.
  intros Hnd Hs Ht.
  pose proof (labelled_unique df c s Hnd Hs) as H1.
  pose proof (labelled_unique df c t Hnd Ht) as H2.
  congruence.
Qed.

Lemma labels_on_column (c : string) (f : Series -> Series) (df : DataFrame) :
  labels (on_column c f df) = labels df.
Proof.
  unfold labels, on_column. rewrite map_map. apply map_ext.
  intros [l s]. simpl. now destruct (String.eqb_spec l c) as [-> |].
Qed.

Lemma In_on_column_same (c : string) f (df : DataFrame) (s : Series) :
  In (c, s) df -> In (c, f s) (on_column c f df).
Proof.
  intros Hin. unfold on_column. apply in_map_iff. exists (c, s).
  simpl. now rewrite String.eqb_refl.
Qed.

Lemma In_on_column_other (c c' : string) f (df : DataFrame) (s : Series) :
  c' <> c -> In (c', s) df -> In (c', s) (on_column c f df).
Proof.
  intros Hne Hin. unfold on_column. apply in_map_iff. exists (c', s).
  simpl. destruct (String.eqb_spec c' c); [contradiction | now split].
Qed.

Lemma setitem_present (df : DataFrame) (c : string) (s t : Series) :
  NoDup (labels df) -> In (c, s) df ->
  setitem df c t = on_column c (fun _ => t) df.
Proof.
  intros Hnd Hin. unfold setitem.
  assert (Hc : has_column df c = true).
  { apply has_column_In. now apply (in_map fst) in Hin. }
  now rewrite Hc.
Qed.

Lemma setitem_absent (df : DataFrame) (c : string) (t : Series) :
  ~ In c (labels df) -> setitem df c t = df ++ [(c, t)].
Proof.
  intros Hn. unfold setitem. apply has_column_false in Hn. now rewrite Hn.
Qed.

Lemma labels_rename (df : DataFrame) renames :
  labels (rename df renames) = map (rename_label renames) (labels df).
Proof. unfold labels, rename. now rewrite !map_map. Qed.

Lemma nrows_rename (df : DataFrame) renames :
  nrows (rename df renames) = nrows df.
Proof. destruct df as [| [l s] df]; reflexivity. Qed.

(* ================================================================= *)
(** * Benchmarks: the flag of a row and the mean on display *)

Lemma flag_floats (x avg : float) :
  flag (VFloat x) (VFloat avg) = if fge x avg then ABOVE_AVG else BELOW_AVG.
Proof. unfold flag, py_ge. simpl. now destruct (fge x avg). Qed.

Lemma marks_differ : ABOVE_AVG <> BELOW_AVG /\ ABOVE_AVG <> "" /\ BELOW_AVG <> "".
Proof. repeat split; discriminate. Qed.


(** C1.  A row is marked above average exactly when its value is greater
    than or equal to the mean, ties included.  A missing value of a numeric
    column is a NaN: the comparison returns false without raising, so
    [flag] answers with the below-average mark and not with the empty
    string of its [except] branch, which only an operand such as [None]
    reaches.  In [posts_with_gaps] the post without an engagement rate is
    flagged below average. *)
Theorem flag_missing_value_is_below :
  (forall x avg : float, flag (VFloat x) (VFloat avg) = ABOVE_AVG <-> fge x avg = true) /\
  (forall avg : float, flag (VFloat FNaN) (VFloat avg) = BELOW_AVG) /\
  BELOW_AVG <> "" /\
  (forall avg : float, flag VNone (VFloat avg) = "") /\
  exists out,
    snd (posts_with_flags posts_with_gaps) = Returned out /\
    series out "ER Flag" = Returned [VStr BELOW_AVG; VStr BELOW_AVG; VStr ABOVE_AVG].
Proof.
  destruct marks_differ as [Hab [Ha Hb]].
  split; [| split; [| split; [| split]]].
  - intros x avg. rewrite flag_floats. destruct (fge x avg); split; intros H.
    + reflexivity.
    + reflexivity.
    + now symmetry in H.
    + discriminate.
  - intros avg. rewrite flag_floats. unfold fge. now destruct avg as [| [] |].
  - exact Hb.
  - reflexivity.
  - eexists. split; reflexivity.
Qed.

Lemma numbers_floats (xs : list float) : numbers (map VFloat xs) = Returned xs.
Proof.
  unfold numbers. induction xs as [| x xs IH]; simpl.
  - reflexivity.
  - now rewrite IH.
Qed.

Lemma valid_all_nan (n : nat) : valid (repeat FNaN n) = [].
Proof. induction n as [| n IH]; simpl; [reflexivity | exact IH]. Qed.

Lemma repeat_map {A B} (f : A -> B) (a : A) (n : nat) :
  map f (repeat a n) = repeat (f a) n.
Proof. induction n as [| n IH]; simpl; [reflexivity | now rewrite IH]. Qed.

Lemma flag_against_nan (x : value) : flag x (VFloat FNaN) <> ABOVE_AVG.
Proof.
  destruct marks_differ as [Hab [Ha Hb]].
  unfold flag, py_ge.
  destruct x as [| | b | y | s | t]; simpl; intros H; now symmetry in H.
Qed.

(** C6.  The mean of a column without a single value is NaN.  [v or 0]
    keeps it, because NaN is true in Python, so the benchmark reads
    ["nan%"] (or ["nan"]) where the specification promises the number 0;
    the same NaN is the average every row of the column is flagged
    against, and no row is ever at or above it.  [posts_with_gaps], which
    has no CTR at all, shows both. *)
Theorem undefined_mean_is_shown_as_nan (n : nat) :
  series_mean (repeat (VFloat FNaN) n) = Returned FNaN /\
  or_zero FNaN = FNaN /\
  metric_text "Avg Engagement Rate" FNaN = "nan%" /\
  metric_text "Avg CTR" FNaN = "nan%" /\
  metric_text "Avg Impressions" FNaN = "nan" /\
  metric_text "Avg Engagement Rate" (FNum 0) = "0.00%" /\
  (forall x : value, flag x (VFloat FNaN) <> ABOVE_AVG) /\
  exists out,
    posts_with_flags posts_with_gaps =
    ([ st_metric "Avg Engagement Rate" "3.00%";
       st_metric "Avg CTR" "nan%";
       st_metric "Avg Impressions" "2,000";
       st_metric "Avg Clicks" "20";
       st_metric "Avg Likes" "0" ],
     Returned out) /\
    series out "CTR Flag" = Returned [VStr BELOW_AVG; VStr BELOW_AVG; VStr BELOW_AVG].
Proof.
  split.
  - unfold series_mean. rewrite <- (repeat_map VFloat FNaN n), numbers_floats.
    simpl. unfold fmean. now rewrite valid_all_nan.
  - repeat split; try reflexivity; [exact flag_against_nan |].
    eexists. split; reflexivity.
Qed.

(** The example of the specification: engagement rates 1 to 5 have mean
    3; the rows with 3, 4 and 5 are above, those with 1 and 2 below. *)
Example flags_of_one_to_five :
  series_mean (map VFloat [FNum 1; FNum 2; FNum 3; FNum 4; FNum 5]) =
    Returned (FNum (15 # 5)) /\
  metric_text "Avg Engagement Rate" (FNum (15 # 5)) = "3.00%" /\
  map (fun x => flag x (VFloat (FNum (15 # 5))))
    (map VFloat [FNum 1; FNum 2; FNum 3; FNum 4; FNum 5]) =
  [BELOW_AVG; BELOW_AVG; ABOVE_AVG; ABOVE_AVG; ABOVE_AVG].
Proof. repeat split; reflexivity. Qed.

(* ================================================================= *)
(** * The metrics file without a date column *)

(** C2.  When the header has no ["Date"] column the warning is shown, and
    the very next statement indexes [df["Date"]]: the function raises
    [KeyError] instead of returning a table. *)
Theorem read_metrics_csv_without_date
    (parse_number : string -> option float)
    (to_datetime : Series -> outcome Series) (file : DataFrame) :
  has_column file "Date" = false ->
  read_metrics_csv parse_number to_datetime file =
  ([st_warning "Could not find 'Date' column in Metrics file."],
   Raised (KeyError "Date")).
Proof.
  intros Hno. unfold read_metrics_csv. rewrite Hno. simpl.
  apply has_column_false in Hno.
  unfold getitem. now rewrite (get_absent _ _ Hno).
Qed.

Lemma read_metrics_csv_without_date_witness :
  read_metrics_csv sample_parse_number sample_to_datetime
    [("Impressions (total)", [VStr "120"]); ("Clicks (total)", [VStr "7"])] =
  ([st_warning "Could not find 'Date' column in Metrics file."],
   Raised (KeyError "Date")).
Proof. apply read_metrics_csv_without_date. reflexivity. Defined.

(** With the column the same file loads, and nothing is shown. *)
Example read_metrics_csv_with_date :
  read_metrics_csv sample_parse_number sample_to_datetime
    [("Date", [VTime 5]); ("Clicks (total)", [VStr "7"])] =
  ([], Returned [("Date", [VTime 5]); ("Clicks (total)", [VFloat (FNum 7)])]).
Proof. reflexivity. Qed.

(* ================================================================= *)
(** * The uploaded configuration *)

Lemma boosted_df_without_config (df_posts : DataFrame) (dates titles : Series) :
  series df_posts "Created Date" = Returned dates ->
  series df_posts "Post Title" = Returned titles ->
  boosted_df df_posts None =
  Returned [ ("Created Date", dates); ("Post Title", titles);
             ("Boosted", repeat (VBool false) (List.length dates)) ].
Proof.
  intros Hd Ht. unfold boosted_df. simpl.
  destruct (series_labelled _ _ _ Hd) as [l1 H1].
  destruct (series_labelled _ _ _ Ht) as [l2 H2].
  assert (E1 : l1 = "Created Date").
  { assert (Hin : In (l1, dates) (labelled "Created Date" df_posts))
      by (rewrite H1; now left).
    apply labelled_In in Hin. now destruct Hin. }
  assert (E2 : l2 = "Post Title").
  { assert (Hin : In (l2, titles) (labelled "Post Title" df_posts))
      by (rewrite H2; now left).
    apply labelled_In in Hin. now destruct Hin. }
  subst. rewrite H1, H2. reflexivity.
Qed.

(** C8.  A configuration file that has neither a ["Post Title"] nor a
    ["Boosted"] column is answered with the error message and dropped:
    from there on the script holds the value it holds when no file was
    uploaded, and the table it builds is the one built without a file. *)
Theorem malformed_config_is_treated_as_absent (upload df_posts : DataFrame) :
  has_column upload "Post Title" = false ->
  has_column upload "Boosted" = false ->
  df_boosted_config (Some upload) =
    ([st_error "⚠️ boosted_config.csv must have 'Post Title' and 'Boosted' columns."],
     Returned None) /\
  snd (df_boosted_config (Some upload)) = snd (df_boosted_config None) /\
  snd (boosted_configuration df_posts (Some upload)) =
    snd (boosted_configuration df_posts None) /\
  forall dates titles,
    series df_posts "Created Date" = Returned dates ->
    series df_posts "Post Title" = Returned titles ->
    snd (boosted_configuration df_posts (Some upload)) =
    Returned [ ("Created Date", dates); ("Post Title", titles);
               ("Boosted", repeat (VBool false) (List.length dates)) ].
Proof.
  intros Ht Hb.
  assert (E : df_boosted_config (Some upload) =
    ([st_error "⚠️ boosted_config.csv must have 'Post Title' and 'Boosted' columns."],
     Returned None)).
  { unfold df_boosted_config. rewrite Ht. reflexivity. }
  split; [exact E |]. split; [now rewrite E |].
  assert (R : snd (boosted_configuration df_posts (Some upload)) =
              boosted_df df_posts None).
  { unfold boosted_configuration, bind, lift. rewrite E. reflexivity. }
  split.
  - rewrite R. unfold boosted_configuration, bind, lift. reflexivity.
  - intros dates titles Hd Htt. rewrite R.
    now apply boosted_df_without_config.
Qed.

Lemma malformed_config_is_treated_as_absent_witness :
  df_boosted_config (Some [("title", [VStr "Launch Post"]); ("flag", [VBool true])]) =
    ([st_error "⚠️ boosted_config.csv must have 'Post Title' and 'Boosted' columns."],
     Returned None).
Proof.
  apply (malformed_config_is_treated_as_absent
           [("title", [VStr "Launch Post"]); ("flag", [VBool true])]
           [("Created Date", [VTime 5]); ("Post Title", [VStr "Launch Post"])]);
    reflexivity.
Defined.

(* ================================================================= *)
(** * The order of floats *)

Lemma Qle_bool_total (p q : Q) : Qle_bool p q = false -> Qle_bool q p = true.
Proof.
  intros H. apply Qle_bool_iff. apply Qlt_le_weak. apply Qnot_le_lt.
  intros Hle. apply Qle_bool_iff in Hle. congruence.
Qed.

Lemma fle_refl (a : float) : is_nan a = false -> fle a a = true.
Proof.
  destruct a as [| [] | p]; simpl; intros H; try discriminate; try reflexivity.
  apply Qle_bool_iff. apply Qle_refl.
Qed.

Lemma fle_total (a b : float) :
  is_nan a = false -> is_nan b = false -> fle a b = false -> fle b a = true.
Proof.
  destruct a as [| [] | p], b as [| [] | q]; simpl; intros Ha Hb H;
    try discriminate; try reflexivity.
  now apply Qle_bool_total.
Qed.

Lemma fle_trans (a b c : float) :
  fle a b = true -> fle b c = true -> fle a c = true.
Proof.
  destruct a as [| [] | p], b as [| [] | q], c as [| [] | r]; simpl;
    intros H1 H2; try discriminate; try reflexivity.
  apply Qle_bool_iff. apply Qle_bool_iff in H1, H2.
  now apply Qle_trans with q.
Qed.

Lemma fmax2_not_nan (a b : float) :
  is_nan a = false -> is_nan b = false -> is_nan (fmax2 a b) = false.
Proof. unfold fmax2. now destruct (fle a b). Qed.

Lemma fold_fmax2_upper (l : list float) :
  forall acc : float,
    is_nan acc = false ->
    Forall (fun x => is_nan x = false) l ->
    is_nan (fold_left fmax2 l acc) = false /\
    fle acc (fold_left fmax2 l acc) = true /\
    Forall (fun x => fle x (fold_left fmax2 l acc) = true) l.
Proof.
  induction l as [| y l IH]; simpl; intros acc Hacc Hl.
  - repeat split; [assumption | now apply fle_refl | constructor].
  - inversion Hl as [| ? ? Hy Hl']; subst.
    destruct (IH (fmax2 acc y) (fmax2_not_nan _ _ Hacc Hy) Hl')
      as [Hn [Hle Hall]].
    assert (Hacc' : fle acc (fmax2 acc y) = true).
    { unfold fmax2. destruct (fle acc y) eqn:E; [exact E | now apply fle_refl]. }
    assert (Hy' : fle y (fmax2 acc y) = true).
    { unfold fmax2. destruct (fle acc y) eqn:E;
        [now apply fle_refl | now apply fle_total]. }
    repeat split.
    + exact Hn.
    + now apply fle_trans with (fmax2 acc y).
    + constructor; [now apply fle_trans with (fmax2 acc y) | exact Hall].
Qed.

Lemma valid_In (xs : list float) (x : float) :
  In x (valid xs) <-> In x xs /\ is_nan x = false.
Proof.
  unfold valid. rewrite filter_In. now rewrite negb_true_iff.
Qed.

(** The maximum is at least every value that is not missing. *)
Lemma fmax_upper (xs : list float) (x : float) :
  In x xs -> is_nan x = false -> fle x (fmax xs) = true.
Proof.
  intros Hin Hx. unfold fmax.
  assert (Hv : In x (valid xs)) by now apply valid_In.
  assert (Hall : Forall (fun y => is_nan y = false) (valid xs)).
  { apply Forall_forall. intros y Hy. now apply valid_In in Hy. }
  destruct (valid xs) as [| x0 rest]; [contradiction |].
  inversion Hall as [| ? ? H0 Hrest]; subst.
  destruct (fold_fmax2_upper rest x0 H0 Hrest) as [_ [Hle Hf]].
  destruct Hv as [-> | Hv]; [exact Hle |].
  rewrite Forall_forall in Hf. now apply Hf.
Qed.

(** A column of percentages whose maximum is at most 1 holds fractions:
    times 100 they are percentages again. *)
Lemma percent_times_100 (xs : list float) (x : float) :
  fle (fmax xs) (FNum 1) = true ->
  In x xs -> is_nan x = false -> percent x ->
  percent (fmul x (FNum 100)).
Proof.
  intros Hmax Hin Hx [q [-> [H0 _]]].
  pose proof (fle_trans _ _ _ (fmax_upper xs (FNum q) Hin Hx) Hmax) as Hq.
  simpl in Hq. apply Qle_bool_iff in Hq.
  exists (q * 100)%Q. simpl. split; [reflexivity |]. split.
  - apply Qmult_le_0_compat; [exact H0 | discriminate].
  - setoid_replace 100%Q with (1 * 100)%Q at 2 by reflexivity.
    apply Qmult_le_compat_r; [exact Hq | discriminate].
Qed.

(* ================================================================= *)
(** * Loading the posts file *)

Lemma NoDup_snoc {A} (l : list A) (x : A) :
  NoDup l -> ~ In x l -> NoDup (l ++ [x]).
Proof.
  induction l as [| y l IH]; simpl; intros Hnd Hn.
  - constructor; [intros [] | constructor].
  - inversion Hnd as [| ? ? Hy Hl]; subst. constructor.
    + rewrite in_app_iff. intros [H | [H | []]].
      * contradiction.
      * apply Hn. now left.
    + apply IH; [assumption |]. intros H. apply Hn. now right.
Qed.

Lemma on_column_absent (c : string) f (df : DataFrame) :
  ~ In c (labels df) -> on_column c f df = df.
Proof.
  intros Hn. unfold on_column. rewrite <- (map_id df) at 2.
  apply map_ext_in. intros [l s] Hin. simpl.
  destruct (String.eqb_spec l c) as [-> |]; [| reflexivity].
  exfalso. apply Hn. now apply (in_map fst) in Hin.
Qed.

(** With distinct labels, writing a column computed from the one read is
    a map over that column. *)
Lemma on_column_unique (c : string) f (df : DataFrame) (s : Series) :
  NoDup (labels df) -> In (c, s) df ->
  on_column c (fun _ => f s) df = on_column c f df.
Proof.
  intros Hnd Hin. unfold on_column. apply map_ext_in. intros [l t] Hin'.
  simpl. destruct (String.eqb_spec l c) as [-> |]; [| reflexivity].
  now rewrite (nodup_labels_functional df c s t Hnd Hin Hin').
Qed.

Lemma NoDup_on_column (c : string) f (df : DataFrame) :
  NoDup (labels df) -> NoDup (labels (on_column c f df)).
Proof. now rewrite labels_on_column. Qed.

Section ReadersFacts.

Variable pn : string -> option float.
Variable td : Series -> outcome Series.

Lemma to_numeric_floats (s : Series) :
  to_numeric pn s = map VFloat (map (to_numeric_cell pn) s).
Proof. unfold to_numeric. now rewrite map_map. Qed.

(** One round of the loop over [NUMERIC_COLUMNS]. *)
Lemma coerce_round (df : DataFrame) (c : string) :
  NoDup (labels df) ->
  (if has_column df c then coerce_numeric pn df c else Returned df) =
  Returned (on_column c (to_numeric pn) df).
Proof.
  intros Hnd. destruct (has_column df c) eqn:Hc.
  - apply has_column_In in Hc. destruct (In_labels _ _ Hc) as [s Hin].
    unfold coerce_numeric. rewrite (getitem_unique df c s Hnd Hin).
    rewrite (setitem_present df c s _ Hnd Hin).
    now rewrite (on_column_unique c (to_numeric pn) df s Hnd Hin).
  - apply has_column_false in Hc. now rewrite on_column_absent.
Qed.

Lemma labels_coerced (cs : list string) :
  forall df, labels (coerced pn cs df) = labels df.
Proof.
  induction cs as [| c cs IH]; intros df; simpl; [reflexivity |].
  now rewrite IH, labels_on_column.
Qed.

Lemma numeric_loop (cs : list string) :
  forall df,
    NoDup (labels df) ->
    for_each cs (fun df c => if has_column df c then coerce_numeric pn df c
                             else Returned df) df =
    Returned (coerced pn cs df).
Proof.
  induction cs as [| c cs IH]; intros df Hnd; simpl; [reflexivity |].
  rewrite (coerce_round df c Hnd).
  apply IH. now apply NoDup_on_column.
Qed.

Lemma In_coerced_other (cs : list string) (c : string) (s : Series) :
  ~ In c cs -> forall df, In (c, s) df -> In (c, s) (coerced pn cs df).
Proof.
  induction cs as [| c0 cs IH]; intros Hn df Hin; simpl; [assumption |].
  apply IH.
  - intros H. apply Hn. now right.
  - apply In_on_column_other; [| assumption].
    intros ->. apply Hn. now left.
Qed.

Lemma In_coerced_same (cs : list string) (c : string) (s : Series) :
  NoDup cs -> In c cs ->
  forall df, In (c, s) df -> In (c, to_numeric pn s) (coerced pn cs df).
Proof.
  induction cs as [| c0 cs IH]; intros Hnd Hc df Hin; simpl; [contradiction |].
  inversion Hnd as [| ? ? Hc0 Hcs]; subst.
  destruct (String.eqb_spec c0 c) as [-> | Hne].
  - apply In_coerced_other; [assumption |]. now apply In_on_column_same.
  - destruct Hc as [-> | Hc]; [contradiction |].
    apply IH; [assumption | assumption |].
    apply In_on_column_other; [congruence | assumption].
Qed.

Lemma numeric_columns_distinct : NoDup NUMERIC_COLUMNS.
Proof.
  unfold NUMERIC_COLUMNS.
  repeat (constructor; [simpl; intuition discriminate |]). constructor.
Qed.

Lemma set_created_date_absent (df : DataFrame) :
  ~ In "Created Date" (labels df) ->
  set_created_date td df =
  Returned (df ++ [("Created Date", repeat VNone (nrows df))]).
Proof.
  intros Hn. unfold set_created_date. rewrite (get_absent _ _ Hn).
  unfold setitem_scalar. now rewrite setitem_absent.
Qed.

Lemma set_created_date_present (df : DataFrame) (s s' : Series) :
  NoDup (labels df) -> In ("Created Date", s) df -> td s = Returned s' ->
  set_created_date td df = Returned (on_column "Created Date" (fun _ => s') df).
Proof.
  intros Hnd Hin Htd. unfold set_created_date, get.
  rewrite (labelled_unique _ _ _ Hnd Hin). rewrite Htd. simpl.
  now rewrite (setitem_present df _ s s' Hnd Hin).
Qed.

(** The date step keeps the labels distinct and the other columns as
    they are. *)
Lemma set_created_date_keeps (df : DataFrame) :
  NoDup (labels df) ->
  (forall s, In ("Created Date", s) df -> exists s', td s = Returned s') ->
  exists df1,
    set_created_date td df = Returned df1 /\
    NoDup (labels df1) /\
    (forall c s, c <> "Created Date" -> In (c, s) df -> In (c, s) df1) /\
    (forall c, In c (labels df1) -> c <> "Created Date" -> In c (labels df)).
Proof.
  intros Hnd Htd.
  destruct (in_dec string_dec "Created Date" (labels df)) as [Hin | Hn].
  - destruct (In_labels _ _ Hin) as [s Hs]. destruct (Htd s Hs) as [s' Hs'].
    exists (on_column "Created Date" (fun _ => s') df).
    split; [now apply set_created_date_present with s |].
    split; [now apply NoDup_on_column |]. split.
    + intros c t Hc Ht. now apply In_on_column_other.
    + intros c Hc _. now rewrite labels_on_column in Hc.
  - exists (df ++ [("Created Date", repeat VNone (nrows df))]).
    split; [now apply set_created_date_absent |]. split; [| split].
    + unfold labels. rewrite map_app. simpl. now apply NoDup_snoc.
    + intros c t _ Ht. apply in_or_app. now left.
    + intros c Hc Hne. unfold labels in Hc. rewrite map_app in Hc.
      apply in_app_or in Hc. destruct Hc as [Hc | [Hc | []]];
        [assumption | simpl in Hc; congruence].
Qed.

Lemma fix_ctr_absent (df : DataFrame) :
  ~ In "CTR" (labels df) -> fix_ctr df = Returned df.
Proof.
  intros Hn. unfold fix_ctr. apply has_column_false in Hn. now rewrite Hn.
Qed.

Lemma fix_ctr_floats (df : DataFrame) (xs : list float) :
  NoDup (labels df) -> In ("CTR", map VFloat xs) df ->
  fix_ctr df =
  Returned (if fle (fmax xs) (FNum 1)
            then on_column "CTR"
                   (fun _ => map VFloat (map (fun x => fmul x (FNum 100)) xs)) df
            else df).
Proof.
  intros Hnd Hin. unfold fix_ctr.
  assert (Hc : has_column df "CTR" = true).
  { apply has_column_In. now apply (in_map fst) in Hin. }
  rewrite Hc, (series_unique _ _ _ Hnd Hin). simpl.
  unfold series_max, series_mul. rewrite numbers_floats. simpl.
  destruct (fle (fmax xs) (FNum 1)); [| reflexivity].
  simpl. rewrite (setitem_present df _ _ _ Hnd Hin). now rewrite map_map.
Qed.

(** The three steps of [read_posts_csv] on a header whose canonical
    labels are distinct. *)
Lemma read_posts_csv_steps (file df1 : DataFrame) :
  set_created_date td (rename file POSTS_RENAMES) = Returned df1 ->
  NoDup (labels df1) ->
  read_posts_csv pn td file = ([], fix_ctr (coerced pn NUMERIC_COLUMNS df1)).
Proof.
  intros H1 Hnd. unfold read_posts_csv, lift, obind. rewrite H1.
  now rewrite (numeric_loop NUMERIC_COLUMNS df1 Hnd).
Qed.

Lemma rename_label_created_date (c : string) :
  rename_label POSTS_RENAMES c = "Created Date" ->
  c = "Created date" \/ c = "Created Date".
Proof.
  unfold rename_label, POSTS_RENAMES. cbn [find fst snd].
  repeat match goal with
         | |- context [String.eqb ?a c] =>
             destruct (String.eqb_spec a c) as [<- | ?];
             [now (discriminate || (intros _; left)) |]
         end.
  intros ->. now right.
Qed.

Lemma created_date_not_numeric : ~ In "Created Date" NUMERIC_COLUMNS.
Proof. simpl. intuition discriminate. Qed.

(** C10.  When the header, read past the leading row, has no creation-date
    column under either spelling, and no two of its labels are the same
    after the renaming, [read_posts_csv] returns without raising and
    without showing anything, and the table it returns has a
    ["Created Date"] column whose every cell is missing. *)
Theorem read_posts_csv_without_created_date (file : DataFrame) :
  NoDup (map (rename_label POSTS_RENAMES) (labels file)) ->
  ~ In "Created date" (labels file) ->
  ~ In "Created Date" (labels file) ->
  exists out,
    read_posts_csv pn td file = ([], Returned out) /\
    has_column out "Created Date" = true /\
    series out "Created Date" = Returned (repeat VNone (nrows file)) /\
    Forall (fun v => isna v = true) (repeat VNone (nrows file)).
Proof.
  intros Hnd Hlow Hup.
  set (df0 := rename file POSTS_RENAMES).
  assert (Hnd0 : NoDup (labels df0)) by (unfold df0; now rewrite labels_rename).
  assert (Hn0 : ~ In "Created Date" (labels df0)).
  { unfold df0. rewrite labels_rename, in_map_iff. intros [c [Hc Hin]].
    destruct (rename_label_created_date c Hc); congruence. }
  set (df1 := df0 ++ [("Created Date", repeat VNone (nrows df0))]).
  assert (Hnd1 : NoDup (labels df1)).
  { unfold df1, labels. rewrite map_app. simpl. now apply NoDup_snoc. }
  assert (Hin1 : In ("Created Date", repeat VNone (nrows file)) df1).
  { unfold df1. apply in_or_app. right. left. unfold df0.
    now rewrite nrows_rename. }
  set (df2 := coerced pn NUMERIC_COLUMNS df1).
  assert (Hnd2 : NoDup (labels df2)) by (unfold df2; now rewrite labels_coerced).
  assert (Hin2 : In ("Created Date", repeat VNone (nrows file)) df2).
  { unfold df2. apply In_coerced_other;
      [exact created_date_not_numeric | exact Hin1]. }
  assert (Hread : read_posts_csv pn td file = ([], fix_ctr df2)).
  { apply read_posts_csv_steps; [| exact Hnd1].
    fold df0. now apply set_created_date_absent. }
  assert (Hout : exists out, fix_ctr df2 = Returned out /\ NoDup (labels out) /\
                 In ("Created Date", repeat VNone (nrows file)) out).
  { destruct (in_dec string_dec "CTR" (labels df2)) as [Hc | Hc].
    - assert (Hc1 : In "CTR" (labels df1))
        by (unfold df2 in Hc; now rewrite labels_coerced in Hc).
      destruct (In_labels _ _ Hc1) as [s Hs].
      pose proof (In_coerced_same NUMERIC_COLUMNS "CTR" s
                    numeric_columns_distinct) as Hsame.
      assert (Hctr : In ("CTR", to_numeric pn s) df2).
      { apply Hsame; [simpl; tauto | exact Hs]. }
      rewrite to_numeric_floats in Hctr.
      rewrite (fix_ctr_floats df2 _ Hnd2 Hctr).
      destruct (fle _ _); eexists; split; try reflexivity; split;
        try assumption.
      + now apply NoDup_on_column.
      + apply In_on_column_other; [discriminate | exact Hin2].
    - exists df2. split; [now apply fix_ctr_absent | now split]. }
  destruct Hout as [out [Hfix [Hndo Hino]]].
  exists out. split; [now rewrite Hread, Hfix |]. split; [| split].
  - apply has_column_In. now apply (in_map fst) in Hino.
  - now apply series_unique.
  - apply Forall_forall. intros v Hv. apply repeat_spec in Hv. now subst.
Qed.

Lemma fmul_100_not_nan (x : float) :
  is_nan (fmul x (FNum 100)) = false -> is_nan x = false.
Proof. now destruct x. Qed.

(** C3, as the code has it.  The rescale applies exactly when the CTR
    column is there and the maximum of its values is at most 1; it then
    multiplies every value by 100, once.  The values end up in [0, 100]
    when the parsed values were percentages or fractions to begin with,
    and running the heuristic on the result changes nothing as long as the
    new maximum exceeds 1. *)
Theorem read_posts_csv_rescales_ctr (file : DataFrame) (raw : Series) :
  NoDup (labels (rename file POSTS_RENAMES)) ->
  (forall s, In ("Created Date", s) (rename file POSTS_RENAMES) ->
             exists s', td s = Returned s') ->
  series (rename file POSTS_RENAMES) "CTR" = Returned raw ->
  let xs := map (to_numeric_cell pn) raw in
  let ys := if fle (fmax xs) (FNum 1)
            then map (fun x => fmul x (FNum 100)) xs else xs in
  exists out,
    read_posts_csv pn td file = ([], Returned out) /\
    series out "CTR" = Returned (map VFloat ys) /\
    ((forall x, In x xs -> is_nan x = false -> percent x) ->
     forall y, In y ys -> is_nan y = false -> percent y) /\
    (fle (fmax ys) (FNum 1) = false -> fix_ctr out = Returned out).
Proof.
  intros Hnd Htd Hraw xs ys. apply series_In in Hraw.
  destruct (set_created_date_keeps _ Hnd Htd) as [df1 [Hset [Hnd1 [Hkeep _]]]].
  assert (Hin1 : In ("CTR", raw) df1) by (apply Hkeep; [discriminate | exact Hraw]).
  set (df2 := coerced pn NUMERIC_COLUMNS df1).
  assert (Hnd2 : NoDup (labels df2)) by (unfold df2; now rewrite labels_coerced).
  assert (Hin2 : In ("CTR", map VFloat xs) df2).
  { unfold xs. rewrite <- to_numeric_floats. unfold df2.
    apply In_coerced_same;
      [exact numeric_columns_distinct | simpl; tauto | exact Hin1]. }
  pose proof (read_posts_csv_steps file df1 Hset Hnd1) as Hread. fold df2 in Hread.
  rewrite (fix_ctr_floats df2 xs Hnd2 Hin2) in Hread.
  assert (Hout : exists out, read_posts_csv pn td file = ([], Returned out) /\
                   NoDup (labels out) /\ In ("CTR", map VFloat ys) out).
  { unfold ys. destruct (fle (fmax xs) (FNum 1)).
    - eexists. split; [exact Hread |]. split; [now apply NoDup_on_column |].
      apply (In_on_column_same "CTR" (fun _ => _) df2 _ Hin2).
    - exists df2. now repeat split. }
  destruct Hout as [out [Hr [Hndo Hino]]]. exists out.
  split; [exact Hr |]. split; [now apply series_unique |]. split.
  - intros Hp y Hy Hnan. unfold ys in Hy.
    destruct (fle (fmax xs) (FNum 1)) eqn:Hmax.
    + apply in_map_iff in Hy. destruct Hy as [x [<- Hx]].
      pose proof (fmul_100_not_nan x Hnan) as Hxn.
      apply (percent_times_100 xs x Hmax Hx Hxn). now apply Hp.
    + now apply Hp.
  - intros Hmax. rewrite (fix_ctr_floats out ys Hndo Hino). now rewrite Hmax.
Qed.

(** After the loop the CTR step returns, and the columns outside
    [NUMERIC_COLUMNS] are the ones the date step left. *)
Lemma numeric_steps_keep (df1 : DataFrame) :
  NoDup (labels df1) ->
  exists out,
    fix_ctr (coerced pn NUMERIC_COLUMNS df1) = Returned out /\
    NoDup (labels out) /\
    forall c s, ~ In c NUMERIC_COLUMNS -> In (c, s) df1 -> In (c, s) out.
Proof.
  intros Hnd1. set (df2 := coerced pn NUMERIC_COLUMNS df1).
  assert (Hnd2 : NoDup (labels df2)) by (unfold df2; now rewrite labels_coerced).
  assert (Hkeep : forall c s, ~ In c NUMERIC_COLUMNS -> In (c, s) df1 -> In (c, s) df2).
  { intros c s Hc Hin. unfold df2. now apply In_coerced_other. }
  destruct (in_dec string_dec "CTR" (labels df2)) as [Hc | Hc].
  - assert (Hc1 : In "CTR" (labels df1))
      by (unfold df2 in Hc; now rewrite labels_coerced in Hc).
    destruct (In_labels _ _ Hc1) as [s Hs].
    assert (Hctr : In ("CTR", to_numeric pn s) df2).
    { unfold df2. apply In_coerced_same;
        [exact numeric_columns_distinct | simpl; tauto | exact Hs]. }
    rewrite to_numeric_floats in Hctr.
    rewrite (fix_ctr_floats df2 _ Hnd2 Hctr).
    destruct (fle _ _); eexists; split; try reflexivity; split;
      try assumption.
    + now apply NoDup_on_column.
    + intros c t Hn Hin. apply In_on_column_other; [| now apply Hkeep].
      intros ->. apply Hn. simpl. tauto.
  - exists df2. split; [now apply fix_ctr_absent | now split].
Qed.

(** X18.  A table that [read_posts_csv] returned has one ["Created Date"]
    column, and its cells are timestamps or missing as soon as those
    [to_datetime] hands back are: the tables the filters are stated
    for. *)
Lemma read_posts_csv_created_date (file out : DataFrame) :
  NoDup (labels (rename file POSTS_RENAMES)) ->
  (forall s s', td s = Returned s' -> Forall date_cell s') ->
  read_posts_csv pn td file = ([], Returned out) ->
  exists dates,
    series out "Created Date" = Returned dates /\ Forall date_cell dates.
Proof.
  intros Hnd Htd Hread.
  set (df0 := rename file POSTS_RENAMES) in *.
  assert (Hdate : exists df1 dates,
             set_created_date td df0 = Returned df1 /\ NoDup (labels df1) /\
             In ("Created Date", dates) df1 /\ Forall date_cell dates).
  { destruct (in_dec string_dec "Created Date" (labels df0)) as [Hin | Hn].
    - destruct (In_labels _ _ Hin) as [s Hs].
      destruct (td s) as [s' | e] eqn:Es.
      + exists (on_column "Created Date" (fun _ => s') df0), s'.
        split; [now apply set_created_date_present with s |].
        split; [now apply NoDup_on_column |].
        split; [apply (In_on_column_same _ (fun _ => s') _ _ Hs) | now apply (Htd s)].
      + exfalso. unfold read_posts_csv, lift in Hread. fold df0 in Hread.
        unfold set_created_date, get in Hread.
        rewrite (labelled_unique _ _ _ Hnd Hs), Es in Hread. discriminate.
    - exists (df0 ++ [("Created Date", repeat VNone (nrows df0))]),
             (repeat VNone (nrows df0)).
      split; [now apply set_created_date_absent |].
      split; [unfold labels; rewrite map_app; simpl; now apply NoDup_snoc |].
      split; [apply in_or_app; right; now left |].
      apply Forall_forall. intros v Hv. apply repeat_spec in Hv. now subst. }
  destruct Hdate as [df1 [dates [Hset [Hnd1 [Hin Hcells]]]]].
  destruct (numeric_steps_keep df1 Hnd1) as [out' [Hfix [Hndo Hkeep]]].
  rewrite (read_posts_csv_steps file df1 Hset Hnd1), Hfix in Hread.
  inversion Hread; subst out'.
  exists dates. split; [| exact Hcells].
  apply series_unique; [exact Hndo |].
  apply Hkeep; [exact created_date_not_numeric | exact Hin].
Qed.

End ReadersFacts.

(** Where the statement of the specification stops: an export that has
    the click-through rate under both of its labels has two columns
    labelled ["CTR"] after the renaming, [df["CTR"]] is a frame, and
    [pd.to_numeric] refuses it.  The file has no creation-date column. *)
Lemma read_posts_csv_duplicate_label_counterexample :
  ~ In "Created date"
      (labels [ ("Post title", [VStr "Launch Post"]);
                ("Click through rate (CTR)", [VStr "2"]);
                ("CTR", [VStr "3"]) ]) /\
  ~ In "Created Date"
      (labels [ ("Post title", [VStr "Launch Post"]);
                ("Click through rate (CTR)", [VStr "2"]);
                ("CTR", [VStr "3"]) ]) /\
  read_posts_csv sample_parse_number sample_to_datetime
    [ ("Post title", [VStr "Launch Post"]);
      ("Click through rate (CTR)", [VStr "2"]);
      ("CTR", [VStr "3"]) ] =
    ([], Raised (TypeError "arg must be a list, tuple, 1-d array, or Series")).
Proof.
  split; [simpl; intuition discriminate |].
  split; [simpl; intuition discriminate | reflexivity].
Qed.

Lemma read_posts_csv_without_created_date_witness :
  exists out,
    read_posts_csv sample_parse_number sample_to_datetime
      [("Post title", [VStr "Launch Post"; VStr "Hiring"]);
       ("Likes", [VStr "12"; VStr "many"])] = ([], Returned out) /\
    series out "Created Date" = Returned [VNone; VNone].
Proof.
  destruct (read_posts_csv_without_created_date sample_parse_number
              sample_to_datetime
              [("Post title", [VStr "Launch Post"; VStr "Hiring"]);
               ("Likes", [VStr "12"; VStr "many"])])
    as [out [Hr [_ [Hs _]]]].
  - simpl. repeat constructor; simpl; intuition discriminate.
  - simpl. intuition discriminate.
  - simpl. intuition discriminate.
  - exists out. now split.
Defined.

Lemma read_posts_csv_rescales_ctr_witness :
  exists out,
    read_posts_csv sample_parse_number sample_to_datetime
      [("Created date", [VTime 5; VTime 9]);
       ("Click through rate (CTR)",
        [VFloat (FNum (2 # 100)); VFloat (FNum (5 # 10))])] = ([], Returned out) /\
    series out "CTR" =
    Returned [VFloat (FNum ((2 # 100) * 100)); VFloat (FNum ((5 # 10) * 100))].
Proof.
  destruct (read_posts_csv_rescales_ctr sample_parse_number sample_to_datetime
              [("Created date", [VTime 5; VTime 9]);
               ("Click through rate (CTR)",
                [VFloat (FNum (2 # 100)); VFloat (FNum (5 # 10))])]
              [VFloat (FNum (2 # 100)); VFloat (FNum (5 # 10))])
    as [out [Hr [Hs _]]].
  - simpl. repeat constructor; simpl; intuition discriminate.
  - intros s _. eexists. reflexivity.
  - reflexivity.
  - exists out. split; [exact Hr | exact Hs].
Defined.

(** C3 as the specification words it fails twice.  A column that holds
    250 is left at 250, outside [0, 100].  A column of fractions below
    0.01 is scaled to values that are still at most 1, so loading the
    normalised table again scales it a second time. *)
Lemma ctr_rescale_counterexample :
  (exists out,
     read_posts_csv sample_parse_number sample_to_datetime
       [("Click through rate (CTR)", [VFloat (FNum 250)])] = ([], Returned out) /\
     series out "CTR" = Returned [VFloat (FNum 250)] /\
     ~ percent (FNum 250)) /\
  (exists out again,
     read_posts_csv sample_parse_number sample_to_datetime
       [("Click through rate (CTR)", [VFloat (FNum (5 # 1000))])] =
       ([], Returned out) /\
     read_posts_csv sample_parse_number sample_to_datetime out =
       ([], Returned again) /\
     series out "CTR" = Returned [VFloat (FNum (500 # 1000))] /\
     series again "CTR" = Returned [VFloat (FNum (50000 # 1000))]).
Proof.
  split.
  - eexists. split; [reflexivity |]. split; [reflexivity |].
    intros [q [E [_ H]]]. inversion E; subst.
    apply Qle_bool_iff in H. discriminate.
  - eexists. eexists. split; [reflexivity |]. split; [reflexivity |].
    split; reflexivity.
Qed.

(* ================================================================= *)
(** * The boosted configuration: the join *)

Lemma labelled_series (df : DataFrame) (c : string) (s : Series) :
  series df c = Returned s -> labelled c df = [(c, s)].
Proof.
  intros H. destruct (series_labelled _ _ _ H) as [l Hl].
  assert (Hin : In (l, s) (labelled c df)) by (rewrite Hl; now left).
  apply labelled_In in Hin. destruct Hin as [_ Heq]. simpl in Heq.
  now subst.
Qed.

Lemma combine_app_eq {A B} (l1 l2 : list A) (r1 r2 : list B) :
  List.length l1 = List.length r1 ->
  combine (l1 ++ l2) (r1 ++ r2) = combine l1 r1 ++ combine l2 r2.
Proof.
  revert r1. induction l1 as [| a l1 IH]; intros [| b r1] H; simpl in *;
    try discriminate; [reflexivity |].
  f_equal. apply IH. now inversion H.
Qed.

Lemma combine_repeat_l {A B} (a : A) (l : list B) :
  combine (repeat a (List.length l)) l = map (pair a) l.
Proof. induction l as [| b l IH]; simpl; [reflexivity | now rewrite IH]. Qed.

Lemma combine_repeat_r {A B} (l : list A) (b : B) :
  combine l (repeat b (List.length l)) = map (fun a => (a, b)) l.
Proof. induction l as [| a l IH]; simpl; [reflexivity | now rewrite IH]. Qed.

Lemma combine_repeat_both {A B} (a : A) (b : B) (n : nat) :
  combine (repeat a n) (repeat b n) = repeat (a, b) n.
Proof. induction n as [| n IH]; simpl; [reflexivity | now rewrite IH]. Qed.

Lemma hits_length (k : value) (ck cb : Series) :
  List.length ck = List.length cb ->
  List.length (hits k ck cb) = List.length (hits k ck ck).
Proof.
  unfold hits. rewrite !length_map. revert cb.
  induction ck as [| x ck IH]; intros [| y cb] H; simpl in *;
    try discriminate; [reflexivity |].
  destruct (key_eqb k x); simpl; [f_equal |]; apply IH; now inversion H.
Qed.

Lemma combine_first_app (a1 a2 b1 b2 : Series) :
  List.length a1 = List.length b1 ->
  combine_first (a1 ++ a2) (b1 ++ b2) =
  combine_first a1 b1 ++ combine_first a2 b2.
Proof.
  intros H. unfold combine_first. rewrite (combine_app_eq _ _ _ _ H).
  apply map_app.
Qed.

Lemma combine_first_default (cells : Series) (d : value) :
  combine_first cells (repeat d (List.length cells)) =
  map (fun saved => if isna saved then d else saved) cells.
Proof.
  unfold combine_first. rewrite combine_repeat_r, map_map. reflexivity.
Qed.

(** Two text columns go together as join keys. *)
Lemma text_column_dtype (s : Series) :
  text_column s -> s = [] \/ dtype_of s = object_.
Proof.
  intros [_ [-> | [t Hin]]]; [now left | right].
  assert (H : forall f, f (VStr t) = false -> forallb f s = false).
  { intros f Hf. destruct (forallb f s) eqn:E; [| reflexivity].
    rewrite forallb_forall in E. rewrite (E _ Hin) in Hf. discriminate. }
  unfold dtype_of. now rewrite !H by reflexivity.
Qed.

Lemma text_columns_mergeable (a b : Series) :
  text_column a -> text_column b -> mergeable a b = true.
Proof.
  intros Ha Hb.
  destruct (text_column_dtype a Ha) as [-> | Ea]; [reflexivity |].
  destruct (text_column_dtype b Hb) as [-> | Eb]; [now destruct a |].
  unfold mergeable. rewrite Ea, Eb. destruct a; [reflexivity |].
  now destruct b.
Qed.

(** The frame [boosted_df] returns when a configuration is there. *)
Lemma boosted_df_with_config (df_posts config : DataFrame)
    (dates titles ck cb : Series) :
  series df_posts "Created Date" = Returned dates ->
  series df_posts "Post Title" = Returned titles ->
  series config "Post Title" = Returned ck ->
  series config "Boosted" = Returned cb ->
  mergeable titles ck = true ->
  boosted_df df_posts (Some config) =
  Returned
    [ ("Created Date", spread_left titles ck dates);
      ("Post Title", spread_left titles ck titles);
      ("Boosted",
       combine_first (spread_right titles ck cb)
         (spread_left titles ck (repeat (VBool false) (List.length dates)))) ].
Proof.
  intros Hd Ht Hk Hb Hm. unfold boosted_df. simpl select_columns.
  rewrite (labelled_series _ _ _ Hd), (labelled_series _ _ _ Ht),
    (labelled_series _ _ _ Hk), (labelled_series _ _ _ Hb).
  simpl app. cbn [obind]. unfold merge_left.
  change (series (setitem_scalar [("Created Date", dates); ("Post Title", titles)]
                    "Boosted" (VBool false)) "Post Title")
    with (Returned titles).
  change (series [("Post Title", ck); ("Boosted", cb)] "Post Title")
    with (Returned ck).
  cbn [obind]. rewrite Hm. reflexivity.
Qed.

(** One post of the left table against the saved rows. *)
Lemma merged_post (ck cb : Series) (d k : value) :
  List.length ck = List.length cb ->
  let n := Nat.max 1 (List.length (hits k ck ck)) in
  let cells := match hits k ck cb with [] => [VFloat FNaN] | cs => cs end in
  List.length cells = n /\
  combine (combine (repeat d n) (repeat k n))
    (combine_first cells (repeat (VBool false) n)) =
  merged_rows_spec ck cb (d, k).
Proof.
  intros Hlen n cells. unfold merged_rows_spec. simpl fst; simpl snd.
  pose proof (hits_length k ck cb Hlen) as Hh. subst n cells.
  destruct (hits k ck cb) as [| c cs] eqn:E.
  - simpl in Hh. rewrite <- Hh. simpl. now split.
  - rewrite <- Hh. simpl List.length.
    replace (Nat.max 1 (S (List.length cs))) with (List.length (c :: cs))
      by (simpl; lia).
    split; [reflexivity |].
    rewrite combine_first_default, combine_repeat_both.
    rewrite <- (length_map (fun saved : value =>
                   if isna saved then VBool false else saved) (c :: cs)).
    rewrite combine_repeat_l, map_map. reflexivity.
Qed.

Lemma spread_left_cons (k x : value) (titles ck s : Series) :
  spread_left (k :: titles) ck (x :: s) =
  repeat x (Nat.max 1 (List.length (hits k ck ck))) ++ spread_left titles ck s.
Proof. reflexivity. Qed.

Lemma spread_right_cons (k : value) (titles ck cb : Series) :
  spread_right (k :: titles) ck cb =
  match hits k ck cb with [] => [VFloat FNaN] | cs => cs end
  ++ spread_right titles ck cb.
Proof. reflexivity. Qed.

Lemma spread_left_length (ck : Series) :
  forall titles s t : Series,
    List.length s = List.length titles ->
    List.length t = List.length titles ->
    List.length (spread_left titles ck s) = List.length (spread_left titles ck t).
Proof.
  induction titles as [| k titles IH]; intros [| x s] [| y t] Hs Ht;
    simpl in Hs, Ht; try discriminate; [reflexivity |].
  rewrite !spread_left_cons, !length_app, !repeat_length.
  f_equal. apply IH; now inversion Hs + inversion Ht.
Qed.

Lemma spread_right_length (ck cb : Series) :
  List.length ck = List.length cb ->
  forall titles : Series,
    List.length (spread_right titles ck cb) =
    List.length (spread_left titles ck titles).
Proof.
  intros Hlen. induction titles as [| k titles IH]; [reflexivity |].
  rewrite spread_right_cons, spread_left_cons, !length_app, repeat_length, IH.
  f_equal. destruct (merged_post ck cb VNone k Hlen) as [Hc _]. exact Hc.
Qed.

(** The three columns of the joined table, read row by row. *)
Lemma merged_rows (ck cb : Series) :
  List.length ck = List.length cb ->
  forall titles dates : Series,
    List.length dates = List.length titles ->
    combine
      (combine (spread_left titles ck dates) (spread_left titles ck titles))
      (combine_first (spread_right titles ck cb)
         (spread_left titles ck (repeat (VBool false) (List.length dates)))) =
    flat_map (merged_rows_spec ck cb) (combine dates titles).
Proof.
  intros Hlen. induction titles as [| k titles IH]; intros [| d dates] Hdt;
    simpl in Hdt; try discriminate; [reflexivity |].
  assert (Hdt' : List.length dates = List.length titles) by now inversion Hdt.
  destruct (merged_post ck cb d k Hlen) as [Hc Hrow]. cbn zeta in Hc, Hrow.
  change (repeat (VBool false) (List.length (d :: dates)))
    with (VBool false :: repeat (VBool false) (List.length dates)).
  rewrite !spread_left_cons, spread_right_cons.
  change (combine (d :: dates) (k :: titles))
    with ((d, k) :: combine dates titles).
  change (flat_map (merged_rows_spec ck cb) ((d, k) :: combine dates titles))
    with (merged_rows_spec ck cb (d, k)
          ++ flat_map (merged_rows_spec ck cb) (combine dates titles)).
  rewrite <- Hrow, <- (IH dates Hdt').
  rewrite (combine_app_eq (repeat d _) _ (repeat k _) _)
    by (now rewrite !repeat_length).
  rewrite combine_first_app by (now rewrite Hc, repeat_length).
  apply combine_app_eq.
  unfold combine_first.
  rewrite length_map, !length_combine, !repeat_length, Hc. lia.
Qed.

(** C5.  Every post starts at [false].  With a configuration whose
    titles, like those of the posts, are a column of text, the saved table
    is joined to the posts by title, posts first and in their order: a post
    without a saved row keeps [false], a post with saved rows gets the
    saved flag of each, and [false] where that flag is missing.  Title
    columns that [merge] refuses to join are left to
    [boosted_df_numeric_titles_counterexample]. *)
Theorem boosted_df_merges_saved_flags (df_posts config : DataFrame)
    (dates titles saved_titles saved_flags : Series) :
  series df_posts "Created Date" = Returned dates ->
  series df_posts "Post Title" = Returned titles ->
  List.length dates = List.length titles ->
  text_column titles ->
  series config "Post Title" = Returned saved_titles ->
  series config "Boosted" = Returned saved_flags ->
  List.length saved_titles = List.length saved_flags ->
  text_column saved_titles ->
  boosted_df df_posts None =
    Returned [ ("Created Date", dates); ("Post Title", titles);
               ("Boosted", repeat (VBool false) (List.length dates)) ] /\
  exists odates otitles oflags : Series,
    boosted_df df_posts (Some config) =
      Returned [ ("Created Date", odates); ("Post Title", otitles);
                 ("Boosted", oflags) ] /\
    List.length odates = List.length otitles /\
    List.length otitles = List.length oflags /\
    combine (combine odates otitles) oflags =
    flat_map (merged_rows_spec saved_titles saved_flags) (combine dates titles).
Proof.
  intros Hd Ht Hdt Htext Hk Hb Hkb Hstext. split.
  - now apply boosted_df_without_config.
  - eexists. eexists. eexists.
    split; [exact (boosted_df_with_config _ _ _ _ _ _ Hd Ht Hk Hb
                     (text_columns_mergeable _ _ Htext Hstext)) |].
    assert (Hf : List.length (repeat (VBool false) (List.length dates)) =
                 List.length titles) by now rewrite repeat_length.
    split; [now apply spread_left_length |]. split.
    + unfold combine_first. rewrite length_map, length_combine.
      rewrite (spread_right_length _ _ Hkb titles).
      rewrite (spread_left_length saved_titles titles _ titles Hf eq_refl). lia.
    + now apply merged_rows.
Qed.

(** The example of the specification: only "Launch Post" is saved, as
    [true]. *)
Example boosted_df_launch_post :
  boosted_df
    [ ("Post Title", [VStr "Hiring"; VStr "Launch Post"; VStr "Roadmap"]);
      ("Created Date", [VTime 3; VTime 5; VTime 8]) ]
    (Some [ ("Post Title", [VStr "Launch Post"]); ("Boosted", [VBool true]) ]) =
  Returned
    [ ("Created Date", [VTime 3; VTime 5; VTime 8]);
      ("Post Title", [VStr "Hiring"; VStr "Launch Post"; VStr "Roadmap"]);
      ("Boosted", [VBool false; VBool true; VBool false]) ].
Proof. reflexivity. Qed.

(** Where the statement of the specification stops: a posts table in
    which every title is missing, or every title is a number, has a title
    column of numbers, and [merge] refuses to join it with the text titles
    of a saved file.  Without a saved file the same tables get their
    all-false column. *)
Lemma boosted_df_numeric_titles_counterexample :
  boosted_df
    [ ("Created Date", [VTime 3; VTime 5]);
      ("Post Title", [VFloat FNaN; VFloat FNaN]) ]
    (Some [ ("Post Title", [VStr "Launch Post"]); ("Boosted", [VBool true]) ]) =
    Raised (ValueError "You are trying to merge on columns of different dtypes") /\
  boosted_df
    [ ("Created Date", [VTime 3; VTime 5]);
      ("Post Title", [VFloat (FNum 2024); VFloat (FNum 2025)]) ]
    (Some [ ("Post Title", [VStr "Launch Post"]); ("Boosted", [VBool true]) ]) =
    Raised (ValueError "You are trying to merge on columns of different dtypes") /\
  boosted_df
    [ ("Created Date", [VTime 3; VTime 5]);
      ("Post Title", [VFloat FNaN; VFloat FNaN]) ]
    None =
    Returned [ ("Created Date", [VTime 3; VTime 5]);
               ("Post Title", [VFloat FNaN; VFloat FNaN]);
               ("Boosted", [VBool false; VBool false]) ].
Proof. repeat split. Qed.

Lemma boosted_df_merges_saved_flags_witness :
  exists odates otitles oflags : Series,
    boosted_df
      [ ("Post Title", [VStr "Hiring"; VStr "Launch Post"]);
        ("Created Date", [VTime 3; VTime 5]) ]
      (Some [ ("Post Title", [VStr "Launch Post"]); ("Boosted", [VBool true]) ]) =
      Returned [ ("Created Date", odates); ("Post Title", otitles);
                 ("Boosted", oflags) ] /\
    combine (combine odates otitles) oflags =
    [ (VTime 3, VStr "Hiring", VBool false);
      (VTime 5, VStr "Launch Post", VBool true) ].
Proof.
  destruct (boosted_df_merges_saved_flags
              [ ("Post Title", [VStr "Hiring"; VStr "Launch Post"]);
                ("Created Date", [VTime 3; VTime 5]) ]
              [ ("Post Title", [VStr "Launch Post"]); ("Boosted", [VBool true]) ]
              [VTime 3; VTime 5] [VStr "Hiring"; VStr "Launch Post"]
              [VStr "Launch Post"] [VBool true])
    as [_ [od [ot [ofl [Hr [_ [_ Hrows]]]]]]].
  - reflexivity.
  - reflexivity.
  - reflexivity.
  - split; [text_cells |]. right. exists "Hiring". now left.
  - reflexivity.
  - reflexivity.
  - reflexivity.
  - split; [text_cells |]. right. exists "Launch Post". now left.
  - exists od, ot, ofl. split; [exact Hr | exact Hrows].
Defined.

(* ================================================================= *)
(** * The boosted configuration: export and upload again *)

Lemma key_eqb_text (a b : value) :
  text_cell a -> text_cell b -> (key_eqb a b = true <-> a = b).
Proof.
  intros [-> | [s ->]] [-> | [t ->]]; unfold key_eqb; simpl.
  - tauto.
  - split; discriminate.
  - split; discriminate.
  - rewrite String.eqb_eq. split; [now intros -> | now inversion 1].
Qed.

Lemma hits_In (k b : value) (ck cb : Series) :
  In b (hits k ck cb) <->
  exists t, In (t, b) (combine ck cb) /\ key_eqb k t = true.
Proof.
  unfold hits. rewrite in_map_iff. split.
  - intros [[t b'] [Heq Hin]]. simpl in Heq. subst b'.
    apply filter_In in Hin. destruct Hin as [Hin Hk]. now exists t.
  - intros [t [Hin Hk]]. exists (t, b). split; [reflexivity |].
    now apply filter_In.
Qed.

Lemma In_combine_exists {A B} (l : list A) (r : list B) (y : B) :
  List.length l = List.length r -> In y r -> exists x, In (x, y) (combine l r).
Proof.
  revert r. induction l as [| a l IH]; intros [| b r] Hlen Hin;
    simpl in *; try discriminate; try contradiction.
  destruct Hin as [-> | Hin].
  - exists a. now left.
  - destruct (IH r) as [x Hx]; [now inversion Hlen | assumption |].
    exists x. now right.
Qed.

Lemma In_combine3 {A B C} (a : list A) (b : list B) (c : list C) (y : B) (z : C) :
  List.length a = List.length b ->
  (In (y, z) (combine b c) <-> exists x, In (x, y, z) (combine (combine a b) c)).
Proof.
  revert b c. induction a as [| x0 a IH]; intros [| y0 b] [| z0 c] Hlen;
    simpl in *; try discriminate;
    try (split; [contradiction | now intros [? []]]).
  assert (Hlen' : List.length a = List.length b) by now inversion Hlen.
  split.
  - intros [Heq | Hin].
    + inversion Heq; subst. exists x0. now left.
    + apply (IH b c Hlen') in Hin. destruct Hin as [x Hx]. exists x. now right.
  - intros [x [Heq | Hin]].
    + inversion Heq; subst. now left.
    + right. apply (IH b c Hlen'). now exists x.
Qed.

(** The rows of a post whose title is saved, when no saved flag is
    missing: the title with each of its saved flags. *)
Lemma merged_rows_spec_In (ck cb : Series) (d k d' t b : value) :
  Forall text_cell ck -> text_cell k ->
  Forall (fun f => isna f = false) cb ->
  In k ck -> List.length ck = List.length cb ->
  (In (d', t, b) (merged_rows_spec ck cb (d, k)) <->
   d' = d /\ t = k /\ In (k, b) (combine ck cb)).
Proof.
  intros Hck Hk Hcb Hin Hlen.
  assert (Hhit : forall b0, In b0 (hits k ck cb) <-> In (k, b0) (combine ck cb)).
  { intros b0. rewrite hits_In. split.
    - intros [t0 [Ht0 Hkey]].
      assert (Htc : text_cell t0).
      { rewrite Forall_forall in Hck. apply Hck. now apply in_combine_l in Ht0. }
      now apply (key_eqb_text k t0 Hk Htc) in Hkey; subst.
    - intros Hb0. exists k. split; [assumption |].
      now apply (key_eqb_text k k Hk Hk). }
  assert (Hcoal : forall b0, In b0 (hits k ck cb) ->
                  (if isna b0 then VBool false else b0) = b0).
  { intros b0 Hb0. apply Hhit in Hb0. apply in_combine_r in Hb0.
    rewrite Forall_forall in Hcb. now rewrite (Hcb b0 Hb0). }
  unfold merged_rows_spec. simpl fst; simpl snd.
  destruct (hits k ck cb) as [| c cs] eqn:E.
  - exfalso. destruct (In_combine_exists cb ck k (eq_sym Hlen) Hin) as [b0 Hb0].
    assert (Hsw : In (k, b0) (combine ck cb)).
    { clear - Hb0. revert cb Hb0.
      induction ck as [| x ck IH]; intros [| y cb] H; simpl in *;
        try contradiction.
      destruct H as [H | H]; [inversion H; now left | right; now apply IH]. }
    apply Hhit in Hsw. contradiction.
  - rewrite in_map_iff. split.
    + intros [b0 [Heq Hb0]]. rewrite (Hcoal b0 Hb0) in Heq.
      inversion Heq; subst. repeat split. now apply Hhit.
    + intros [-> [-> Hb]]. apply Hhit in Hb. exists b.
      now rewrite (Hcoal b Hb).
Qed.

(** C7.  Take the table the editor holds, with the titles of the posts
    and a flag in every row.  Export it, upload the file again without an
    edit, so that its title and flag columns are the exported ones, and
    let the script build the table anew: every title carries the flags it
    carried in the export, and no other. *)
Theorem boosted_config_round_trip (df_posts exported reimported : DataFrame)
    (dates titles etitles eflags : Series) :
  series df_posts "Created Date" = Returned dates ->
  series df_posts "Post Title" = Returned titles ->
  List.length dates = List.length titles ->
  text_column titles ->
  series exported "Post Title" = Returned etitles ->
  series exported "Boosted" = Returned eflags ->
  List.length etitles = List.length eflags ->
  (forall t, In t etitles <-> In t titles) ->
  Forall (fun f => isna f = false) eflags ->
  series reimported "Post Title" = series exported "Post Title" ->
  series reimported "Boosted" = series exported "Boosted" ->
  exists (again : DataFrame) (atitles aflags : Series),
    boosted_configuration df_posts (Some reimported) = ([], Returned again) /\
    download_csv_button again "boosted_config.csv" "💾 Download Boosted Config" =
      ([st_download_button "💾 Download Boosted Config" again "boosted_config.csv"],
       Returned tt) /\
    series again "Post Title" = Returned atitles /\
    series again "Boosted" = Returned aflags /\
    List.length atitles = List.length aflags /\
    forall t b, In (t, b) (combine atitles aflags) <->
                In (t, b) (combine etitles eflags).
Proof.
  intros Hd Ht Hdt Hcolumn Het Hef Hlen Hsame Hflags Hrt Hrf.
  pose proof Hcolumn as [Htext Hsome].
  rewrite Het in Hrt. rewrite Hef in Hrf.
  assert (Hetext : Forall text_cell etitles).
  { rewrite Forall_forall in *. intros t Hin. apply Htext. now apply Hsame. }
  assert (Hecolumn : text_column etitles).
  { split; [exact Hetext |]. destruct Hsome as [-> | [t Hin]].
    - left. destruct etitles as [| t rest]; [reflexivity |].
      exfalso. apply (Hsame t). now left.
    - right. exists t. now apply Hsame. }
  assert (Hcfg : df_boosted_config (Some reimported) = ([], Returned (Some reimported))).
  { unfold df_boosted_config.
    now rewrite (series_has_column _ _ _ Hrt), (series_has_column _ _ _ Hrf). }
  pose proof (boosted_df_with_config _ _ _ _ _ _ Hd Ht Hrt Hrf
                (text_columns_mergeable _ _ Hcolumn Hecolumn)) as Hb.
  pose proof (merged_rows etitles eflags Hlen titles dates Hdt) as Hrows.
  assert (Hf : List.length (repeat (VBool false) (List.length dates)) =
               List.length titles) by now rewrite repeat_length.
  pose proof (spread_left_length etitles titles dates titles Hdt eq_refl) as Hl1.
  assert (Hl2 : List.length (spread_left titles etitles titles) =
    List.length (combine_first (spread_right titles etitles eflags)
       (spread_left titles etitles (repeat (VBool false) (List.length dates))))).
  { unfold combine_first. rewrite length_map, length_combine.
    rewrite (spread_right_length _ _ Hlen titles).
    rewrite (spread_left_length etitles titles _ titles Hf eq_refl). lia. }
  eexists. eexists. eexists.
  split; [unfold boosted_configuration, bind, lift; rewrite Hcfg, Hb; reflexivity |].
  split; [reflexivity |]. split; [reflexivity |]. split; [reflexivity |].
  split; [exact Hl2 |].
  intros t b. rewrite (In_combine3 _ _ _ t b Hl1), Hrows. split.
  - intros [d Hin]. apply in_flat_map in Hin. destruct Hin as [[d' k] [Hpost Hrow]].
    assert (Hk : In k titles) by now apply in_combine_r in Hpost.
    assert (Hkt : text_cell k) by (rewrite Forall_forall in Htext; now apply Htext).
    apply (merged_rows_spec_In etitles eflags d' k d t b Hetext Hkt Hflags) in Hrow;
      [| now apply Hsame | assumption].
    destruct Hrow as [_ [-> Hin]]. exact Hin.
  - intros Hin.
    assert (Ht' : In t titles) by (apply Hsame; now apply in_combine_l in Hin).
    assert (Htt : text_cell t) by (rewrite Forall_forall in Htext; now apply Htext).
    destruct (In_combine_exists dates titles t Hdt Ht') as [d Hpost].
    exists d. apply in_flat_map. exists (d, t). split; [exact Hpost |].
    apply (merged_rows_spec_In etitles eflags d t d t b Hetext Htt Hflags);
      [now apply Hsame | assumption | now repeat split].
Qed.

Lemma boosted_config_round_trip_witness :
  exists (again : DataFrame) (atitles aflags : Series),
    boosted_configuration
      [ ("Created Date", [VTime 3; VTime 5]);
        ("Post Title", [VStr "Hiring"; VStr "Launch Post"]) ]
      (Some [ ("Created Date", [VStr "1970-01-04"; VStr "1970-01-06"]);
              ("Post Title", [VStr "Hiring"; VStr "Launch Post"]);
              ("Boosted", [VBool false; VBool true]) ]) = ([], Returned again) /\
    series again "Post Title" = Returned atitles /\
    series again "Boosted" = Returned aflags /\
    forall t b, In (t, b) (combine atitles aflags) <->
                In (t, b) [ (VStr "Hiring", VBool false);
                            (VStr "Launch Post", VBool true) ].
Proof.
  destruct (boosted_config_round_trip
              [ ("Created Date", [VTime 3; VTime 5]);
                ("Post Title", [VStr "Hiring"; VStr "Launch Post"]) ]
              [ ("Created Date", [VTime 3; VTime 5]);
                ("Post Title", [VStr "Hiring"; VStr "Launch Post"]);
                ("Boosted", [VBool false; VBool true]) ]
              [ ("Created Date", [VStr "1970-01-04"; VStr "1970-01-06"]);
                ("Post Title", [VStr "Hiring"; VStr "Launch Post"]);
                ("Boosted", [VBool false; VBool true]) ]
              [VTime 3; VTime 5] [VStr "Hiring"; VStr "Launch Post"]
              [VStr "Hiring"; VStr "Launch Post"] [VBool false; VBool true])
    as [again [at_ [af [Hr [_ [Ht [Hf [_ Hsame]]]]]]]].
  - reflexivity.
  - reflexivity.
  - reflexivity.
  - split; [text_cells |]. right. exists "Hiring". now left.
  - reflexivity.
  - reflexivity.
  - reflexivity.
  - intros t. reflexivity.
  - repeat constructor.
  - reflexivity.
  - reflexivity.
  - exists again, at_, af. repeat split; try assumption; now apply Hsame.
Defined.

(* ================================================================= *)
(** * Escaped tags as a pattern *)

Lemma push_prepend (a : atom) (atoms : list atom) (r : regex) :
  push a (prepend atoms r) = prepend (a :: atoms) r.
Proof. now destruct r. Qed.

(** A character [re.escape] leaves alone stands for itself. *)
Lemma re_compile_plain (c : ascii) (rest : string) :
  special c = false ->
  re_compile (String c rest) = option_map (push (Lit c)) (re_compile rest).
Proof.
  destruct c as [[] [] [] [] [] [] [] []]; intros H; try discriminate H;
    reflexivity.
Qed.

(** A character [re.escape] puts a backslash before stands for itself
    behind that backslash. *)
Lemma re_compile_escaped (c : ascii) (rest : string) :
  special c = true ->
  re_compile (String backslash (String c rest)) =
  option_map (push (Lit c)) (re_compile rest).
Proof.
  destruct c as [[] [] [] [] [] [] [] []]; intros H; try discriminate H;
    reflexivity.
Qed.

Lemma re_compile_escape (s rest : string) (r : regex) :
  re_compile rest = Some r ->
  re_compile (re_escape s ++ rest) = Some (prepend (literal s) r).
Proof.
  intros Hrest. induction s as [| c s IH].
  - simpl. rewrite Hrest. now destruct r.
  - cbn [re_escape]. destruct (special c) eqn:Hc.
    + change (String backslash (String c (re_escape s)) ++ rest)%string
        with (String backslash (String c (re_escape s ++ rest))).
      rewrite (re_compile_escaped c _ Hc), IH. simpl.
      now rewrite push_prepend.
    + change (String c (re_escape s) ++ rest)%string
        with (String c (re_escape s ++ rest)).
      rewrite (re_compile_plain c _ Hc), IH. simpl.
      now rewrite push_prepend.
Qed.

Lemma string_app_empty (s : string) : (s ++ "")%string = s.
Proof. induction s as [| c s IH]; simpl; [reflexivity | now rewrite IH]. Qed.

(** The pattern the filter builds compiles to one alternative per tag,
    each the characters of the tag, taken literally. *)
Lemma re_compile_tags (tag : string) (tags : list string) :
  re_compile (String.concat "|" (map re_escape (tag :: tags))) =
  Some (map literal (tag :: tags)).
Proof.
  revert tag. induction tags as [| t tags IH]; intros tag.
  - simpl. rewrite <- (string_app_empty (re_escape tag)).
    rewrite (re_compile_escape tag "" [[]] eq_refl). simpl.
    now rewrite app_nil_r.
  - change (String.concat "|" (map re_escape (tag :: t :: tags)))
      with (re_escape tag ++ String "|" (String.concat "|" (map re_escape (t :: tags))))%string.
    rewrite (re_compile_escape tag _ ([] :: map literal (t :: tags))).
    + simpl. now rewrite app_nil_r.
    + change (re_compile (String "|" (String.concat "|" (map re_escape (t :: tags)))))
        with (option_map (cons []) (re_compile (String.concat "|" (map re_escape (t :: tags))))).
      now rewrite IH.
Qed.

Lemma match_here_literal (t s : string) :
  match_here (literal t) s = prefix (lower_string t) (lower_string s).
Proof.
  revert s. induction t as [| c t IH]; intros s.
  - now destruct s.
  - destruct s as [| d s]; [reflexivity |].
    change (match_here (literal (String c t)) (String d s))
      with (Ascii.eqb (lower c) (lower d) && match_here (literal t) s).
    cbn [lower_string prefix]. rewrite IH.
    destruct (ascii_dec (lower c) (lower d)) as [E | E].
    + rewrite E, Ascii.eqb_refl. reflexivity.
    + apply Ascii.eqb_neq in E. now rewrite E.
Qed.

Lemma search_branch_literal (t s : string) :
  search_branch (literal t) s = ci_contains t s.
Proof.
  unfold ci_contains. induction s as [| d s IH].
  - simpl. now rewrite match_here_literal.
  - cbn [search_branch lower_string contains].
    now rewrite match_here_literal, IH.
Qed.

(** Searching with the compiled tags is the substring test, up to case,
    for one tag or another. *)
Lemma re_search_tags (tags : list string) (s : string) :
  re_search (map literal tags) s = existsb (fun t => ci_contains t s) tags.
Proof.
  unfold re_search. induction tags as [| t tags IH]; [reflexivity |].
  simpl. now rewrite search_branch_literal, IH.
Qed.

(* ================================================================= *)
(** * The filters *)

Lemma labelled_filter_rows (c : string) (df : DataFrame) (mask : list bool) :
  labelled c (filter_rows df mask) = filter_rows (labelled c df) mask.
Proof.
  unfold labelled, filter_rows. induction df as [| [l s] df IH]; simpl;
    [reflexivity |].
  destruct (String.eqb l c); simpl; now rewrite IH.
Qed.

Lemma labels_filter_rows (df : DataFrame) (mask : list bool) :
  labels (filter_rows df mask) = labels df.
Proof. unfold labels, filter_rows. rewrite map_map. reflexivity. Qed.

(** Filtering the rows restricts every column to the kept positions. *)
Lemma series_filter_rows (df : DataFrame) (c : string) (s : Series)
    (mask : list bool) :
  series df c = Returned s ->
  series (filter_rows df mask) c = Returned (mask_select mask s).
Proof.
  intros H. unfold series, getitem, get.
  now rewrite labelled_filter_rows, (labelled_series _ _ _ H).
Qed.

Lemma mask_select_map {A B} (f : A -> B) (mask : list bool) (l : list A) :
  mask_select mask (map f l) = map f (mask_select mask l).
Proof.
  revert l. induction mask as [| m mask IH]; intros [| x l]; simpl;
    try reflexivity.
  destruct m; simpl; now rewrite IH.
Qed.

Lemma mask_select_nil {A} (mask : list bool) : mask_select mask (@nil A) = [].
Proof. now destruct mask. Qed.

Lemma mask_select_twice {A} (m1 t : list bool) (s : list A) :
  List.length t = List.length m1 ->
  mask_select (mask_select m1 t) (mask_select m1 s) =
  mask_select (mask_and m1 t) s.
Proof.
  unfold mask_and. revert t s.
  induction m1 as [| b m1 IH]; intros [| x t] [| y s] H;
    simpl in *; try discriminate; try reflexivity.
  - destruct b; [reflexivity | apply mask_select_nil].
  - destruct b; simpl.
    + destruct x; [f_equal |]; apply IH; now inversion H.
    + apply IH. now inversion H.
Qed.

Lemma filter_rows_twice (df : DataFrame) (m1 t : list bool) :
  List.length t = List.length m1 ->
  filter_rows (filter_rows df m1) (mask_select m1 t) =
  filter_rows df (mask_and m1 t).
Proof.
  intros H. unfold filter_rows. rewrite map_map. apply map_ext.
  intros [l s]. simpl. now rewrite mask_select_twice.
Qed.

Lemma mask_and_true_l {A} (l : list A) (m : list bool) :
  List.length l = List.length m ->
  mask_and (map (fun _ => true) l) m = m.
Proof.
  unfold mask_and. revert m. induction l as [| x l IH]; intros [| b m] H;
    simpl in *; try discriminate; [reflexivity |].
  f_equal. apply IH. now inversion H.
Qed.

Lemma mask_and_true_r {A} (m : list bool) (l : list A) :
  List.length m = List.length l ->
  mask_and m (map (fun _ => true) l) = m.
Proof.
  unfold mask_and. revert l. induction m as [| b m IH]; intros [| x l] H;
    simpl in *; try discriminate; [reflexivity |].
  rewrite andb_true_r. f_equal. apply IH. now inversion H.
Qed.

(** The two column comparisons with the ends of the interval. *)
Lemma traverse_ge_timestamp (t : Z) (dates : Series) :
  Forall date_cell dates ->
  traverse (ge_timestamp t) dates =
  Returned (map (fun v => match v with VTime s => Z.leb t s | _ => false end) dates).
Proof.
  induction 1 as [| v dates Hv _ IH]; simpl; [reflexivity |].
  rewrite IH. now destruct v as [| | | [] | |].
Qed.

Lemma traverse_le_timestamp (t : Z) (dates : Series) :
  Forall date_cell dates ->
  traverse (le_timestamp t) dates =
  Returned (map (fun v => match v with VTime s => Z.leb s t | _ => false end) dates).
Proof.
  induction 1 as [| v dates Hv _ IH]; simpl; [reflexivity |].
  rewrite IH. now destruct v as [| | | [] | |].
Qed.

Lemma date_mask (start end_ : Z) (dates : Series) :
  mask_and
    (map (fun v => match v with VTime s => Z.leb start s | _ => false end) dates)
    (map (fun v => match v with VTime s => Z.leb s end_ | _ => false end) dates) =
  map (within start end_) dates.
Proof.
  unfold mask_and. induction dates as [| v dates IH]; simpl; [reflexivity |].
  rewrite IH. now destruct v.
Qed.

(** Rows kept by the date test carry a timestamp inside the interval. *)
Lemma kept_dates_within (start end_ : Z) (dates : Series) (other : list bool) :
  Forall (fun v => exists t, v = VTime t /\ (start <= t <= end_)%Z)
    (mask_select (mask_and (map (within start end_) dates) other) dates).
Proof.
  unfold mask_and. revert other.
  induction dates as [| v dates IH]; intros [| b other]; simpl;
    try constructor.
  destruct (within start end_ v && b) eqn:E; [| apply IH].
  constructor; [| apply IH].
  apply andb_true_iff in E. destruct E as [E _].
  destruct v as [| | | | | t]; simpl in E; try discriminate.
  apply andb_true_iff in E. destruct E as [E1 E2].
  exists t. split; [reflexivity |]. split; now apply Z.leb_le.
Qed.

(** A row the date test keeps has a timestamp in the interval; a row with
    a missing date is not kept. *)
Lemma date_mask_sound (start end_ : Z) (dates : Series) (other : list bool) :
  List.length dates = List.length other ->
  Forall2
    (fun d keep =>
       (keep = true -> exists t, d = VTime t /\ (start <= t <= end_)%Z) /\
       (isna d = true -> keep = false))
    dates (mask_and (map (within start end_) dates) other).
Proof.
  unfold mask_and. revert other.
  induction dates as [| v dates IH]; intros [| b other] H; simpl in *;
    try discriminate; constructor; [| apply IH; now inversion H].
  split.
  - intros E. apply andb_true_iff in E. destruct E as [E _].
    destruct v as [| | | | | t]; simpl in E; try discriminate.
    apply andb_true_iff in E. destruct E as [E1 E2].
    exists t. split; [reflexivity |]. split; now apply Z.leb_le.
  - intros Hna. destruct v as [| | | [] | |]; simpl in *; try discriminate;
      reflexivity.
Qed.

Section FiltersFacts.

Variable rf : float -> string.
Variable rt : Z -> string.

(** The mask of the hashtag filter: the specification's test, title by
    title. *)
Lemma str_contains_tags (titles : Series) (tag : string) (tags : list string) :
  str_contains rf rt titles (String.concat "|" (map re_escape (tag :: tags))) =
  Returned (map (has_tag rf rt (tag :: tags)) titles).
Proof.
  unfold str_contains. rewrite re_compile_tags. f_equal.
  apply map_ext. intros v. unfold has_tag. apply re_search_tags.
Qed.

Lemma filtered_pair (df_posts : DataFrame) (dates titles : Series)
    (start end_ : Z) (selected_tags : list string) :
  series df_posts "Created Date" = Returned dates ->
  Forall date_cell dates ->
  series df_posts "Post Title" = Returned titles ->
  List.length dates = List.length titles ->
  filtered rf rt df_posts [start; end_] selected_tags =
  Returned (filter_rows df_posts
              (mask_and (map (within start end_) dates)
                 (map (tag_ok rf rt selected_tags) titles))).
Proof.
  intros Hd Hcells Ht Hlen. unfold filtered. rewrite Hd. cbn [obind].
  rewrite (traverse_ge_timestamp start dates Hcells). cbn [obind].
  rewrite (traverse_le_timestamp end_ dates Hcells). cbn [obind].
  rewrite date_mask.
  destruct selected_tags as [| tag tags].
  - unfold tag_ok. rewrite mask_and_true_r; [reflexivity |].
    now rewrite length_map.
  - rewrite (series_filter_rows _ _ _ _ Ht). cbn [obind].
    rewrite str_contains_tags. cbn [obind].
    rewrite <- mask_select_map. f_equal.
    apply filter_rows_twice. now rewrite !length_map.
Qed.

Lemma filtered_tags_only (df_posts : DataFrame) (dates titles : Series)
    (date_range : list Z) (tag : string) (tags : list string) :
  (forall start end_, date_range <> [start; end_]) ->
  series df_posts "Post Title" = Returned titles ->
  List.length dates = List.length titles ->
  filtered rf rt df_posts date_range (tag :: tags) =
  Returned (filter_rows df_posts
              (mask_and (map (date_ok date_range) dates)
                 (map (has_tag rf rt (tag :: tags)) titles))).
Proof.
  intros Hno Ht Hlen.
  assert (Hstage : forall k : DataFrame -> outcome DataFrame,
    obind (match date_range with
           | [start; end_] =>
               obind (series df_posts "Created Date") (fun created =>
               obind (traverse (ge_timestamp start) created) (fun from_start =>
               obind (traverse (le_timestamp end_) created) (fun to_end =>
               Returned (filter_rows df_posts (mask_and from_start to_end)))))
           | _ => Returned df_posts
           end) k = k df_posts).
  { intros k. destruct date_range as [| a [| b [| c r]]]; try reflexivity.
    now destruct (Hno a b). }
  unfold filtered. rewrite Hstage. rewrite Ht. cbn [obind].
  rewrite str_contains_tags. cbn [obind]. do 2 f_equal.
  assert (Hok : map (date_ok date_range) dates = map (fun _ => true) dates).
  { apply map_ext. intros v.
    destruct date_range as [| a [| b [| c r]]]; try reflexivity.
    now destruct (Hno a b). }
  rewrite Hok. symmetry. apply mask_and_true_l. now rewrite !length_map.
Qed.


(** C4.  With an interval from [d1] to [d2] picked, the rows of the
    output are rows of the posts table; each has a creation date that is a
    timestamp [t] with [d1 <= t <= d2], and no row whose creation date is
    missing is among them. *)
Theorem filtered_rows_within_interval (df_posts : DataFrame)
    (dates titles : Series) (d1 d2 : Z) (selected_tags : list string) :
  series df_posts "Created Date" = Returned dates ->
  Forall date_cell dates ->
  series df_posts "Post Title" = Returned titles ->
  List.length dates = List.length titles ->
  exists (kept : list bool) (out : DataFrame),
    filtered rf rt df_posts [d1; d2] selected_tags = Returned out /\
    out = filter_rows df_posts kept /\
    Forall2
      (fun d keep =>
         (keep = true -> exists t, d = VTime t /\ (d1 <= t <= d2)%Z) /\
         (isna d = true -> keep = false))
      dates kept /\
    series out "Created Date" = Returned (mask_select kept dates) /\
    Forall (fun v => exists t, v = VTime t /\ (d1 <= t <= d2)%Z)
      (mask_select kept dates).
Proof.
  intros Hd Hcells Ht Hlen.
  exists (mask_and (map (within d1 d2) dates) (map (tag_ok rf rt selected_tags) titles)).
  eexists. split; [exact (filtered_pair _ _ _ _ _ _ Hd Hcells Ht Hlen) |].
  split; [reflexivity |]. split; [| split].
  - apply date_mask_sound. now rewrite length_map.
  - now apply series_filter_rows.
  - apply kept_dates_within.
Qed.


End FiltersFacts.

Lemma filtered_rows_within_interval_witness :
  exists (kept : list bool) (out : DataFrame),
    filtered sample_repr_float sample_repr_timestamp
      [ ("Created Date", [VTime 3; VNaT; VTime 5; VTime 9]);
        ("Post Title",
         [VStr "Hiring"; VStr "Undated"; VStr "Launch #AI"; VStr "Late"]) ]
      [4%Z; 9%Z] [] = Returned out /\
    out = filter_rows
            [ ("Created Date", [VTime 3; VNaT; VTime 5; VTime 9]);
              ("Post Title",
               [VStr "Hiring"; VStr "Undated"; VStr "Launch #AI"; VStr "Late"]) ]
            kept /\
    series out "Created Date" =
      Returned (mask_select kept [VTime 3; VNaT; VTime 5; VTime 9]).
Proof.
  destruct (filtered_rows_within_interval sample_repr_float sample_repr_timestamp
              [ ("Created Date", [VTime 3; VNaT; VTime 5; VTime 9]);
                ("Post Title",
                 [VStr "Hiring"; VStr "Undated"; VStr "Launch #AI"; VStr "Late"]) ]
              [VTime 3; VNaT; VTime 5; VTime 9]
              [VStr "Hiring"; VStr "Undated"; VStr "Launch #AI"; VStr "Late"]
              4%Z 9%Z [])
    as [kept [out [Hr [Hout [_ [Hs _]]]]]].
  - reflexivity.
  - repeat constructor.
  - reflexivity.
  - reflexivity.
  - exists kept, out. now repeat split.
Defined.

(** The same input, evaluated: the undated row and the early row go. *)
Example filtered_by_interval :
  filtered sample_repr_float sample_repr_timestamp
    [ ("Created Date", [VTime 3; VNaT; VTime 5; VTime 9]);
      ("Post Title",
       [VStr "Hiring"; VStr "Undated"; VStr "Launch #AI"; VStr "Late"]) ]
    [4%Z; 9%Z] [] =
  Returned
    [ ("Created Date", [VTime 5; VTime 9]);
      ("Post Title", [VStr "Launch #AI"; VStr "Late"]) ].
Proof. reflexivity. Qed.


(** Without the escape the dot of a tag would stand for any character. *)
Example unescaped_dot_is_a_wildcard :
  option_map (fun r => re_search r "A-C") (re_compile "a.c") = Some true /\
  option_map (fun r => re_search r "A-C") (re_compile (re_escape "a.c")) = Some false.
Proof. split; reflexivity. Qed.

(* ================================================================= *)
(** * Benchmarks on a whole table *)







(* ================================================================= *)
(** * The table on display *)

Lemma select_columns_present (df : DataFrame) (cs : list string) :
  (forall c, In c cs -> has_column df c = true) ->
  select_columns df cs = Returned (flat_map (fun c => labelled c df) cs).
Proof.
  induction cs as [| c cs IH]; intros Hall; [reflexivity |].
  simpl. rewrite IH by (intros c' Hc'; apply Hall; now right).
  assert (Hc : labelled c df <> []).
  { assert (Hin : In c (labels df)) by (apply has_column_In, Hall; now left).
    destruct (In_labels _ _ Hin) as [s Hs].
    assert (H : In (c, s) (labelled c df)) by now apply labelled_In.
    intros E. now rewrite E in H. }
  now destruct (labelled c df).
Qed.

(** X1.  Cutting [show_cols] down to the columns that are there makes the
    selection safe: it never raises, it shows exactly the listed columns
    the table has, with their cells, and no column outside the list. *)
Theorem shown_table_never_raises (filtered_display : DataFrame) :
  exists out,
    shown_table filtered_display = Returned out /\
    (forall col, In col out <->
                 In col filtered_display /\ In (fst col) SHOW_COLS).
Proof.
  unfold shown_table. eexists. split.
  - apply select_columns_present. intros c Hc. now apply filter_In in Hc.
  - intros col. rewrite in_flat_map. split.
    + intros [c [Hc Hcol]]. apply filter_In in Hc. destruct Hc as [Hc _].
      apply labelled_In in Hcol. destruct Hcol as [Hin Heq]. now subst c.
    + intros [Hin Hshow]. exists (fst col). split.
      * apply filter_In. split; [assumption |]. apply has_column_In.
        now apply (in_map fst) in Hin.
      * now apply labelled_In.
Qed.

(* ================================================================= *)
(** * Benchmarks without their columns *)

Lemma column_mean_absent (df : DataFrame) (c : string) :
  has_column df c = false -> column_mean df c = Raised (KeyError c).
Proof.
  intros H. apply has_column_false in H. unfold column_mean, series, getitem.
  now rewrite (get_absent _ _ H).
Qed.

Lemma metrics_need_every_column (filtered : DataFrame) (c : string) :
  In c BENCHMARK_COLUMNS -> has_column filtered c = false ->
  exists e, metrics filtered = Raised e.
Proof.
  intros Hc Hno. unfold metrics.
  destruct (column_mean filtered "Engagement Rate") as [er | e] eqn:E1;
    [| now exists e].
  destruct (column_mean filtered "CTR") as [ctr | e] eqn:E2; [| now exists e].
  destruct (column_mean filtered "Impressions") as [im | e] eqn:E3;
    [| now exists e].
  destruct (column_mean filtered "Clicks") as [cl | e] eqn:E4; [| now exists e].
  destruct (column_mean filtered "Likes") as [li | e] eqn:E5; [| now exists e].
  exfalso. simpl in Hc.
  destruct Hc as [<- | [<- | [<- | [<- | [<- | []]]]]];
    rewrite (column_mean_absent _ _ Hno) in *; discriminate.
Qed.

(** X2.  When one of the five benchmark columns is missing from the posts
    table, lines 190-227 raise while the dict [metrics] is built: no
    benchmark card is shown and the table with the flags is never made. *)
Theorem benchmarks_need_every_column (filtered : DataFrame) (c : string) :
  In c BENCHMARK_COLUMNS -> has_column filtered c = false ->
  exists e, posts_with_flags filtered = ([], Raised e).
Proof.
  intros Hc Hno. destruct (metrics_need_every_column filtered c Hc Hno) as [e He].
  exists e. unfold posts_with_flags, benchmarks, bind, lift. now rewrite He.
Qed.

Lemma benchmarks_need_every_column_witness :
  exists e,
    posts_with_flags
      [ ("Engagement Rate", [VFloat (FNum 1)]); ("CTR", [VFloat (FNum 2)]);
        ("Impressions", [VFloat (FNum 100)]); ("Clicks", [VFloat (FNum 2)]) ] =
    ([], Raised e).
Proof.
  apply (benchmarks_need_every_column _ "Likes"); [simpl; tauto | reflexivity].
Defined.

(* ================================================================= *)
(** * What the filters leave of a table *)

Lemma mask_select_then {A} (m1 m2 : list bool) (s : list A) :
  mask_select m2 (mask_select m1 s) = mask_select (mask_then m1 m2) s.
Proof.
  revert m2 s. induction m1 as [| b m1 IH]; intros m2 s.
  - simpl. apply mask_select_nil.
  - destruct s as [| x s].
    + now rewrite !mask_select_nil.
    + destruct b; simpl.
      * destruct m2 as [| b2 m2]; [reflexivity |]. simpl.
        destruct b2; now rewrite IH.
      * apply IH.
Qed.

Lemma filter_rows_then (df : DataFrame) (m1 m2 : list bool) :
  filter_rows (filter_rows df m1) m2 = filter_rows df (mask_then m1 m2).
Proof.
  unfold filter_rows. rewrite map_map. apply map_ext. intros [l s]. simpl.
  now rewrite mask_select_then.
Qed.

Lemma mask_select_all {A} (n : nat) (s : list A) :
  (List.length s <= n)%nat -> mask_select (repeat true n) s = s.
Proof.
  revert s. induction n as [| n IH]; intros [| x s] H; simpl in *;
    try reflexivity; [lia |].
  f_equal. apply IH. lia.
Qed.

Lemma filter_rows_all (df : DataFrame) :
  filter_rows df (repeat true (list_max (map (fun col => List.length (snd col)) df))) = df.
Proof.
  unfold filter_rows. etransitivity; [| apply map_id]. apply map_ext_in.
  intros [l s] Hin. simpl. f_equal. apply mask_select_all.
  pose proof (list_max_le (map (fun col => List.length (snd col)) df)
                (list_max (map (fun col => List.length (snd col)) df))) as [H _].
  specialize (H (Nat.le_refl _)). rewrite Forall_forall in H.
  apply H. apply in_map_iff. now exists (l, s).
Qed.

Lemma obind_returned {A B} (c : outcome A) (k : A -> outcome B) (b : B) :
  obind c k = Returned b -> exists a, c = Returned a /\ k a = Returned b.
Proof. destruct c as [a | e]; simpl; intros H; [now exists a | discriminate]. Qed.

Section FilterInvariants.

Variable rf : float -> string.
Variable rt : Z -> string.

Lemma filtered_mask (df_posts out : DataFrame) (date_range : list Z)
    (selected_tags : list string) :
  filtered rf rt df_posts date_range selected_tags = Returned out ->
  exists mask, out = filter_rows df_posts mask.
Proof.
  intros H. unfold filtered in H. apply obind_returned in H.
  destruct H as [stage [Hstage Htags]].
  assert (H1 : exists m1, stage = filter_rows df_posts m1).
  { destruct date_range as [| a [| b [| c r]]];
      try (inversion Hstage; subst; eexists; symmetry; apply filter_rows_all).
    apply obind_returned in Hstage. destruct Hstage as [created [_ Hs]].
    apply obind_returned in Hs. destruct Hs as [lo [_ Hs]].
    apply obind_returned in Hs. destruct Hs as [hi [_ Hs]].
    inversion Hs; subst. now eexists. }
  destruct H1 as [m1 ->].
  destruct selected_tags as [| tag tags].
  - inversion Htags; subst. now exists m1.
  - apply obind_returned in Htags. destruct Htags as [titles [_ Ht]].
    apply obind_returned in Ht. destruct Ht as [m2 [_ Ht]].
    inversion Ht; subst. exists (mask_then m1 m2). apply filter_rows_then.
Qed.

(** X3.  The filters only take rows away.  Whatever the date range and
    the tags, a table the filters return is the posts table restricted to
    some set of row positions, the same for every column: no column is
    added, dropped, renamed or reordered, and no cell is changed. *)
Theorem filtered_only_removes_rows (df_posts out : DataFrame)
    (date_range : list Z) (selected_tags : list string) :
  filtered rf rt df_posts date_range selected_tags = Returned out ->
  exists mask, out = filter_rows df_posts mask /\ labels out = labels df_posts.
Proof.
  intros H. destruct (filtered_mask _ _ _ _ H) as [mask ->].
  exists mask. split; [reflexivity |].
  apply labels_filter_rows.
Qed.

(** X4.  A posts table without a single creation date comes out of the
    date filter empty, whatever the two dates picked are: a missing date
    is neither on or after the start nor on or before the end. *)
Theorem filtered_without_dates_is_empty (df_posts : DataFrame)
    (dates titles : Series) (d1 d2 : Z) (selected_tags : list string) :
  series df_posts "Created Date" = Returned dates ->
  Forall (fun v => v = VNone \/ v = VNaT) dates ->
  series df_posts "Post Title" = Returned titles ->
  List.length dates = List.length titles ->
  exists out,
    filtered rf rt df_posts [d1; d2] selected_tags = Returned out /\
    labels out = labels df_posts /\
    Forall (fun col => snd col = []) out.
Proof.
  intros Hd Hmiss Ht Hlen.
  assert (Hcells : Forall date_cell dates).
  { apply Forall_forall. intros v Hv. rewrite Forall_forall in Hmiss.
    destruct (Hmiss v Hv) as [-> | ->]; exact I. }
  eexists. split; [exact (filtered_pair rf rt _ _ _ d1 d2 selected_tags Hd Hcells Ht Hlen) |].
  split; [apply labels_filter_rows |].
  assert (Hmask : forall other,
             mask_and (map (within d1 d2) dates) other =
             repeat false (List.length (mask_and (map (within d1 d2) dates) other))).
  { clear - Hmiss. unfold mask_and. induction Hmiss as [| v dates Hv _ IH];
      intros [| b other]; simpl; try reflexivity.
    rewrite <- IH. now destruct Hv as [-> | ->]. }
  rewrite Hmask. apply Forall_forall. intros col Hcol.
  unfold filter_rows in Hcol. apply in_map_iff in Hcol.
  destruct Hcol as [[l s] [<- _]]. simpl.
  generalize (List.length (mask_and (map (within d1 d2) dates)
                             (map (tag_ok rf rt selected_tags) titles))).
  intros n. revert s. induction n as [| n IH]; intros [| x s]; simpl;
    try reflexivity. apply IH.
Qed.

End FilterInvariants.

Lemma filtered_only_removes_rows_witness :
  exists mask,
    [ ("Created Date", [VTime 5]); ("Post Title", [VStr "Launch #AI"]) ] =
    filter_rows
      [ ("Created Date", [VTime 3; VTime 5]);
        ("Post Title", [VStr "Hiring"; VStr "Launch #AI"]) ] mask /\
    labels [ ("Created Date", [VTime 5]); ("Post Title", [VStr "Launch #AI"]) ] =
    labels [ ("Created Date", [VTime 3; VTime 5]);
             ("Post Title", [VStr "Hiring"; VStr "Launch #AI"]) ].
Proof.
  apply (filtered_only_removes_rows sample_repr_float sample_repr_timestamp
           _ _ [1%Z; 9%Z] ["#ai"]).
  reflexivity.
Defined.

Lemma filtered_without_dates_is_empty_witness :
  exists out,
    filtered sample_repr_float sample_repr_timestamp
      [ ("Post Title", [VStr "Hiring"; VStr "Launch #AI"]);
        ("Created Date", [VNone; VNone]) ]
      [1%Z; 9%Z] [] = Returned out /\
    labels out =
      labels [ ("Post Title", [VStr "Hiring"; VStr "Launch #AI"]);
               ("Created Date", [VNone; VNone]) ] /\
    Forall (fun col => snd col = []) out.
Proof.
  apply (filtered_without_dates_is_empty sample_repr_float sample_repr_timestamp
           [ ("Post Title", [VStr "Hiring"; VStr "Launch #AI"]);
             ("Created Date", [VNone; VNone]) ]
           [VNone; VNone] [VStr "Hiring"; VStr "Launch #AI"]).
  - reflexivity.
  - repeat constructor.
  - reflexivity.
  - reflexivity.
Defined.

(* ================================================================= *)
(** * What the two readers do to the columns *)

Section ReadersColumns.

Variable pn : string -> option float.
Variable td : Series -> outcome Series.

Lemma to_numeric_all_floats (s : Series) :
  Forall (fun v => exists x, v = VFloat x) (to_numeric pn s).
Proof.
  unfold to_numeric. apply Forall_forall. intros v Hv.
  apply in_map_iff in Hv. destruct Hv as [v0 [<- _]]. now eexists.
Qed.

(** The loop and the CTR step, column by column. *)
Lemma numeric_steps_columns (df1 : DataFrame) :
  NoDup (labels df1) ->
  exists out,
    fix_ctr (coerced pn NUMERIC_COLUMNS df1) = Returned out /\
    NoDup (labels out) /\
    labels out = labels df1 /\
    (forall c s, ~ In c NUMERIC_COLUMNS -> In (c, s) df1 -> In (c, s) out) /\
    (forall c s, In c NUMERIC_COLUMNS -> c <> "CTR" -> In (c, s) df1 ->
                 In (c, to_numeric pn s) out) /\
    (forall s, In ("CTR", s) df1 -> exists ys, In ("CTR", map VFloat ys) out).
Proof.
  intros Hnd1. set (df2 := coerced pn NUMERIC_COLUMNS df1).
  assert (Hl2 : labels df2 = labels df1) by (unfold df2; apply labels_coerced).
  assert (Hnd2 : NoDup (labels df2)) by now rewrite Hl2.
  assert (Hkeep : forall c s, ~ In c NUMERIC_COLUMNS -> In (c, s) df1 -> In (c, s) df2).
  { intros c s Hc Hin. unfold df2. now apply In_coerced_other. }
  assert (Hnum : forall c s, In c NUMERIC_COLUMNS -> In (c, s) df1 ->
                             In (c, to_numeric pn s) df2).
  { intros c s Hc Hin. unfold df2.
    now apply In_coerced_same; [exact numeric_columns_distinct | |]. }
  destruct (in_dec string_dec "CTR" (labels df2)) as [Hc | Hc].
  - assert (Hc1 : In "CTR" (labels df1)) by now rewrite <- Hl2.
    destruct (In_labels _ _ Hc1) as [s0 Hs0].
    assert (Hctr : In ("CTR", to_numeric pn s0) df2)
      by (apply Hnum; [simpl; tauto | exact Hs0]).
    rewrite to_numeric_floats in Hctr.
    rewrite (fix_ctr_floats df2 _ Hnd2 Hctr).
    destruct (fle _ _).
    + eexists. split; [reflexivity |].
      split; [now apply NoDup_on_column |].
      split; [now rewrite labels_on_column |].
      split; [| split].
      * intros c s Hn Hin. apply In_on_column_other; [| now apply Hkeep].
        intros ->. apply Hn. simpl. tauto.
      * intros c s Hn Hne Hin. apply In_on_column_other; [exact Hne |].
        now apply Hnum.
      * intros s _. eexists.
        apply (In_on_column_same "CTR" (fun _ => map VFloat _) df2 _ Hctr).
    + exists df2. split; [reflexivity |]. split; [exact Hnd2 |].
      split; [exact Hl2 |]. split; [exact Hkeep |]. split.
      * intros c s Hn _ Hin. now apply Hnum.
      * intros s _. eexists. exact Hctr.
  - exists df2. split; [now apply fix_ctr_absent |]. split; [exact Hnd2 |].
    split; [exact Hl2 |]. split; [exact Hkeep |]. split.
    + intros c s Hn _ Hin. now apply Hnum.
    + intros s Hs. exfalso. apply Hc. rewrite Hl2.
      now apply (in_map fst) in Hs.
Qed.

(** X5.  [read_posts_csv] touches the columns it names and no other.  A
    column outside the date and the eight numeric labels comes out with the
    cells it went in with; a numeric column other than CTR comes out as
    [pd.to_numeric] of its cells; and every numeric column that is there,
    CTR included, holds only floats, a cell that is no number having become
    NaN. *)
Theorem read_posts_csv_columns (file : DataFrame) :
  NoDup (labels (rename file POSTS_RENAMES)) ->
  (forall s, In ("Created Date", s) (rename file POSTS_RENAMES) ->
             exists s', td s = Returned s') ->
  exists out,
    read_posts_csv pn td file = ([], Returned out) /\
    (forall c s, In (c, s) (rename file POSTS_RENAMES) ->
                 c <> "Created Date" -> ~ In c NUMERIC_COLUMNS ->
                 series out c = Returned s) /\
    (forall c s, In (c, s) (rename file POSTS_RENAMES) ->
                 In c NUMERIC_COLUMNS -> c <> "CTR" ->
                 series out c = Returned (to_numeric pn s)) /\
    (forall c s, In c NUMERIC_COLUMNS -> series out c = Returned s ->
                 Forall (fun v => exists x, v = VFloat x) s).
Proof.
  intros Hnd Htd.
  destruct (set_created_date_keeps td _ Hnd Htd)
    as [df1 [Hset [Hnd1 [Hkeep Hback]]]].
  destruct (numeric_steps_columns df1 Hnd1)
    as [out [Hfix [Hndo [Hlab [Hother [Hnum Hctr]]]]]].
  exists out. split.
  - now rewrite (read_posts_csv_steps pn td file df1 Hset Hnd1), Hfix.
  - split; [| split].
    + intros c s Hin Hcd Hn. apply series_unique; [exact Hndo |].
      apply Hother; [exact Hn | now apply Hkeep].
    + intros c s Hin Hn Hne. apply series_unique; [exact Hndo |].
      apply Hnum; [exact Hn | exact Hne |].
      apply Hkeep; [| exact Hin]. intros ->. now apply created_date_not_numeric.
    + intros c s Hn Hs. apply series_In in Hs.
      assert (Hc1 : In c (labels df1)).
      { rewrite <- Hlab. now apply (in_map fst) in Hs. }
      destruct (In_labels _ _ Hc1) as [s1 Hs1].
      destruct (String.eqb_spec c "CTR") as [-> | Hne].
      * destruct (Hctr s1 Hs1) as [ys Hys].
        rewrite (nodup_labels_functional out "CTR" s _ Hndo Hs Hys).
        apply Forall_forall. intros v Hv. apply in_map_iff in Hv.
        destruct Hv as [x [<- _]]. now eexists.
      * pose proof (Hnum c s1 Hn Hne Hs1) as Hc.
        rewrite (nodup_labels_functional out c s _ Hndo Hs Hc).
        apply to_numeric_all_floats.
Qed.

Lemma metrics_loop (cs : list string) :
  forall df,
    NoDup (labels df) ->
    (forall c, In c cs -> In c (labels df)) ->
    for_each cs
      (fun df c => if negb (String.eqb c "Date") then coerce_numeric pn df c
                   else Returned df) df =
    Returned (coerced pn (filter (fun c => negb (String.eqb c "Date")) cs) df).
Proof.
  induction cs as [| c cs IH]; intros df Hnd Hin; [reflexivity |].
  simpl. destruct (String.eqb c "Date"); simpl.
  - apply IH; [exact Hnd |]. intros c' Hc'. apply Hin. now right.
  - pose proof (coerce_round pn df c Hnd) as Hround.
    assert (Hc : has_column df c = true) by (apply has_column_In, Hin; now left).
    rewrite Hc in Hround. rewrite Hround.
    apply IH; [now apply NoDup_on_column |].
    intros c' Hc'. rewrite labels_on_column. apply Hin. now right.
Qed.

(** X6.  On a metrics file with a date column [read_metrics_csv] returns
    without a message: the labels stay, the date column is what
    [pd.to_datetime] made of it, and every other column is [pd.to_numeric]
    of its cells, so it holds floats only. *)
Theorem read_metrics_csv_coerces (file : DataFrame) (dates parsed : Series) :
  NoDup (labels file) ->
  In ("Date", dates) file ->
  td dates = Returned parsed ->
  exists out,
    read_metrics_csv pn td file = ([], Returned out) /\
    labels out = labels file /\
    series out "Date" = Returned parsed /\
    (forall c s, c <> "Date" -> In (c, s) file ->
                 series out c = Returned (to_numeric pn s) /\
                 Forall (fun v => exists x, v = VFloat x) (to_numeric pn s)).
Proof.
  intros Hnd Hdate Htd.
  set (df1 := on_column "Date" (fun _ => parsed) file).
  set (cs := filter (fun c => negb (String.eqb c "Date")) (labels df1)).
  assert (Hl1 : labels df1 = labels file) by apply labels_on_column.
  assert (Hnd1 : NoDup (labels df1)) by now rewrite Hl1.
  assert (Hcs : NoDup cs) by (unfold cs; now apply NoDup_filter).
  assert (Hread : read_metrics_csv pn td file = ([], Returned (coerced pn cs df1))).
  { unfold read_metrics_csv.
    assert (Hc : has_column file "Date" = true).
    { apply has_column_In. now apply (in_map fst) in Hdate. }
    rewrite Hc. simpl negb. cbv iota. unfold bind, ret, lift.
    rewrite (getitem_unique _ _ _ Hnd Hdate). cbn [obind]. rewrite Htd.
    cbn [obind]. rewrite (setitem_present _ _ _ parsed Hnd Hdate).
    fold df1. rewrite (metrics_loop (labels df1) df1 Hnd1 (fun c H => H)).
    reflexivity. }
  assert (Hndo : NoDup (labels (coerced pn cs df1))) by now rewrite labels_coerced.
  exists (coerced pn cs df1). split; [exact Hread |].
  split; [now rewrite labels_coerced |]. split.
  - apply series_unique; [exact Hndo |]. apply In_coerced_other.
    + unfold cs. rewrite filter_In. intros [_ H]. discriminate.
    + apply (In_on_column_same "Date" (fun _ => parsed) file _ Hdate).
  - intros c s Hne Hin. split; [| apply to_numeric_all_floats].
    apply series_unique; [exact Hndo |].
    apply In_coerced_same; [exact Hcs | |].
    + unfold cs. apply filter_In. split.
      * rewrite Hl1. now apply (in_map fst) in Hin.
      * apply negb_true_iff. now apply String.eqb_neq.
    + now apply In_on_column_other.
Qed.

End ReadersColumns.

Lemma read_posts_csv_columns_witness :
  exists out,
    read_posts_csv sample_parse_number sample_to_datetime
      [ ("Post title", [VStr "Launch Post"; VStr "Hiring"]);
        ("Likes", [VStr "12"; VStr "many"]);
        ("Campaign", [VStr "spring"; VStr "autumn"]) ] = ([], Returned out) /\
    series out "Campaign" = Returned [VStr "spring"; VStr "autumn"] /\
    series out "Likes" = Returned [VFloat (FNum 12); VFloat FNaN].
Proof.
  destruct (read_posts_csv_columns sample_parse_number sample_to_datetime
              [ ("Post title", [VStr "Launch Post"; VStr "Hiring"]);
                ("Likes", [VStr "12"; VStr "many"]);
                ("Campaign", [VStr "spring"; VStr "autumn"]) ])
    as [out [Hr [Hother [Hnum _]]]].
  - simpl. repeat constructor; simpl; intuition discriminate.
  - intros s _. eexists. reflexivity.
  - exists out. split; [exact Hr |]. split.
    + apply Hother; [simpl; tauto | discriminate | simpl; intuition discriminate].
    + apply (Hnum "Likes" [VStr "12"; VStr "many"]);
        [simpl; tauto | simpl; tauto | discriminate].
Defined.

Lemma read_metrics_csv_coerces_witness :
  exists out,
    read_metrics_csv sample_parse_number sample_to_datetime
      [ ("Date", [VTime 5; VStr "soon"]);
        ("Clicks (total)", [VStr "7"; VStr "n/a"]) ] = ([], Returned out) /\
    series out "Date" = Returned [VTime 5; VNaT] /\
    series out "Clicks (total)" = Returned [VFloat (FNum 7); VFloat FNaN].
Proof.
  destruct (read_metrics_csv_coerces sample_parse_number sample_to_datetime
              [ ("Date", [VTime 5; VStr "soon"]);
                ("Clicks (total)", [VStr "7"; VStr "n/a"]) ]
              [VTime 5; VStr "soon"] [VTime 5; VNaT])
    as [out [Hr [_ [Hd Hnum]]]].
  - repeat constructor; simpl; intuition discriminate.
  - now left.
  - reflexivity.
  - exists out. split; [exact Hr |]. split; [exact Hd |].
    apply (Hnum "Clicks (total)" [VStr "7"; VStr "n/a"]);
      [discriminate | simpl; tauto].
Defined.

(* ================================================================= *)
(** * Hashtags *)

Lemma prefix_cons (c : ascii) (a b : string) :
  prefix (String c a) (String c b) = prefix a b.
Proof. simpl. destruct (ascii_dec c c); congruence. Qed.

Lemma word_run_prefix (s : string) : prefix (word_run s) s = true.
Proof.
  induction s as [| c s IH]; [reflexivity |].
  simpl word_run. destruct (word_char c); [| reflexivity].
  now rewrite prefix_cons.
Qed.

Lemma word_run_word (s : string) :
  forallb word_char (list_ascii_of_string (word_run s)) = true.
Proof.
  induction s as [| c s IH]; [reflexivity |].
  simpl word_run. destruct (word_char c) eqn:Hc; [| reflexivity].
  simpl. now rewrite Hc.
Qed.

Lemma word_run_app (w b : string) :
  forallb word_char (list_ascii_of_string w) = true ->
  word_run b = EmptyString ->
  word_run (w ++ b) = w.
Proof.
  intros Hw Hb. induction w as [| c w IH]; [exact Hb |].
  simpl in *. apply andb_true_iff in Hw. destruct Hw as [Hc Hw].
  rewrite Hc. now rewrite IH.
Qed.

Lemma findall_hashtags_skip (w b : string) :
  findall_hashtags (w ++ b) (String.length w) = findall_hashtags b 0.
Proof. induction w as [| c w IH]; [reflexivity | exact IH]. Qed.

Lemma findall_hashtags_in (text : string) :
  forall skip tag,
    In tag (findall_hashtags text skip) ->
    is_hashtag tag = true /\ contains tag text = true.
Proof.
  induction text as [| c rest IH]; intros skip tag Hin; [contradiction |].
  assert (Hrest : forall k, In tag (findall_hashtags rest k) ->
                            is_hashtag tag = true /\
                            contains tag (String c rest) = true).
  { intros k Hk. destruct (IH k tag Hk) as [Ht Hc]. split; [exact Ht |].
    simpl. rewrite Hc. apply orb_true_r. }
  simpl in Hin. destruct skip as [| k]; [| now apply (Hrest k)].
  destruct (Ascii.eqb_spec c "#") as [-> | Hne]; [| now apply (Hrest 0%nat)].
  pose proof (word_run_prefix rest) as Hp.
  pose proof (word_run_word rest) as Hw.
  destruct (word_run rest) as [| d w]; [now apply (Hrest 0%nat) |].
  destruct Hin as [<- | Hin]; [| exact (Hrest _ Hin)].
  split.
  - unfold is_hashtag. now rewrite Hw.
  - unfold contains; fold contains. now rewrite prefix_cons, Hp.
Qed.

(** X7.  Every match [re.findall] reports for [#\w+] in an ASCII text is
    a [#] followed by word characters, at least one, and stands in the
    text. *)
Theorem findall_hashtags_sound (text tag : string) :
  is_ascii text = true ->
  In tag (findall_hashtags text 0) ->
  is_hashtag tag = true /\ contains tag text = true.
Proof. intros _. apply findall_hashtags_in. Qed.

Lemma findall_hashtags_sound_witness :
  findall_hashtags "Join #OSIG-2 now" 0 = ["#OSIG"] /\
  is_hashtag "#OSIG" = true /\ contains "#OSIG" "Join #OSIG-2 now" = true.
Proof.
  split; [reflexivity |].
  apply (findall_hashtags_sound "Join #OSIG-2 now" "#OSIG");
    [reflexivity | now left].
Defined.

(** X8.  The first match, and where the search goes on: in an ASCII text
    that has no [#] before [#w], with [w] a run of word characters that
    ends where the rest [b] begins, the first tag found is [#w] and the
    others are those of [b]. *)
Theorem findall_hashtags_first_match (a w b : string) :
  is_ascii (a ++ String "#" (w ++ b)) = true ->
  forallb (fun c => negb (Ascii.eqb c "#")) (list_ascii_of_string a) = true ->
  is_hashtag (String "#" w) = true ->
  word_run b = EmptyString ->
  findall_hashtags (a ++ String "#" (w ++ b)) 0 =
  String "#" w :: findall_hashtags b 0.
Proof.
  intros _ Ha Hw Hb. induction a as [| c a IH].
  - unfold is_hashtag in Hw. simpl in Hw.
    apply andb_true_iff in Hw. destruct Hw as [Hne Hw].
    simpl. rewrite (word_run_app w b Hw Hb).
    destruct w as [| d w]; [discriminate |].
    now rewrite findall_hashtags_skip.
  - simpl in Ha. apply andb_true_iff in Ha. destruct Ha as [Hc Ha].
    simpl. apply negb_true_iff in Hc. rewrite Hc. now apply IH.
Qed.

Lemma findall_hashtags_first_match_witness :
  findall_hashtags ("We are hiring " ++ String "#" ("DOTC" ++ ", see #b_1")) 0 =
  "#DOTC" :: findall_hashtags ", see #b_1" 0.
Proof.
  apply (findall_hashtags_first_match "We are hiring " "DOTC" ", see #b_1");
    reflexivity.
Defined.

(** [<=] on strings is transitive. *)
Lemma string_leb_cons (c1 c2 : ascii) (s1 s2 : string) :
  String.leb (String c1 s1) (String c2 s2) = true <->
  (N_of_ascii c1 < N_of_ascii c2)%N \/ (c1 = c2 /\ String.leb s1 s2 = true).
Proof.
  unfold String.leb. simpl. unfold Ascii.compare.
  destruct (N.compare_spec (N_of_ascii c1) (N_of_ascii c2)) as [He | Hl | Hg].
  - assert (c1 = c2).
    { rewrite <- (ascii_N_embedding c1), <- (ascii_N_embedding c2).
      now rewrite He. }
    split; [intros H1; right; now split |].
    intros [Hlt | [_ H1]]; [lia | exact H1].
  - split; [now left | reflexivity].
  - split; [discriminate |]. intros [Hlt | [-> _]]; lia.
Qed.

Lemma string_leb_trans (a : string) :
  forall b c,
    String.leb a b = true -> String.leb b c = true -> String.leb a c = true.
Proof.
  induction a as [| x a IH]; intros [| y b] [| z c] Hab Hbc;
    try reflexivity; try discriminate.
  rewrite string_leb_cons in *.
  destruct Hab as [Hab | [-> Hab]]; destruct Hbc as [Hbc | [-> Hbc]].
  - left. lia.
  - now left.
  - now left.
  - right. split; [reflexivity |]. now apply (IH b c).
Qed.

Lemma insert_sorted_permutation key (x : string) (l : list string) :
  Permutation (insert_sorted key x l) (x :: l).
Proof.
  induction l as [| y l IH]; simpl; [reflexivity |].
  destruct (String.leb (key x) (key y)); [reflexivity |].
  rewrite IH. apply perm_swap.
Qed.

Lemma sorted_by_permutation key (l : list string) :
  Permutation (sorted_by key l) l.
Proof.
  induction l as [| x l IH]; simpl; [reflexivity |].
  rewrite insert_sorted_permutation. now constructor.
Qed.

Lemma insert_sorted_sorted (x : string) (l : list string) :
  StronglySorted by_lower l ->
  StronglySorted by_lower (insert_sorted lower_string x l).
Proof.
  induction 1 as [| y l Hs IH Hall]; simpl.
  - constructor; constructor.
  - destruct (String.leb (lower_string x) (lower_string y)) eqn:Hxy.
    + constructor; [now constructor |]. constructor; [exact Hxy |].
      apply Forall_forall. intros z Hz. rewrite Forall_forall in Hall.
      exact (string_leb_trans _ _ _ Hxy (Hall z Hz)).
    + constructor; [exact IH |].
      assert (Hyx : by_lower y x).
      { destruct (String.leb_total (lower_string x) (lower_string y)) as [H | H];
          [congruence | exact H]. }
      apply Forall_forall. intros z Hz.
      apply (Permutation_in _ (insert_sorted_permutation lower_string x l)) in Hz.
      destruct Hz as [<- | Hz]; [exact Hyx |].
      rewrite Forall_forall in Hall. now apply Hall.
Qed.

Lemma sorted_by_sorted (l : list string) :
  StronglySorted by_lower (sorted_by lower_string l).
Proof.
  induction l as [| x l IH]; simpl; [constructor | now apply insert_sorted_sorted].
Qed.

Lemma get_series (df : DataFrame) (c : string) (s : Series) :
  series df c = Returned s -> get df c = Some (ASeries s).
Proof.
  intros H. destruct (series_labelled df c s H) as [l Hl].
  unfold get. now rewrite Hl.
Qed.

Lemma prefix_lower (t : string) :
  forall s, prefix t s = true -> prefix (lower_string t) (lower_string s) = true.
Proof.
  induction t as [| c t IH]; intros [| d s] H; try reflexivity;
    try discriminate.
  simpl in H. destruct (ascii_dec c d) as [-> | Hne]; [| discriminate].
  simpl lower_string. rewrite prefix_cons. now apply IH.
Qed.

(** A substring is a substring up to case. *)
Lemma contains_ci_contains (t s : string) :
  contains t s = true -> ci_contains t s = true.
Proof.
  unfold ci_contains. induction s as [| d s IH]; simpl; intros H.
  - rewrite orb_false_r in *. now apply (prefix_lower t EmptyString).
  - apply orb_true_iff in H. destruct H as [H | H].
    + apply (prefix_lower t (String d s)) in H. simpl in H.
      now rewrite H.
    + rewrite (IH H). apply orb_true_r.
Qed.

Lemma mask_select_filter {A} (f : A -> bool) (l : list A) :
  mask_select (map f l) l = filter f l.
Proof.
  induction l as [| x l IH]; simpl; [reflexivity |].
  destruct (f x); now rewrite IH.
Qed.

Section HashtagsFacts.

Variable rf : float -> string.
Variable rt : Z -> string.
Variable io : list string -> list string.

(** A set is iterated over in some order of its elements. *)
Hypothesis io_permutes : forall l, Permutation (io l) l.

(** What [extract_hashtags] returns for a column of titles. *)
Lemma extract_hashtags_tags (titles : Series) :
  let tags := extract_hashtags rf rt io (Some (ASeries titles)) in
  NoDup tags /\
  StronglySorted by_lower tags /\
  (forall tag, In tag tags -> is_hashtag tag = true) /\
  (forall tag,
     In tag tags <->
     exists title, In title titles /\ isna title = false /\
                   In tag (findall_hashtags (astype_str rf rt title) 0)).
Proof.
  cbv zeta. unfold extract_hashtags, hashtag_texts.
  set (found := flat_map _ _).
  assert (Hperm : Permutation (sorted_by lower_string (io (nodup string_dec found)))
                    (nodup string_dec found)).
  { rewrite sorted_by_permutation. apply io_permutes. }
  assert (Hin : forall tag,
             In tag (sorted_by lower_string (io (nodup string_dec found))) <->
             exists title, In title titles /\ isna title = false /\
                           In tag (findall_hashtags (astype_str rf rt title) 0)).
  { intros tag. split.
    - intros H. apply (Permutation_in _ Hperm) in H.
      apply nodup_In in H. unfold found in H. apply in_flat_map in H.
      destruct H as [text [Htext Htag]]. apply in_map_iff in Htext.
      destruct Htext as [v [<- Hv]]. apply filter_In in Hv.
      destruct Hv as [Hv Hna]. exists v. split; [exact Hv |].
      split; [now apply negb_true_iff in Hna | exact Htag].
    - intros [v [Hv [Hna Htag]]].
      apply (Permutation_in _ (Permutation_sym Hperm)).
      apply nodup_In. unfold found. apply in_flat_map.
      exists (astype_str rf rt v). split; [| exact Htag].
      apply in_map. apply filter_In. split; [exact Hv |].
      now apply negb_true_iff. }
  split; [| split; [| split]].
  - apply (Permutation_NoDup (Permutation_sym Hperm)). apply NoDup_nodup.
  - apply sorted_by_sorted.
  - intros tag H. apply Hin in H. destruct H as [v [_ [_ H]]].
    exact (proj1 (findall_hashtags_in _ _ _ H)).
  - exact Hin.
Qed.

(** X9.  The tags [extract_hashtags] offers for a column of titles in
    ASCII: no tag twice, in the order of their lower-case forms, every one
    a [#] with word characters, and exactly the tags [re.findall] finds in
    the text of some title that is not missing. *)
Theorem extract_hashtags_distinct_sorted (titles : Series) :
  Forall (fun title => is_ascii (astype_str rf rt title) = true) titles ->
  let tags := extract_hashtags rf rt io (Some (ASeries titles)) in
  NoDup tags /\
  StronglySorted by_lower tags /\
  (forall tag, In tag tags -> is_hashtag tag = true) /\
  (forall tag,
     In tag tags <->
     exists title, In title titles /\ isna title = false /\
                   In tag (findall_hashtags (astype_str rf rt title) 0)).
Proof. intros _. exact (extract_hashtags_tags titles). Qed.

Lemma missing_title_has_no_tag (tag : string) (v : value) :
  is_hashtag tag = true -> isna v = true -> has_tag rf rt [tag] v = false.
Proof.
  intros Htag Hna. destruct tag as [| c w]; [discriminate |].
  unfold is_hashtag in Htag. apply andb_true_iff in Htag.
  destruct Htag as [Htag _]. apply andb_true_iff in Htag.
  destruct Htag as [Hc _]. apply Ascii.eqb_eq in Hc. subst c.
  unfold has_tag, ci_contains. simpl existsb. rewrite orb_false_r.
  destruct v as [| | b | [| s | q] | s | t]; try discriminate; reflexivity.
Qed.

(** X10.  A tag the multiselect offers, selected alone and without a date
    range, leaves at least one post; every post left has the tag in its
    title, up to case, and has a title.  Stated for titles in ASCII. *)
Theorem offered_tag_keeps_a_post (df_posts : DataFrame) (titles : Series)
    (tag : string) :
  series df_posts "Post Title" = Returned titles ->
  Forall (fun title => is_ascii (astype_str rf rt title) = true) titles ->
  In tag (all_tags rf rt io df_posts) ->
  exists out kept,
    filtered rf rt df_posts [] [tag] = Returned out /\
    series out "Post Title" = Returned kept /\
    kept <> [] /\
    Forall (fun title => has_tag rf rt [tag] title = true /\ isna title = false)
      kept.
Proof.
  intros Htitles Hascii Htag. unfold all_tags in Htag.
  rewrite (get_series _ _ _ Htitles) in Htag.
  assert (Htags :
    (forall t, In t (extract_hashtags rf rt io (Some (ASeries titles))) ->
               is_hashtag t = true) /\
    (forall t, In t (extract_hashtags rf rt io (Some (ASeries titles))) ->
               exists title, In title titles /\ isna title = false /\
                 In t (findall_hashtags (astype_str rf rt title) 0))).
  { destruct (extract_hashtags_tags titles) as [_ [_ [Hs Hi]]].
    split; [exact Hs | intros t Ht; now apply Hi]. }
  destruct Htags as [Hshape Hin].
  pose proof (Hshape tag Htag) as Hhash.
  apply Hin in Htag. destruct Htag as [v [Hv [Hna Hfound]]].
  apply findall_hashtags_in in Hfound. destruct Hfound as [_ Hsub].
  assert (Hhas : has_tag rf rt [tag] v = true).
  { unfold has_tag. simpl. now rewrite (contains_ci_contains _ _ Hsub). }
  exists (filter_rows df_posts (map (has_tag rf rt [tag]) titles)).
  exists (filter (has_tag rf rt [tag]) titles).
  split; [| split; [| split]].
  - rewrite (filtered_tags_only rf rt df_posts titles titles [] tag []);
      [| discriminate | exact Htitles | reflexivity].
    replace (map (date_ok []) titles) with (map (fun _ : value => true) titles)
      by now apply map_ext.
    rewrite mask_and_true_l; [reflexivity | now rewrite length_map].
  - rewrite (series_filter_rows _ _ _ _ Htitles). now rewrite mask_select_filter.
  - intros Hnil. assert (H : In v (filter (has_tag rf rt [tag]) titles))
      by (apply filter_In; now split).
    now rewrite Hnil in H.
  - apply Forall_forall. intros t Ht. apply filter_In in Ht.
    destruct Ht as [_ Ht]. split; [exact Ht |].
    destruct (isna t) eqn:Hnt; [| reflexivity].
    now rewrite (missing_title_has_no_tag tag t Hhash Hnt) in Ht.
Qed.

End HashtagsFacts.

Lemma extract_hashtags_distinct_sorted_witness :
  extract_hashtags sample_repr_float sample_repr_timestamp (fun l => rev l)
    (Some (ASeries [VStr "New #osig and #AI"; VFloat FNaN; VStr "More #AI, #Zeta"]))
  = ["#AI"; "#osig"; "#Zeta"] /\
  NoDup ["#AI"; "#osig"; "#Zeta"] /\
  StronglySorted by_lower ["#AI"; "#osig"; "#Zeta"].
Proof.
  split; [reflexivity |].
  assert (Hascii :
    Forall (fun title =>
              is_ascii (astype_str sample_repr_float sample_repr_timestamp title)
              = true)
      [VStr "New #osig and #AI"; VFloat FNaN; VStr "More #AI, #Zeta"])
    by (repeat constructor).
  destruct (extract_hashtags_distinct_sorted sample_repr_float
              sample_repr_timestamp (fun l => rev l)
              (fun l => Permutation_sym (Permutation_rev l))
              [VStr "New #osig and #AI"; VFloat FNaN; VStr "More #AI, #Zeta"]
              Hascii)
    as [Hnd [Hs _]].
  split; [exact Hnd | exact Hs].
Defined.

Lemma offered_tag_keeps_a_post_witness :
  exists out kept,
    filtered sample_repr_float sample_repr_timestamp
      [ ("Post Title", [VStr "New #osig and #AI"; VFloat FNaN; VStr "More #ai"]);
        ("Likes", [VFloat (FNum 1); VFloat (FNum 2); VFloat (FNum 3)]) ]
      [] ["#AI"] = Returned out /\
    series out "Post Title" = Returned kept /\
    kept <> [] /\
    Forall (fun title =>
              has_tag sample_repr_float sample_repr_timestamp ["#AI"] title = true /\
              isna title = false) kept.
Proof.
  apply (offered_tag_keeps_a_post sample_repr_float sample_repr_timestamp
           (fun l => rev l) (fun l => Permutation_sym (Permutation_rev l))
           _ [VStr "New #osig and #AI"; VFloat FNaN; VStr "More #ai"] "#AI").
  - reflexivity.
  - repeat constructor.
  - vm_compute. auto.
Defined.

(* ================================================================= *)
(** * The uploads *)

Lemma bind_ret_l {A B} (a : A) (k : A -> py B) : bind (ret a) k = k a.
Proof. unfold bind, ret. now destruct (k a). Qed.

Lemma bind_ext {A B} (c : py A) (k k' : A -> py B) :
  (forall a, k a = k' a) -> bind c k = bind c k'.
Proof. intros H. destruct c as [shown [a | e]]; simpl; now rewrite ?H. Qed.

Lemma bind_returned {A B} (c : py A) (k : A -> py B) shown (b : B) :
  bind c k = (shown, Returned b) ->
  exists before a after,
    c = (before, Returned a) /\ k a = (after, Returned b) /\
    shown = before ++ after.
Proof.
  destruct c as [before [a | e]]; simpl; [| discriminate].
  destruct (k a) as [after r] eqn:Hk. intros H. inversion H; subst.
  now exists before, a, after.
Qed.

Section UploadsFacts.

Variable pn : string -> option float.
Variable td : Series -> outcome Series.

Lemma load_file_other state (f : string * DataFrame) :
  role_of (fst f) = OtherFile -> load_file pn td state f = ret state.
Proof.
  unfold role_of, load_file.
  destruct (contains "all posts" _); [discriminate |].
  destruct (contains "metrics" _); [discriminate | reflexivity].
Qed.

Lemma load_files_other (before after : list (string * DataFrame))
    (f : string * DataFrame) :
  role_of (fst f) = OtherFile ->
  forall state,
    load_files pn td (before ++ f :: after) state =
    load_files pn td (before ++ after) state.
Proof.
  intros Hf. induction before as [| g before IH]; intros state; simpl.
  - now rewrite (load_file_other state f Hf), bind_ret_l.
  - apply bind_ext. intros state'. apply IH.
Qed.

(** X11.  An upload whose name holds neither "all posts" nor "metrics",
    whatever the case, changes nothing: no reader sees it, and the tables
    and messages are those of the other uploads. *)
Theorem load_uploads_ignores_other_files (before after : list (string * DataFrame))
    (f : string * DataFrame) :
  role_of (fst f) = OtherFile ->
  load_uploads pn td (before ++ f :: after) = load_uploads pn td (before ++ after).
Proof. intros Hf. unfold load_uploads. now apply load_files_other. Qed.

Lemma load_files_app (before rest : list (string * DataFrame)) :
  forall state shown final,
    load_files pn td (before ++ rest) state = (shown, Returned final) ->
    exists shown1 middle shown2,
      load_files pn td before state = (shown1, Returned middle) /\
      load_files pn td rest middle = (shown2, Returned final) /\
      shown = shown1 ++ shown2.
Proof.
  induction before as [| g before IH]; intros state shown final H; simpl in *.
  - now exists [], state, shown.
  - apply bind_returned in H. destruct H as [s0 [state' [s1 [Hg [Hrest ->]]]]].
    apply IH in Hrest. destruct Hrest as [s2 [middle [s3 [Hb [Hr ->]]]]].
    exists (s0 ++ s2), middle, s3. rewrite Hg. simpl. rewrite Hb.
    split; [reflexivity |]. split; [exact Hr | apply app_assoc].
Qed.

Lemma load_file_keeps state (f : string * DataFrame) shown final :
  load_file pn td state f = (shown, Returned final) ->
  (role_of (fst f) <> PostsFile -> fst final = fst state) /\
  (role_of (fst f) <> MetricsFile -> snd final = snd state).
Proof.
  unfold role_of, load_file.
  destruct (contains "all posts" _).
  - intros H. apply bind_returned in H.
    destruct H as [s0 [df [s1 [_ [Hret _]]]]]. inversion Hret; subst.
    split; [congruence | reflexivity].
  - destruct (contains "metrics" _).
    + intros H. apply bind_returned in H.
      destruct H as [s0 [df [s1 [_ [Hret _]]]]]. inversion Hret; subst.
      split; [reflexivity | congruence].
    + intros H. inversion H; subst. now split.
Qed.

Lemma load_files_keep (r : role) (rest : list (string * DataFrame)) :
  Forall (fun g => role_of (fst g) <> r) rest ->
  forall state shown final,
    load_files pn td rest state = (shown, Returned final) ->
    match r with
    | PostsFile => fst final = fst state
    | MetricsFile => snd final = snd state
    | OtherFile => True
    end.
Proof.
  induction 1 as [| g rest Hg Hrest IH]; intros state shown final H; simpl in H.
  - inversion H; subst. now destruct r.
  - apply bind_returned in H. destruct H as [s0 [state' [s1 [Hf [Hl _]]]]].
    apply IH in Hl. apply load_file_keeps in Hf. destruct Hf as [Hp Hm].
    destruct r; [| | exact I].
    + rewrite Hl. now apply Hp.
    + rewrite Hl. now apply Hm.
Qed.

(** X12.  When several uploads are posts files, or metrics files, the
    last one is the table the script goes on with: after a run of the
    loop that raised nothing, [df_posts] is what [read_posts_csv] returned
    for the last upload named as a posts file, and [df_metrics] what
    [read_metrics_csv] returned for the last one named as a metrics file
    and not as a posts file. *)
Theorem load_uploads_last_file_wins (before after : list (string * DataFrame))
    (f : string * DataFrame) shown (df_posts df_metrics : option DataFrame) :
  load_uploads pn td (before ++ f :: after) =
    (shown, Returned (df_posts, df_metrics)) ->
  Forall (fun g => role_of (fst g) <> role_of (fst f)) after ->
  match role_of (fst f) with
  | PostsFile =>
      exists messages df,
        read_posts_csv pn td (snd f) = (messages, Returned df) /\
        df_posts = Some df
  | MetricsFile =>
      exists messages df,
        read_metrics_csv pn td (snd f) = (messages, Returned df) /\
        df_metrics = Some df
  | OtherFile => True
  end.
Proof.
  intros Hrun Hafter. unfold load_uploads in Hrun.
  apply load_files_app in Hrun.
  destruct Hrun as [s1 [middle [s2 [_ [Hrest _]]]]].
  simpl in Hrest. apply bind_returned in Hrest.
  destruct Hrest as [s3 [state' [s4 [Hf [Hl _]]]]].
  pose proof (load_files_keep _ _ Hafter _ _ _ Hl) as Hkeep.
  unfold load_file in Hf. unfold role_of in *.
  destruct (contains "all posts" _).
  - apply bind_returned in Hf. destruct Hf as [m [df [s5 [Hread [Hret _]]]]].
    inversion Hret; subst. exists m, df. split; [exact Hread |].
    simpl in Hkeep. now subst.
  - destruct (contains "metrics" _); [| exact I].
    apply bind_returned in Hf. destruct Hf as [m [df [s5 [Hread [Hret _]]]]].
    inversion Hret; subst. exists m, df. split; [exact Hread |].
    simpl in Hkeep. now subst.
Qed.

End UploadsFacts.

Lemma load_uploads_ignores_other_files_witness :
  load_uploads sample_parse_number sample_to_datetime
    ([("All Posts.csv", [("Post title", [VStr "Launch Post"])])]
     ++ ("notes.csv", [("Likes", [VStr "12"])]) :: []) =
  load_uploads sample_parse_number sample_to_datetime
    ([("All Posts.csv", [("Post title", [VStr "Launch Post"])])] ++ []).
Proof.
  apply (load_uploads_ignores_other_files sample_parse_number sample_to_datetime
           [("All Posts.csv", [("Post title", [VStr "Launch Post"])])] []
           ("notes.csv", [("Likes", [VStr "12"])])).
  reflexivity.
Defined.

Lemma load_uploads_last_file_wins_witness :
  exists messages df,
    read_posts_csv sample_parse_number sample_to_datetime
      [("Post title", [VStr "Second"])] = (messages, Returned df) /\
    Some [ ("Post Title", [VStr "Second"]); ("Created Date", [VNone]) ] = Some df.
Proof.
  apply (load_uploads_last_file_wins sample_parse_number sample_to_datetime
           [("all posts (1).csv", [("Post title", [VStr "First"])])]
           [("Metrics.csv", [("Date", [VTime 3]); ("Clicks (total)", [VStr "7"])])]
           ("ALL POSTS (2).csv", [("Post title", [VStr "Second"])])
           []
           (Some [ ("Post Title", [VStr "Second"]); ("Created Date", [VNone]) ])
           (Some [ ("Date", [VTime 3]); ("Clicks (total)", [VFloat (FNum 7)]) ])).
  - reflexivity.
  - repeat constructor. discriminate.
Defined.

(* ================================================================= *)
(** * The default date range *)

Lemma fold_min_spec (l : list Z) :
  forall a,
    (fold_left Z.min l a <= a)%Z /\
    (forall x, In x l -> (fold_left Z.min l a <= x)%Z) /\
    (fold_left Z.min l a = a \/ In (fold_left Z.min l a) l).
Proof.
  induction l as [| y l IH]; intros a; simpl.
  - split; [lia |]. split; [contradiction | now left].
  - destruct (IH (Z.min a y)) as [H1 [H2 H3]]. split; [lia |]. split.
    + intros x [<- | Hx]; [lia | now apply H2].
    + destruct H3 as [H3 | H3]; [| right; now right].
      rewrite H3. destruct (Z.min_spec a y) as [[_ ->] | [_ ->]];
        [now left | right; now left].
Qed.

Lemma fold_max_spec (l : list Z) :
  forall a,
    (a <= fold_left Z.max l a)%Z /\
    (forall x, In x l -> (x <= fold_left Z.max l a)%Z) /\
    (fold_left Z.max l a = a \/ In (fold_left Z.max l a) l).
Proof.
  induction l as [| y l IH]; intros a; simpl.
  - split; [lia |]. split; [contradiction | now left].
  - destruct (IH (Z.max a y)) as [H1 [H2 H3]]. split; [lia |]. split.
    + intros x [<- | Hx]; [lia | now apply H2].
    + destruct H3 as [H3 | H3]; [| right; now right].
      rewrite H3. destruct (Z.max_spec a y) as [[_ ->] | [_ ->]];
        [right; now left | now left].
Qed.

Lemma traverse_time_of (dates : Series) :
  Forall date_cell dates ->
  exists cells,
    traverse time_of dates = Returned cells /\
    forall t, In t (present cells) <-> In (VTime t) dates.
Proof.
  induction 1 as [| v dates Hv Hall [cells [Hc Hin]]].
  - exists []. split; [reflexivity |]. intros t. simpl. tauto.
  - destruct v as [| | b | x | s | t0]; try contradiction; simpl; rewrite Hc.
    + exists (None :: cells). split; [reflexivity |]. intros t. simpl.
      rewrite Hin. split; [tauto | intros [H | H]; [discriminate | exact H]].
    + exists (None :: cells). split; [reflexivity |]. intros t. simpl.
      rewrite Hin. split; [tauto | intros [H | H]; [discriminate | exact H]].
    + exists (Some t0 :: cells). split; [reflexivity |]. intros t. simpl.
      rewrite Hin. split; intros [H | H]; try (right; exact H); left; congruence.
Qed.

(** X13.  The default of the date picker.  On a loaded posts table
    [min_date] and [max_date] are dates of posts, and every dated post lies
    between them; when no post has a date they are 1 January 2000 and
    today. *)
Theorem date_bounds_cover_every_post (jan_1_2000 today : Z) (df_posts : DataFrame)
    (dates : Series) :
  series df_posts "Created Date" = Returned dates ->
  Forall date_cell dates ->
  exists min_date max_date,
    date_bounds jan_1_2000 today df_posts = Returned (min_date, max_date) /\
    ((forall t, ~ In (VTime t) dates) ->
     min_date = jan_1_2000 /\ max_date = today) /\
    (forall t, In (VTime t) dates ->
       (min_date <= t <= max_date)%Z /\
       In (VTime min_date) dates /\ In (VTime max_date) dates).
Proof.
  intros Hseries Hcells. unfold date_bounds. rewrite Hseries. cbn [obind].
  destruct (traverse_time_of dates Hcells) as [cells [-> Hin]]. cbn [obind].
  destruct (present cells) as [| t0 ts] eqn:Hp.
  - exists jan_1_2000, today. split; [reflexivity |]. split; [now intros _ |].
    intros t Ht. apply Hin in Ht. contradiction.
  - simpl. eexists _, _. split; [reflexivity |].
    destruct (fold_min_spec ts t0) as [Hm1 [Hm2 Hm3]].
    destruct (fold_max_spec ts t0) as [HM1 [HM2 HM3]].
    split.
    + intros Hnone. exfalso. apply (Hnone t0). apply Hin. now left.
    + intros t Ht. apply Hin in Ht. split; [| split].
      * destruct Ht as [<- | Ht]; [lia |].
        pose proof (Hm2 t Ht). pose proof (HM2 t Ht). lia.
      * apply Hin. destruct Hm3 as [-> | Hm3]; [now left | now right].
      * apply Hin. destruct HM3 as [-> | HM3]; [now left | now right].
Qed.

Lemma date_bounds_cover_every_post_witness :
  exists min_date max_date,
    date_bounds 10 99
      [ ("Post Title", [VStr "a"; VStr "b"; VStr "c"]);
        ("Created Date", [VTime 40; VNaT; VTime 25]) ] =
    Returned (min_date, max_date) /\
    (min_date <= 40 <= max_date)%Z /\
    In (VTime min_date) [VTime 40; VNaT; VTime 25] /\
    In (VTime max_date) [VTime 40; VNaT; VTime 25].
Proof.
  destruct (date_bounds_cover_every_post 10 99
              [ ("Post Title", [VStr "a"; VStr "b"; VStr "c"]);
                ("Created Date", [VTime 40; VNaT; VTime 25]) ]
              [VTime 40; VNaT; VTime 25])
    as [lo [hi [Hb [_ Hin]]]].
  - reflexivity.
  - repeat constructor.
  - exists lo, hi. split; [exact Hb |]. apply Hin. now left.
Defined.

(* ================================================================= *)
(** * The metrics on offer *)

Lemma mem_In (c : string) (l : list string) : mem c l = true <-> In c l.
Proof.
  unfold mem. rewrite existsb_exists. split.
  - intros [x [Hx He]]. apply String.eqb_eq in He. now subst.
  - intros H. exists c. split; [exact H | apply String.eqb_refl].
Qed.

Lemma preferred_metrics_distinct : NoDup PREFERRED_METRICS.
Proof. repeat constructor; simpl; intuition discriminate. Qed.

Lemma ordered_metrics_In (cols : list string) (c : string) :
  In c (ordered_metrics cols) <-> In c cols.
Proof.
  unfold ordered_metrics. rewrite in_app_iff, !filter_In, negb_true_iff.
  rewrite mem_In. destruct (mem c PREFERRED_METRICS) eqn:Hm.
  - apply mem_In in Hm. split; [intros [[_ H] | [_ H]]; [exact H | discriminate] |].
    intros H. left. now split.
  - split; [intros [[H _] | [H _]]; [| exact H] |].
    + apply mem_In in H. congruence.
    + intros H. right. now split.
Qed.

Lemma ordered_metrics_distinct (cols : list string) :
  NoDup cols -> NoDup (ordered_metrics cols).
Proof.
  intros Hnd. unfold ordered_metrics. apply NoDup_app.
  - apply NoDup_filter. exact preferred_metrics_distinct.
  - now apply NoDup_filter.
  - intros c H1 H2. apply filter_In in H1. apply filter_In in H2.
    destruct H1 as [H1 _]. destruct H2 as [_ H2].
    apply negb_true_iff in H2. apply mem_In in H1. congruence.
Qed.

(** X14.  The metrics the trend chart offers are the numeric columns of
    the metrics table other than the date, each once, whatever the
    preferred order puts first; the default selection is the first three
    of them. *)
Theorem ordered_metrics_offers_numeric_columns (df_metrics : DataFrame) :
  NoDup (labels df_metrics) ->
  let offered := ordered_metrics (metric_cols df_metrics) in
  NoDup offered /\
  Permutation offered (metric_cols df_metrics) /\
  (forall c, In c offered <->
             c <> "Date" /\
             exists s, In (c, s) df_metrics /\ is_numeric_dtype s = true) /\
  default_metrics (metric_cols df_metrics) = firstn 3 offered.
Proof.
  intros Hnd offered.
  assert (Hcols : NoDup (metric_cols df_metrics))
    by (unfold metric_cols; now apply NoDup_filter).
  assert (Hoff : NoDup offered) by now apply ordered_metrics_distinct.
  split; [exact Hoff |]. split; [| split; [| reflexivity]].
  - apply NoDup_Permutation; [exact Hoff | exact Hcols |].
    intros c. apply ordered_metrics_In.
  - intros c. unfold offered. rewrite ordered_metrics_In.
    unfold metric_cols. rewrite filter_In, andb_true_iff, negb_true_iff.
    rewrite String.eqb_neq. unfold numeric_column. split.
    + intros [Hin [Hne Hnum]]. split; [exact Hne |].
      destruct (In_labels _ _ Hin) as [s Hs].
      unfold get in Hnum. rewrite (labelled_unique _ _ _ Hnd Hs) in Hnum.
      now exists s.
    + intros [Hne [s [Hs Hnum]]]. split; [now apply (in_map fst) in Hs |].
      split; [exact Hne |].
      unfold get. now rewrite (labelled_unique _ _ _ Hnd Hs).
Qed.

Lemma ordered_metrics_offers_numeric_columns_witness :
  ordered_metrics
    (metric_cols
       [ ("Date", [VTime 1; VTime 2]);
         ("Page views", [VFloat (FNum 5); VFloat FNaN]);
         ("Clicks (total)", [VFloat (FNum 7); VFloat (FNum 9)]);
         ("Note", [VStr "x"; VStr "y"]) ]) = ["Clicks (total)"; "Page views"] /\
  NoDup
    (ordered_metrics
       (metric_cols
          [ ("Date", [VTime 1; VTime 2]);
            ("Page views", [VFloat (FNum 5); VFloat FNaN]);
            ("Clicks (total)", [VFloat (FNum 7); VFloat (FNum 9)]);
            ("Note", [VStr "x"; VStr "y"]) ])).
Proof.
  split; [reflexivity |].
  apply (ordered_metrics_offers_numeric_columns
           [ ("Date", [VTime 1; VTime 2]);
             ("Page views", [VFloat (FNum 5); VFloat FNaN]);
             ("Clicks (total)", [VFloat (FNum 7); VFloat (FNum 9)]);
             ("Note", [VStr "x"; VStr "y"]) ]).
  repeat constructor; simpl; intuition discriminate.
Defined.

(* ================================================================= *)
(** * The table of the scatter chart *)

Lemma hits_none (k : value) (ks : Series) :
  forall r, (forall t, In t ks -> key_eqb k t = false) -> hits k ks r = [].
Proof.
  unfold hits. induction ks as [| a ks IH]; intros [| x r] H; try reflexivity.
  simpl. rewrite (H a (or_introl eq_refl)). apply IH.
  intros t Ht. apply H. now right.
Qed.

Lemma hits_at_most_one (k : value) (ks : Series) :
  text_cell k -> Forall text_cell ks -> NoDup ks ->
  forall r, hits k ks r = [] \/ exists x, hits k ks r = [x].
Proof.
  intros Hk Hall Hnd. induction ks as [| a ks IH]; intros r; [now left |].
  inversion Hall as [| ? ? Ha Hall']; subst.
  inversion Hnd as [| ? ? Hnotin Hnd']; subst.
  destruct r as [| x r]; [now left |].
  unfold hits. simpl. fold (hits k ks r).
  destruct (key_eqb k a) eqn:Hka; [| now apply IH].
  right. exists x. simpl. f_equal.
  apply key_eqb_text in Hka; [| exact Hk | exact Ha]. subst a.
  apply hits_none. intros t Ht.
  destruct (key_eqb k t) eqn:Hkt; [| reflexivity].
  rewrite Forall_forall in Hall'.
  apply key_eqb_text in Hkt; [| exact Hk | now apply Hall'].
  subst t. contradiction.
Qed.

Lemma scatter_table_spread (filtered edited : DataFrame)
    (titles etitles eflags : Series) :
  series filtered "Post Title" = Returned titles ->
  has_column filtered "Boosted" = false ->
  series edited "Post Title" = Returned etitles ->
  series edited "Boosted" = Returned eflags ->
  mergeable titles etitles = true ->
  scatter_table filtered edited =
  Returned
    (map (fun col => (fst col, spread_left titles etitles (snd col))) filtered
     ++ [("Boosted", fillna (VBool false) (spread_right titles etitles eflags))]).
Proof.
  intros Ht Hb Hk Hf Hm. unfold scatter_table. simpl select_columns.
  rewrite (labelled_series _ _ _ Hk), (labelled_series _ _ _ Hf).
  simpl app. cbn [obind]. unfold merge_left. rewrite Ht. cbn [obind].
  change (series [("Post Title", etitles); ("Boosted", eflags)] "Post Title")
    with (Returned etitles).
  cbn [obind]. rewrite Hm. cbn [negb]. simpl filter.
  match goal with
  | |- context [map ?f [("Boosted", eflags)]] =>
      replace (map f [("Boosted", eflags)])
        with [("Boosted", spread_right titles etitles eflags)]
        by (simpl; now rewrite Hb)
  end.
  cbn [obind].
  assert (Hleft :
    map (fun col : string * Series =>
           (if has_column filtered (fst col)
               && has_column [("Post Title", etitles); ("Boosted", eflags)] (fst col)
               && negb (fst col =? "Post Title")
            then (fst col ++ "_x")%string else fst col,
            spread_left titles etitles (snd col))) filtered =
    map (fun col => (fst col, spread_left titles etitles (snd col))) filtered).
  { apply map_ext_in. intros [c s] Hin. simpl fst. simpl snd.
    unfold has_column at 2. simpl existsb.
    destruct (String.eqb_spec c "Post Title") as [-> | Hne].
    - simpl. now rewrite andb_false_r.
    - destruct (String.eqb_spec c "Boosted") as [-> | Hnb].
      + apply has_column_false in Hb. exfalso. apply Hb.
        now apply (in_map fst) in Hin.
      + simpl. now rewrite andb_false_r. }
  rewrite Hleft. clear Hleft.
  set (left_part := map _ filtered).
  assert (Hlabels : ~ In "Boosted" (labels left_part)).
  { unfold left_part, labels. rewrite map_map. simpl.
    now apply has_column_false. }
  assert (Hboosted :
    series (left_part ++ [("Boosted", spread_right titles etitles eflags)]) "Boosted"
    = Returned (spread_right titles etitles eflags)).
  { unfold series, getitem, get, labelled. rewrite filter_app.
    fold (labelled "Boosted" left_part). now rewrite labelled_absent. }
  rewrite Hboosted. cbn [obind]. f_equal. unfold setitem.
  assert (Hhas : has_column (left_part ++ [("Boosted", spread_right titles etitles eflags)])
                   "Boosted" = true).
  { apply has_column_In. unfold labels. rewrite map_app. apply in_or_app.
    right. now left. }
  rewrite Hhas, map_app. simpl. f_equal.
  rewrite <- (map_id left_part) at 2. apply map_ext_in.
  intros [c s] Hin. simpl. destruct (String.eqb_spec c "Boosted") as [-> | Hne];
    [| reflexivity].
  exfalso. apply Hlabels. now apply (in_map fst) in Hin.
Qed.

Lemma spread_left_rows (titles ek : Series) :
  forall s : Series,
    List.length s = List.length titles ->
    List.length (spread_left titles ek s) = joined_rows titles ek.
Proof.
  unfold joined_rows.
  induction titles as [| k titles IH]; intros [| x s] H; try discriminate;
    [reflexivity |].
  rewrite spread_left_cons, length_app, repeat_length. simpl.
  f_equal. apply IH. now inversion H.
Qed.

Lemma spread_left_single (titles ek : Series) :
  (forall k, In k titles -> hits k ek ek = [] \/ exists x, hits k ek ek = [x]) ->
  forall s : Series,
    List.length s = List.length titles -> spread_left titles ek s = s.
Proof.
  induction titles as [| k titles IH]; intros Hone [| x s] H; try discriminate;
    [reflexivity |].
  rewrite spread_left_cons, IH;
    [| intros k' Hk'; apply Hone; now right | now inversion H].
  destruct (Hone k (or_introl eq_refl)) as [-> | [y ->]]; reflexivity.
Qed.

Lemma spread_right_single (titles ek ef : Series) :
  (forall k, In k titles -> hits k ek ef = [] \/ exists x, hits k ek ef = [x]) ->
  fillna (VBool false) (spread_right titles ek ef) =
  map (flag_of_title ek ef) titles.
Proof.
  induction titles as [| k titles IH]; intros Hone; [reflexivity |].
  rewrite spread_right_cons. unfold fillna in *. rewrite map_app, IH;
    [| intros k' Hk'; apply Hone; now right].
  simpl. unfold flag_of_title at 2.
  destruct (Hone k (or_introl eq_refl)) as [-> | [y ->]]; reflexivity.
Qed.

Lemma fillna_not_missing (fill : value) (s : Series) :
  isna fill = false -> Forall (fun v => isna v = false) (fillna fill s).
Proof.
  intros Hf. apply Forall_forall. intros v Hv. apply in_map_iff in Hv.
  destruct Hv as [x [<- _]]. now destruct (isna x) eqn:Hx.
Qed.

(** X15.  The scatter chart's table when no two rows of the edited table
    share a title: the filtered table, row for row, with one more column
    that holds for every post the flag the editor shows for its title, and
    [False] for a title the editor does not show or shows without a
    flag. *)
Theorem scatter_table_adds_the_flags (filtered edited : DataFrame)
    (titles etitles eflags : Series) :
  series filtered "Post Title" = Returned titles ->
  has_column filtered "Boosted" = false ->
  Forall (fun col => List.length (snd col) = List.length titles) filtered ->
  series edited "Post Title" = Returned etitles ->
  series edited "Boosted" = Returned eflags ->
  text_column titles -> text_column etitles ->
  NoDup etitles ->
  scatter_table filtered edited =
    Returned (filtered ++ [("Boosted", map (flag_of_title etitles eflags) titles)]) /\
  Forall (fun v => isna v = false) (map (flag_of_title etitles eflags) titles).
Proof.
  intros Ht Hb Hrect Hk Hf Hcolumn Hecolumn Hnd.
  pose proof (text_columns_mergeable _ _ Hcolumn Hecolumn) as Hm.
  destruct Hcolumn as [Htext _]. destruct Hecolumn as [Hetext _].
  assert (Hone : forall r k, In k titles ->
                   hits k etitles r = [] \/ exists x, hits k etitles r = [x]).
  { intros r k Hin. rewrite Forall_forall in Htext.
    now apply hits_at_most_one; [apply Htext | |]. }
  rewrite <- (spread_right_single titles etitles eflags (Hone eflags)).
  split; [| now apply fillna_not_missing].
  rewrite (scatter_table_spread _ _ _ _ _ Ht Hb Hk Hf Hm). do 2 f_equal.
  rewrite <- (map_id filtered) at 2. apply map_ext_in.
  intros [c s] Hin. simpl. f_equal.
  apply (spread_left_single titles etitles (Hone etitles)).
  rewrite Forall_forall in Hrect. exact (Hrect _ Hin).
Qed.

(** X16.  The scatter chart's table in general: the columns of the
    filtered table and a flag column without a missing cell, with one row
    per pair of a post and a row of the edited table of the same title, and
    one row for a post whose title the edited table does not have.  A post
    whose title stands in two rows of the edited table is there twice. *)
Theorem scatter_table_rows (filtered edited : DataFrame)
    (titles etitles eflags : Series) :
  series filtered "Post Title" = Returned titles ->
  has_column filtered "Boosted" = false ->
  Forall (fun col => List.length (snd col) = List.length titles) filtered ->
  series edited "Post Title" = Returned etitles ->
  series edited "Boosted" = Returned eflags ->
  List.length etitles = List.length eflags ->
  text_column titles -> text_column etitles ->
  exists out boosted,
    scatter_table filtered edited = Returned out /\
    labels out = labels filtered ++ ["Boosted"] /\
    Forall (fun col => List.length (snd col) = joined_rows titles etitles) out /\
    (List.length titles <= joined_rows titles etitles)%nat /\
    series out "Boosted" = Returned boosted /\
    Forall (fun v => isna v = false) boosted.
Proof.
  intros Ht Hb Hrect Hk Hf Hlen Hcolumn Hecolumn.
  rewrite (scatter_table_spread _ _ _ _ _ Ht Hb Hk Hf
             (text_columns_mergeable _ _ Hcolumn Hecolumn)).
  set (left_part := map _ filtered).
  assert (Hlabels : labels left_part = labels filtered).
  { unfold left_part, labels. now rewrite map_map. }
  exists (left_part ++
          [("Boosted", fillna (VBool false) (spread_right titles etitles eflags))]),
         (fillna (VBool false) (spread_right titles etitles eflags)).
  split; [reflexivity |]. split; [| split; [| split; [| split]]].
  - unfold labels in *. now rewrite map_app, Hlabels.
  - apply Forall_app. split.
    + apply Forall_forall. intros col Hcol. unfold left_part in Hcol.
      apply in_map_iff in Hcol. destruct Hcol as [[c s] [<- Hin]]. simpl.
      apply spread_left_rows. rewrite Forall_forall in Hrect.
      exact (Hrect _ Hin).
    + constructor; [| constructor]. simpl. unfold fillna.
      rewrite length_map, (spread_right_length _ _ Hlen).
      now apply spread_left_rows.
  - unfold joined_rows, list_sum. clear.
    induction titles as [| k l IH]; cbn [List.length map fold_right]; lia.
  - unfold series, getitem, get, labelled. rewrite filter_app.
    fold (labelled "Boosted" left_part). rewrite labelled_absent; [reflexivity |].
    rewrite Hlabels. now apply has_column_false.
  - now apply fillna_not_missing.
Qed.

Lemma scatter_table_adds_the_flags_witness :
  scatter_table
    [ ("Post Title", [VStr "Launch"; VStr "Hiring"; VStr "Update"]);
      ("Likes", [VFloat (FNum 3); VFloat (FNum 5); VFloat (FNum 8)]) ]
    [ ("Created Date", [VTime 1; VTime 2]);
      ("Post Title", [VStr "Hiring"; VStr "Launch"]);
      ("Boosted", [VBool true; VFloat FNaN]) ] =
  Returned
    ([ ("Post Title", [VStr "Launch"; VStr "Hiring"; VStr "Update"]);
       ("Likes", [VFloat (FNum 3); VFloat (FNum 5); VFloat (FNum 8)]) ]
     ++ [("Boosted",
          map (flag_of_title [VStr "Hiring"; VStr "Launch"] [VBool true; VFloat FNaN])
            [VStr "Launch"; VStr "Hiring"; VStr "Update"])]) /\
  Forall (fun v => isna v = false)
    (map (flag_of_title [VStr "Hiring"; VStr "Launch"] [VBool true; VFloat FNaN])
       [VStr "Launch"; VStr "Hiring"; VStr "Update"]).
Proof.
  apply (scatter_table_adds_the_flags
           [ ("Post Title", [VStr "Launch"; VStr "Hiring"; VStr "Update"]);
             ("Likes", [VFloat (FNum 3); VFloat (FNum 5); VFloat (FNum 8)]) ]
           [ ("Created Date", [VTime 1; VTime 2]);
             ("Post Title", [VStr "Hiring"; VStr "Launch"]);
             ("Boosted", [VBool true; VFloat FNaN]) ]).
  - reflexivity.
  - reflexivity.
  - repeat constructor.
  - reflexivity.
  - reflexivity.
  - split; [text_cells | right; exists "Launch"; now left].
  - split; [text_cells | right; exists "Hiring"; now left].
  - repeat constructor; simpl; intuition discriminate.
Defined.

Lemma scatter_table_rows_witness :
  exists out boosted,
    scatter_table
      [ ("Post Title", [VStr "Launch"; VStr "Launch"; VStr "Update"]);
        ("Likes", [VFloat (FNum 3); VFloat (FNum 5); VFloat (FNum 8)]) ]
      [ ("Post Title", [VStr "Launch"; VStr "Launch"; VStr "Update"]);
        ("Boosted", [VBool true; VBool false; VBool false]) ] = Returned out /\
    labels out = ["Post Title"; "Likes"] ++ ["Boosted"] /\
    Forall (fun col => List.length (snd col) = 5%nat) out /\
    (3 <= 5)%nat /\
    series out "Boosted" = Returned boosted /\
    Forall (fun v => isna v = false) boosted.
Proof.
  apply (scatter_table_rows
           [ ("Post Title", [VStr "Launch"; VStr "Launch"; VStr "Update"]);
             ("Likes", [VFloat (FNum 3); VFloat (FNum 5); VFloat (FNum 8)]) ]
           [ ("Post Title", [VStr "Launch"; VStr "Launch"; VStr "Update"]);
             ("Boosted", [VBool true; VBool false; VBool false]) ]
           [VStr "Launch"; VStr "Launch"; VStr "Update"]
           [VStr "Launch"; VStr "Launch"; VStr "Update"]
           [VBool true; VBool false; VBool false]).
  - reflexivity.
  - reflexivity.
  - repeat constructor.
  - reflexivity.
  - reflexivity.
  - reflexivity.
  - split; [text_cells | right; exists "Launch"; now left].
  - split; [text_cells | right; exists "Launch"; now left].
Defined.

(* ================================================================= *)
(** * The long table of the trend chart *)

Lemma mask_select_true {A} (dates : Series) (s : list A) :
  List.length s = List.length dates ->
  mask_select (map (fun _ => true) dates) s = s.
Proof.
  revert s. induction dates as [| d dates IH]; intros [| x s] H;
    try discriminate; [reflexivity |].
  simpl. f_equal. apply IH. now inversion H.
Qed.

Lemma mask_select_length {A B} (mask : list bool) :
  forall (s : list A) (t : list B),
    List.length s = List.length t ->
    List.length (mask_select mask s) = List.length (mask_select mask t).
Proof.
  induction mask as [| m mask IH]; intros [| x s] [| y t] H;
    try discriminate; try reflexivity.
  simpl. destruct m; simpl; [f_equal |]; apply IH; now inversion H.
Qed.

Lemma select_columns_cols (df cols : DataFrame) :
  NoDup (labels df) ->
  Forall (fun col => In col df) cols ->
  select_columns df (labels cols) = Returned cols.
Proof.
  intros Hnd. induction 1 as [| [c s] cols Hin Hall IH]; [reflexivity |].
  simpl. rewrite (labelled_unique _ _ _ Hnd Hin), IH. reflexivity.
Qed.

(** The date filter of the trend chart, column by column. *)
Lemma dfm_columns (df_metrics : DataFrame) (dates : Series) (date_range : list Z) :
  NoDup (labels df_metrics) ->
  In ("Date", dates) df_metrics ->
  Forall date_cell dates ->
  exists out,
    dfm df_metrics date_range = Returned out /\
    NoDup (labels out) /\
    forall c s, In (c, s) df_metrics -> List.length s = List.length dates ->
                In (c, mask_select (map (date_ok date_range) dates) s) out.
Proof.
  intros Hnd Hdate Hcells.
  assert (Hsame : forall c s,
            In (c, s) df_metrics -> List.length s = List.length dates ->
            In (c, mask_select (map (fun _ : value => true) dates) s) df_metrics).
  { intros c s Hin Hlen. now rewrite mask_select_true. }
  destruct date_range as [| start [| end_ [| more rest]]];
    try (exists df_metrics; split; [reflexivity | split; [exact Hnd | exact Hsame]]).
  exists (filter_rows df_metrics (map (within start end_) dates)).
  split; [| split].
  - unfold dfm. rewrite (series_unique _ _ _ Hnd Hdate). cbn [obind].
    rewrite (traverse_ge_timestamp start dates Hcells). cbn [obind].
    rewrite (traverse_le_timestamp end_ dates Hcells). cbn [obind].
    now rewrite date_mask.
  - now rewrite labels_filter_rows.
  - intros c s Hin _. unfold filter_rows.
    apply (in_map (fun col => (fst col, mask_select _ (snd col))) _ _ Hin).
Qed.

Lemma block_rows (date_range : list Z) (c : string) :
  forall dates s : Series,
    List.length s = List.length dates ->
    filter (fun row : value * value * value =>
              negb (isna (fst (fst row))) && negb (isna (snd (fst row)))
              && negb (isna (snd row)))
      (map (fun dv => (fst dv, VStr c, snd dv))
         (combine (mask_select (map (date_ok date_range) dates) dates)
            (mask_select (map (date_ok date_range) dates) s))) =
    metric_rows date_range dates (c, s).
Proof.
  unfold metric_rows. simpl snd. simpl fst.
  induction dates as [| d dates IH]; intros [| x s] H; try discriminate;
    [reflexivity |].
  simpl. destruct (date_ok date_range d); simpl.
  - rewrite andb_true_r.
    destruct (negb (isna d) && negb (isna x)); simpl; [f_equal |];
      apply IH; now inversion H.
  - apply IH. now inversion H.
Qed.

Lemma complete_rows_long (a b c : string) (rows : list (value * value * value)) :
  complete_rows
    [ (a, map (fun row => fst (fst row)) rows);
      (b, map (fun row => snd (fst row)) rows);
      (c, map snd rows) ] =
  map (fun row => negb (isna (fst (fst row))) && negb (isna (snd (fst row)))
                  && negb (isna (snd row))) rows.
Proof.
  unfold complete_rows, mask_and. simpl.
  induction rows as [| [[d m] v] rows IH]; simpl; [reflexivity |].
  now rewrite IH.
Qed.

Lemma mask_select_map_filter {A B} (f : A -> bool) (g : A -> B) (l : list A) :
  mask_select (map f l) (map g l) = map g (filter f l).
Proof. now rewrite mask_select_map, mask_select_filter. Qed.

Lemma combine_rows (rows : list (value * value * value)) :
  combine (combine (map (fun row => fst (fst row)) rows)
             (map (fun row => snd (fst row)) rows)) (map snd rows) = rows.
Proof.
  induction rows as [| [[d m] v] rows IH]; simpl; [reflexivity | now rewrite IH].
Qed.

Lemma filter_flat_map {A B} (p : B -> bool) (f : A -> list B) (l : list A) :
  filter p (flat_map f l) = flat_map (fun x => filter p (f x)) l.
Proof.
  induction l as [| x l IH]; simpl; [reflexivity |].
  now rewrite filter_app, IH.
Qed.

Lemma flat_map_in_ext {A B} (f g : A -> list B) (l : list A) :
  (forall x, In x l -> f x = g x) -> flat_map f l = flat_map g l.
Proof.
  induction l as [| x l IH]; intros H; simpl; [reflexivity |].
  rewrite (H x (or_introl eq_refl)), IH; [reflexivity |].
  intros y Hy. apply H. now right.
Qed.

(** The molten table, block by block. *)
Lemma melt_blocks (ids : Series) (cols : DataFrame) :
  Forall (fun col => List.length (snd col) = List.length ids) cols ->
  let rows :=
    flat_map (fun col => map (fun dv => (fst dv, VStr (fst col), snd dv))
                           (combine ids (snd col))) cols in
  flat_map (fun _ : string * Series => ids) cols = map (fun row => fst (fst row)) rows /\
  flat_map (fun col => repeat (VStr (fst col)) (List.length ids)) cols =
    map (fun row => snd (fst row)) rows /\
  flat_map snd cols = map snd rows.
Proof.
  assert (Hblock : forall (c : string) (s : Series),
            List.length s = List.length ids ->
            ids = map (fun row : value * value * value => fst (fst row))
                    (map (fun dv => (fst dv, VStr c, snd dv)) (combine ids s)) /\
            repeat (VStr c) (List.length ids) =
              map (fun row : value * value * value => snd (fst row))
                (map (fun dv => (fst dv, VStr c, snd dv)) (combine ids s)) /\
            s = map snd (map (fun dv => (fst dv, VStr c, snd dv)) (combine ids s))).
  { intros c. induction ids as [| d ids IH]; intros [| x s] H; try discriminate;
      [now repeat split |].
    destruct (IH s) as [H1 [H2 H3]]; [now inversion H |].
    simpl. now rewrite <- H1, <- H2, <- H3. }
  induction 1 as [| [c s] cols Hlen Hall IH]; cbv zeta in *; simpl;
    [now repeat split |].
  destruct IH as [I1 [I2 I3]]. destruct (Hblock c s Hlen) as [H1 [H2 H3]].
  rewrite !map_app, <- H1, <- H2, <- H3, <- I1, <- I2, <- I3. now repeat split.
Qed.

(** X17.  The long table behind the trend chart, for a selection without
    a metric labelled ["Value"], which [melt] refuses.  It has the columns
    Date, Metric and Value; its rows are, metric after metric in the order
    of the selection, the days of the range picked on which the metric has
    a value, each with its date, the label of the metric and the value.  A
    day without a date or without a value gives no row. *)
Theorem long_df_rows (df_metrics : DataFrame) (dates : Series)
    (selected : DataFrame) (date_range : list Z) :
  NoDup (labels df_metrics) ->
  In ("Date", dates) df_metrics ->
  Forall date_cell dates ->
  selected <> [] ->
  NoDup (labels selected) ->
  ~ In "Value" (labels selected) ->
  Forall (fun col => In col df_metrics /\ fst col <> "Date" /\
                     List.length (snd col) = List.length dates) selected ->
  exists date metric value,
    long_df df_metrics date_range (labels selected) =
      Returned [("Date", date); ("Metric", metric); ("Value", value)] /\
    List.length date = List.length value /\
    List.length metric = List.length value /\
    combine (combine date metric) value =
      flat_map (metric_rows date_range dates) selected.
Proof.
  intros Hnd Hdate Hcells _ _ Hnovalue Hsel.
  destruct (dfm_columns df_metrics dates date_range Hnd Hdate Hcells)
    as [table [Hdfm [Hndt Hcols]]].
  set (m := map (date_ok date_range) dates) in *.
  set (picked := map (fun col : string * Series => (fst col, mask_select m (snd col)))
                   selected).
  assert (Hlabels : labels picked = labels selected).
  { unfold picked, labels. now rewrite map_map. }
  assert (Hpicked : select_columns table ("Date" :: labels selected) =
                    Returned (("Date", mask_select m dates) :: picked)).
  { simpl. rewrite (labelled_unique table "Date" (mask_select m dates) Hndt);
      [| now apply Hcols].
    rewrite <- Hlabels, select_columns_cols; [reflexivity | exact Hndt |].
    apply Forall_forall. intros col Hcol. unfold picked in Hcol.
    apply in_map_iff in Hcol. destruct Hcol as [[c s] [<- Hin]].
    rewrite Forall_forall in Hsel. destruct (Hsel _ Hin) as [Hin' [_ Hlen]].
    now apply Hcols. }
  assert (Hothers : filter (fun col : string * Series => negb (fst col =? "Date"))
                      picked = picked).
  { apply forallb_filter_id. apply forallb_forall. intros col Hcol.
    unfold picked in Hcol. apply in_map_iff in Hcol.
    destruct Hcol as [[c s] [<- Hin]]. rewrite Forall_forall in Hsel.
    destruct (Hsel _ Hin) as [_ [Hne _]]. simpl in *.
    apply negb_true_iff. now apply String.eqb_neq. }
  assert (Hrect : Forall (fun col => List.length (snd col) =
                                     List.length (mask_select m dates)) picked).
  { apply Forall_forall. intros col Hcol. unfold picked in Hcol.
    apply in_map_iff in Hcol. destruct Hcol as [[c s] [<- Hin]].
    rewrite Forall_forall in Hsel. destruct (Hsel _ Hin) as [_ [_ Hlen]].
    simpl. now apply mask_select_length. }
  destruct (melt_blocks (mask_select m dates) picked Hrect) as [H1 [H2 H3]].
  set (rows := flat_map _ picked) in *.
  set (complete := fun row : value * value * value =>
                     negb (isna (fst (fst row))) && negb (isna (snd (fst row)))
                     && negb (isna (snd row))).
  exists (map (fun row => fst (fst row)) (filter complete rows)),
         (map (fun row => snd (fst row)) (filter complete rows)),
         (map snd (filter complete rows)).
  split; [| split; [| split]].
  - unfold long_df. rewrite Hdfm. cbn [obind]. rewrite Hpicked. cbn [obind].
    unfold melt.
    assert (Hvalue : has_column (("Date", mask_select m dates) :: picked) "Value"
                     = false).
    { apply has_column_false. unfold labels in *. simpl. rewrite Hlabels.
      intros [H | H]; [discriminate | contradiction]. }
    rewrite Hvalue.
    assert (Hids : series (("Date", mask_select m dates) :: picked) "Date" =
                   Returned (mask_select m dates)).
    { unfold series, getitem, get, labelled. simpl filter.
      fold (labelled "Date" picked). rewrite labelled_absent; [reflexivity |].
      rewrite Hlabels. intros Hin. apply in_map_iff in Hin.
      destruct Hin as [col [Hfst Hcol]]. rewrite Forall_forall in Hsel.
      destruct (Hsel _ Hcol) as [_ [Hne _]]. contradiction. }
    rewrite Hids. cbn [obind]. simpl filter. rewrite Hothers, H1, H2, H3.
    f_equal. unfold dropna. rewrite complete_rows_long. fold complete.
    unfold filter_rows. simpl. now rewrite !mask_select_map_filter.
  - now rewrite !length_map.
  - now rewrite !length_map.
  - rewrite combine_rows. unfold rows. rewrite filter_flat_map.
    unfold picked. rewrite flat_map_concat_map, map_map, <- flat_map_concat_map.
    apply flat_map_in_ext. intros [c s] Hin. simpl fst. simpl snd.
    rewrite Forall_forall in Hsel. destruct (Hsel _ Hin) as [_ [_ Hlen]].
    now apply block_rows.
Qed.

(** A metric labelled ["Value"] is refused by [melt]. *)
Example long_df_with_a_value_metric :
  long_df [ ("Date", [VTime 1]); ("Value", [VFloat (FNum 1)]) ] [] ["Value"] =
  Raised (ValueError "value_name cannot match an element in the DataFrame columns.").
Proof. reflexivity. Qed.

Lemma long_df_rows_witness :
  exists date metric value,
    long_df
      [ ("Date", [VTime 1; VTime 2; VNaT; VTime 9]);
        ("Clicks (total)",
         [VFloat (FNum 7); VFloat FNaN; VFloat (FNum 1); VFloat (FNum 4)]);
        ("Page views",
         [VFloat (FNum 5); VFloat (FNum 6); VFloat (FNum 1); VFloat (FNum 2)]) ]
      [1%Z; 2%Z]
      (labels [ ("Page views",
                 [VFloat (FNum 5); VFloat (FNum 6); VFloat (FNum 1); VFloat (FNum 2)]);
                ("Clicks (total)",
                 [VFloat (FNum 7); VFloat FNaN; VFloat (FNum 1); VFloat (FNum 4)]) ]) =
      Returned [("Date", date); ("Metric", metric); ("Value", value)] /\
    List.length date = List.length value /\
    List.length metric = List.length value /\
    combine (combine date metric) value =
      flat_map (metric_rows [1%Z; 2%Z] [VTime 1; VTime 2; VNaT; VTime 9])
        [ ("Page views",
           [VFloat (FNum 5); VFloat (FNum 6); VFloat (FNum 1); VFloat (FNum 2)]);
          ("Clicks (total)",
           [VFloat (FNum 7); VFloat FNaN; VFloat (FNum 1); VFloat (FNum 4)]) ].
Proof.
  apply (long_df_rows
           [ ("Date", [VTime 1; VTime 2; VNaT; VTime 9]);
             ("Clicks (total)",
              [VFloat (FNum 7); VFloat FNaN; VFloat (FNum 1); VFloat (FNum 4)]);
             ("Page views",
              [VFloat (FNum 5); VFloat (FNum 6); VFloat (FNum 1); VFloat (FNum 2)]) ]).
  - repeat constructor; simpl; intuition discriminate.
  - now left.
  - repeat constructor.
  - discriminate.
  - repeat constructor; simpl; intuition discriminate.
  - simpl. intuition discriminate.
  - repeat constructor; simpl; auto; discriminate.
Defined.

(* ================================================================= *)
(** * Closed instances of the facts above *)

Lemma read_posts_csv_created_date_witness :
  exists dates,
    series
      [ ("Post Title", [VStr "Launch Post"; VStr "Hiring"]);
        ("Created Date", [VTime 20; VNaT]);
        ("Likes", [VFloat (FNum 12); VFloat FNaN]) ] "Created Date" =
    Returned dates /\ Forall date_cell dates.
Proof.
  apply (read_posts_csv_created_date sample_parse_number sample_to_datetime
           [ ("Post title", [VStr "Launch Post"; VStr "Hiring"]);
             ("Created date", [VTime 20; VStr "yesterday"]);
             ("Likes", [VStr "12"; VStr "many"]) ]).
  - repeat constructor; simpl; intuition discriminate.
  - intros s s' H. inversion H; subst. apply Forall_forall.
    intros v Hv. apply in_map_iff in Hv. destruct Hv as [x [<- _]].
    now destruct x.
  - reflexivity.
Defined.

(* ================================================================= *)
(** * From the export to the flags *)

Section Pipeline.

Variable pn : string -> option float.
Variable td : Series -> outcome Series.
Variable rf : float -> string.
Variable rt : Z -> string.



End Pipeline.


(* ================================================================= *)
(** * Selecting more tags *)

Section MoreTags.

Variable rf : float -> string.
Variable rt : Z -> string.

Lemma filtered_by_tags (df_posts : DataFrame) (dates titles : Series)
    (date_range : list Z) (tag : string) (tags : list string) :
  series df_posts "Created Date" = Returned dates ->
  Forall date_cell dates ->
  series df_posts "Post Title" = Returned titles ->
  List.length dates = List.length titles ->
  filtered rf rt df_posts date_range (tag :: tags) =
  Returned (filter_rows df_posts
              (mask_and (map (date_ok date_range) dates)
                 (map (has_tag rf rt (tag :: tags)) titles))).
Proof.
  intros Hd Hcells Ht Hlen.
  destruct date_range as [| a [| b [| c r]]];
    try (apply filtered_tags_only; [discriminate | exact Ht | exact Hlen]).
  exact (filtered_pair rf rt _ _ _ a b (tag :: tags) Hd Hcells Ht Hlen).
Qed.

Lemma has_tag_more (tags more : list string) (title : value) :
  has_tag rf rt tags title = true -> has_tag rf rt (tags ++ more) title = true.
Proof.
  unfold has_tag. rewrite existsb_app. intros ->. reflexivity.
Qed.

(** X20.  Tags are alternatives: a post that passes the filters with some
    tags selected still passes when more tags are selected, the date range
    being the same.  Both results are the posts table restricted to a mask,
    and the mask of the larger selection is true wherever the mask of the
    smaller one is. *)
Theorem more_tags_keep_more_posts (df_posts : DataFrame) (dates titles : Series)
    (date_range : list Z) (tag : string) (tags more : list string) :
  series df_posts "Created Date" = Returned dates ->
  Forall date_cell dates ->
  series df_posts "Post Title" = Returned titles ->
  List.length dates = List.length titles ->
  exists fewer_kept more_kept,
    filtered rf rt df_posts date_range (tag :: tags) =
      Returned (filter_rows df_posts fewer_kept) /\
    filtered rf rt df_posts date_range (tag :: tags ++ more) =
      Returned (filter_rows df_posts more_kept) /\
    List.length fewer_kept = List.length titles /\
    Forall2 (fun a b => a = true -> b = true) fewer_kept more_kept.
Proof.
  intros Hd Hcells Ht Hlen.
  eexists _, _. split; [exact (filtered_by_tags _ _ _ date_range tag tags Hd Hcells Ht Hlen) |].
  split; [exact (filtered_by_tags _ _ _ date_range tag (tags ++ more) Hd Hcells Ht Hlen) |].
  unfold mask_and. split.
  - now rewrite length_map, length_combine, !length_map, Hlen, Nat.min_id.
  - clear Hd Hcells Ht. revert titles Hlen.
    induction dates as [| d ds IH]; intros [| t ts] Hlen; try discriminate;
      simpl; constructor.
    + intros H. apply andb_true_iff in H. destruct H as [H1 H2].
      apply andb_true_iff. split; [exact H1 |].
      exact (has_tag_more (tag :: tags) more t H2).
    + apply IH. now inversion Hlen.
Qed.

End MoreTags.

Lemma more_tags_keep_more_posts_witness :
  exists fewer_kept more_kept,
    filtered sample_repr_float sample_repr_timestamp
      [ ("Created Date", [VTime 3; VTime 5; VNaT]);
        ("Post Title", [VStr "New #osig"; VStr "More #AI"; VStr "Old #ai"]) ]
      [1%Z; 9%Z] ("#osig" :: []) =
      Returned
        (filter_rows
           [ ("Created Date", [VTime 3; VTime 5; VNaT]);
             ("Post Title", [VStr "New #osig"; VStr "More #AI"; VStr "Old #ai"]) ]
           fewer_kept) /\
    filtered sample_repr_float sample_repr_timestamp
      [ ("Created Date", [VTime 3; VTime 5; VNaT]);
        ("Post Title", [VStr "New #osig"; VStr "More #AI"; VStr "Old #ai"]) ]
      [1%Z; 9%Z] ("#osig" :: [] ++ ["#AI"]) =
      Returned
        (filter_rows
           [ ("Created Date", [VTime 3; VTime 5; VNaT]);
             ("Post Title", [VStr "New #osig"; VStr "More #AI"; VStr "Old #ai"]) ]
           more_kept) /\
    List.length fewer_kept =
      List.length [VStr "New #osig"; VStr "More #AI"; VStr "Old #ai"] /\
    Forall2 (fun a b => a = true -> b = true) fewer_kept more_kept.
Proof.
  apply (more_tags_keep_more_posts sample_repr_float sample_repr_timestamp
           [ ("Created Date", [VTime 3; VTime 5; VNaT]);
             ("Post Title", [VStr "New #osig"; VStr "More #AI"; VStr "Old #ai"]) ]
           [VTime 3; VTime 5; VNaT]
           [VStr "New #osig"; VStr "More #AI"; VStr "Old #ai"]).
  - reflexivity.
  - repeat constructor.
  - reflexivity.
  - reflexivity.
Defined.
